(** * microcore.file_storage: a shallow embedding of [Storage]

    The class [Storage] of [microcore/file_storage.py] wraps the Python
    standard library ([pathlib], [os], [shutil], [fnmatch], [json]) and
    [chardet].  The development has four layers:

    - Python strings and the string operations the source uses;
    - [pathlib.PurePosixPath]: parsing, joining, suffixes;
    - a POSIX file system: a tree of directories and regular files, path
      resolution by walking the tree, and the system calls the source
      reaches ([open], [mkdir], [rename], [remove], [rmtree], [copy2]);
    - the methods of [Storage], written in an exception-and-state monad.

    Scope of the model: POSIX path flavour; regular files and directories
    only (no symbolic links, no permissions, no disk quota); Python [str]
    is [string] (code points below 256); pathlib as in CPython 3.10-3.13. *)

From Stdlib Require Import Strings.Byte Strings.Ascii.
From stdpp Require Import base tactics option list strings pretty.

Local Open Scope list_scope.

(** ** Python strings *)

Definition nonempty (s : string) : bool :=
  match s with EmptyString => false | String _ _ => true end.

(** [s.startswith(p)] *)
Fixpoint startswith (p s : string) : bool :=
  match p, s with
  | EmptyString, _ => true
  | String a p', String b s' => if decide (a = b) then startswith p' s' else false
  | String _ _, EmptyString => false
  end.

(** [c in s] for a one-character string [c] *)
Fixpoint contains (c : ascii) (s : string) : bool :=
  match s with
  | EmptyString => false
  | String a s' => if decide (a = c) then true else contains c s'
  end.

(** [s.split(sep)] for a one-character separator *)
Fixpoint split_on (sep : ascii) (s : string) : list string :=
  match s with
  | EmptyString => [EmptyString]
  | String a s' =>
      if decide (a = sep) then EmptyString :: split_on sep s'
      else match split_on sep s' with
           | h :: t => String a h :: t
           | [] => [String a EmptyString]
           end
  end.

(** [sep.join(l)] *)
Fixpoint join (sep : string) (l : list string) : string :=
  match l with
  | [] => ""
  | [x] => x
  | x :: l' => x +:+ sep +:+ join sep l'
  end.

(** [s.lstrip("/")] *)
Fixpoint lstrip_slash (s : string) : string :=
  match s with
  | String a s' => if decide (a = "/"%char) then lstrip_slash s' else s
  | EmptyString => EmptyString
  end.

(** [os.path.isabs(name)] on POSIX *)
Definition isabs (name : string) : bool := startswith "/" name.

(** What an f-string prints for a value that is a [str] or [None]. *)
Definition fmt (o : option string) : string :=
  match o with Some s => s | None => "None" end.

(** Truthiness of a [str | None] value, as tested by [or] and [if]. *)
Definition truthy (o : option string) : bool :=
  match o with Some s => nonempty s | None => false end.

(** [a or b] on such values *)
Definition py_or (a b : option string) : option string :=
  if truthy a then a else b.

(** ** pathlib.PurePosixPath *)

Record PurePath := mkPath { root : string; parts : list string }.

Definition is_part (x : string) : bool :=
  nonempty x && negb (String.eqb x ".").

(** [PurePosixPath(s)]: [splitroot] then the components that are neither
    empty nor ["."]. *)
Definition parse (s : string) : PurePath :=
  let stripped := lstrip_slash s in
  let k := String.length s - String.length stripped in
  {| root := if Nat.eqb k 0 then "" else if Nat.eqb k 2 then "//" else "/";
     parts := filter (fun x => Is_true (is_part x)) (split_on "/" stripped) |}.

Definition is_absolute (p : PurePath) : bool := nonempty (root p).

(** [a / b] *)
Definition joinpath (a b : PurePath) : PurePath :=
  if is_absolute b then b
  else {| root := root a; parts := parts a ++ parts b |}.

(** [str(p)] *)
Definition to_str (p : PurePath) : string :=
  match root p, parts p with
  | EmptyString, [] => "."
  | r, ps => r +:+ join "/" ps
  end.

(** [p.name] *)
Definition name_of (p : PurePath) : string := List.last (parts p) "".

(** Stem and suffix of a final component: the suffix starts at the last
    dot, unless that dot is the first or the last character. *)
Definition stem_suffix (name : string) : string * string :=
  let ps := split_on "." name in
  let stem := join "." (removelast ps) in
  let l := List.last ps "" in
  if (2 <=? length ps)%nat && nonempty stem && nonempty l
  then (stem, "." +:+ l) else (name, "").

(** [p.suffix] *)
Definition suffix (p : PurePath) : string := snd (stem_suffix (name_of p)).

(** [p.with_suffix("")]; [None] stands for the [ValueError] raised on an
    empty name. *)
Definition with_suffix_empty (p : PurePath) : option PurePath :=
  if nonempty (name_of p)
  then Some {| root := root p;
               parts := removelast (parts p) ++ [fst (stem_suffix (name_of p))] |}
  else None.

(** [p.parent] *)
Definition parent (p : PurePath) : PurePath :=
  {| root := root p; parts := removelast (parts p) |}.

(** ** Exceptions and the state-and-exception monad *)

Inductive exn :=
| FileNotFoundError | NotADirectoryError | IsADirectoryError
| FileExistsError | OSError
| ValueError | TypeError | LookupError | UnicodeError | JSONDecodeError.

#[global] Instance exn_eq_dec : EqDecision exn.
Proof. solve_decision. Defined.

Inductive outcome (A : Type) :=
| Ok (a : A)
| Raise (e : exn).
Arguments Ok {A} a.
Arguments Raise {A} e.

(** ** The file system: a tree of directories and regular files *)

#[warnings="-register-all"]
Inductive node :=
| File (data : list byte)
| Dir (entries : list (string * node)).

(** A canonical path: the names from the root directory down. *)
Abbreviation cpath := (list string).

Fixpoint find_entry (c : string) (es : list (string * node)) : option node :=
  match es with
  | [] => None
  | (k, v) :: es' => if decide (k = c) then Some v else find_entry c es'
  end.

(** Replace the entry named [c], or add it at the end of the directory. *)
Fixpoint put_entry (c : string) (v : node) (es : list (string * node))
  : list (string * node) :=
  match es with
  | [] => [(c, v)]
  | (k, w) :: es' =>
      if decide (k = c) then (k, v) :: es' else (k, w) :: put_entry c v es'
  end.

Fixpoint del_entry (c : string) (es : list (string * node))
  : list (string * node) :=
  match es with
  | [] => []
  | (k, w) :: es' =>
      if decide (k = c) then del_entry c es' else (k, w) :: del_entry c es'
  end.

Fixpoint get (t : node) (p : cpath) : option node :=
  match p with
  | [] => Some t
  | c :: p' =>
      match t with
      | Dir es => match find_entry c es with
                  | Some m => get m p'
                  | None => None
                  end
      | File _ => None
      end
  end.

(** [put t p v]: the tree with [v] at [p]; the directory that holds [p]
    must exist, otherwise the tree is unchanged. *)
Fixpoint put (t : node) (p : cpath) (v : node) : node :=
  match p with
  | [] => v
  | c :: p' =>
      match t with
      | Dir es =>
          match p' with
          | [] => Dir (put_entry c v es)
          | _ => match find_entry c es with
                 | Some m => Dir (put_entry c (put m p' v) es)
                 | None => t
                 end
          end
      | File _ => t
      end
  end.

(** [del t p]: the tree without the entry at [p] (and all beneath it). *)
Fixpoint del (t : node) (p : cpath) : node :=
  match p with
  | [] => t
  | c :: p' =>
      match t with
      | Dir es =>
          match p' with
          | [] => Dir (del_entry c es)
          | _ => match find_entry c es with
                 | Some m => Dir (put_entry c (del m p') es)
                 | None => t
                 end
          end
      | File _ => t
      end
  end.

Definition is_dir_node (o : option node) : bool :=
  match o with Some (Dir _) => true | _ => false end.
Definition is_file_node (o : option node) : bool :=
  match o with Some (File _) => true | _ => false end.

(** Computations that read and change the file system and may raise; the
    tree returned with [Raise] is the state when the exception left. *)
Definition M (A : Type) : Type := node -> outcome A * node.

Definition ret {A} (a : A) : M A := fun t => (Ok a, t).
Definition raise {A} (e : exn) : M A := fun t => (Raise e, t).
Definition bind {A B} (m : M A) (f : A -> M B) : M B :=
  fun t => match m t with
           | (Ok a, t') => f a t'
           | (Raise e, t') => (Raise e, t')
           end.
(** A query of the file system *)
Definition ask {A} (q : node -> A) : M A := fun t => (Ok (q t), t).
(** Lift a pure, fallible query *)
Definition try {A} (q : node -> outcome A) : M A := fun t => (q t, t).

#[global] Instance M_ret : MRet M := @ret.
#[global] Instance M_bind : MBind M := fun A B f m => bind m f.

(** ** Path resolution *)

(** One step of the kernel's path walk from directory [cur]. *)
Definition step (cur : cpath) (c : string) : cpath :=
  if decide (c = "" ∨ c = ".") then cur
  else if decide (c = "..") then removelast cur
  else cur ++ [c].

(** Walk the components; each one is looked up in a directory, so the
    current location must be a directory at every step. *)
Fixpoint walk (t : node) (cur : cpath) (comps : list string) : outcome cpath :=
  match comps with
  | [] => Ok cur
  | c :: rest =>
      match get t cur with
      | Some (Dir _) => walk t (step cur c) rest
      | Some (File _) => Raise NotADirectoryError
      | None => Raise FileNotFoundError
      end
  end.

(** A path handed to a system call: anchored at the root or at the working
    directory, and its components. *)
Record ospath := mkOs { anchored : bool; comps : list string }.

Definition os_of_path (p : PurePath) : ospath :=
  {| anchored := is_absolute p; comps := parts p |}.

Definition os_of_str (s : string) : ospath :=
  {| anchored := isabs s; comps := split_on "/" s |}.

(** [Path.resolve()] without symbolic links: lexical. *)
Definition resolve (cwd : cpath) (p : PurePath) : cpath :=
  foldl step (if is_absolute p then [] else cwd) (parts p).

(** ** The host: what the process inherits and the libraries it calls *)

(** Values of [json.loads]; [JNull] is Python's [None]. *)
#[warnings="-register-all"]
Inductive json :=
| JNull
| JBool (b : bool)
| JNum (z : Z)
| JStr (s : string)
| JList (l : list json)
| JDict (l : list (string * json)).

Record Host := mkHost {
  cwd : cpath;                                  (* os.getcwd(), canonical *)
  encode : string -> string -> outcome (list byte); (* codec name, text *)
  decode : string -> list byte -> outcome string;   (* codec name, data *)
  locale_encoding : string;                     (* used when encoding=None *)
  chardet_detect : list byte -> option string;  (* chardet.detect(..)["encoding"] *)
  fnmatch : string -> string -> bool;           (* fnmatch.fnmatch(name, pat) *)
  json_loads : string -> outcome json;
  json_dumps : json -> string                   (* json.dumps(.., indent=4) *)
}.

(** Text-mode reading with [newline=None]: ["\r\n"] and ["\r"] become
    ["\n"]. *)
Fixpoint universal_newlines (s : string) : string :=
  match s with
  | EmptyString => EmptyString
  | String c s' =>
      if decide (c = "013"%char) then
        match s' with
        | String c' s'' =>
            if decide (c' = "010"%char)
            then String "010" (universal_newlines s'')
            else String "010" (universal_newlines s')
        | EmptyString => String "010" EmptyString
        end
      else String c (universal_newlines s')
  end.

Section os.
Variable h : Host.

Definition locate (p : ospath) (t : node) : outcome cpath :=
  walk t (if anchored p then [] else cwd h) (comps p).

(** [os.stat]: the node a path leads to, if any. *)
Definition stat (p : ospath) (t : node) : option node :=
  match locate p t with
  | Ok q => get t q
  | Raise _ => None
  end.

(** [Path.exists()], [Path.is_file()], [Path.is_dir()]: a failing
    [stat] answers [False]. *)
Definition path_exists (p : ospath) (t : node) : bool :=
  match stat p t with Some _ => true | None => false end.
Definition is_file (p : ospath) (t : node) : bool := is_file_node (stat p t).
Definition is_dir (p : ospath) (t : node) : bool := is_dir_node (stat p t).

(** [open(p, "rb").read()] *)
Definition read_bytes (p : ospath) : M (list byte) := fun t =>
  match locate p t with
  | Raise e => (Raise e, t)
  | Ok q =>
      match get t q with
      | Some (File d) => (Ok d, t)
      | Some (Dir _) => (Raise IsADirectoryError, t)
      | None => (Raise FileNotFoundError, t)
      end
  end.

(** [open(name, ..)] on a string: the empty path names nothing. *)
Definition open_read (name : string) : M (list byte) :=
  if nonempty name then read_bytes (os_of_str name)
  else raise FileNotFoundError.

(** [open(p, "wb").write(d)]: creates or truncates, then writes. *)
Definition write_bytes (p : ospath) (d : list byte) : M () := fun t =>
  match locate p t with
  | Raise e => (Raise e, t)
  | Ok q =>
      match get t q with
      | Some (Dir _) => (Raise IsADirectoryError, t)
      | _ => (Ok (), put t q (File d))
      end
  end.

(** [Path.write_text(content, encoding=enc)]: the file is opened (and so
    created or emptied) before the text is encoded. *)
Definition write_text (p : ospath) (content : string) (enc : option string)
  : M () :=
  write_bytes p [];;
  d ← try (fun _ => encode h (default (locale_encoding h) enc) content);
  write_bytes p d.

(** [os.mkdir] *)
Definition os_mkdir (p : ospath) : M () := fun t =>
  match locate p t with
  | Raise e => (Raise e, t)
  | Ok q =>
      match get t q with
      | Some _ => (Raise FileExistsError, t)
      | None => (Ok (), put t q (Dir []))
      end
  end.

(** [Path.mkdir(parents=False, exist_ok=True)] *)
Definition mkdir_exist_ok (p : ospath) : M () := fun t =>
  match os_mkdir p t with
  | (Ok _, t') => (Ok (), t')
  | (Raise FileNotFoundError, t') => (Raise FileNotFoundError, t')
  | (Raise e, t') => if is_dir p t' then (Ok (), t') else (Raise e, t')
  end.

(** [Path.mkdir(parents=True, exist_ok=True)], by recursion on the
    components from the last one: on [FileNotFoundError] the parent is
    made first, and a path that is its own parent gives up. *)
Fixpoint mkdir_rev (a : bool) (rparts : list string) : M () := fun t =>
  let p := mkOs a (rev rparts) in
  match os_mkdir p t with
  | (Ok _, t') => (Ok (), t')
  | (Raise FileNotFoundError, t') =>
      match rparts with
      | [] => (Raise FileNotFoundError, t')
      | _ :: rparent =>
          match mkdir_rev a rparent t' with
          | (Ok _, t1) => mkdir_exist_ok p t1
          | (Raise e, t1) => (Raise e, t1)
          end
      end
  | (Raise e, t') => if is_dir p t' then (Ok (), t') else (Raise e, t')
  end.

Definition mkdir_parents (p : PurePath) : M () :=
  mkdir_rev (is_absolute p) (rev (parts p)).

(** [os.remove] *)
Definition os_remove (p : ospath) : M () := fun t =>
  match locate p t with
  | Raise e => (Raise e, t)
  | Ok q =>
      match get t q with
      | Some (File _) => (Ok (), del t q)
      | Some (Dir _) => (Raise IsADirectoryError, t)
      | None => (Raise FileNotFoundError, t)
      end
  end.

(** [os.rename] *)
Definition os_rename (a b : ospath) : M () := fun t =>
  match locate a t, locate b t with
  | Raise e, _ | Ok _, Raise e => (Raise e, t)
  | Ok qa, Ok qb =>
      match get t qa, get t qb with
      | None, _ => (Raise FileNotFoundError, t)
      | Some (File d), Some (Dir _) => (Raise IsADirectoryError, t)
      | Some (File d), _ =>
          if decide (qa = qb) then (Ok (), t)
          else (Ok (), put (del t qa) qb (File d))
      | Some (Dir es), Some (File _) => (Raise NotADirectoryError, t)
      | Some (Dir es), Some (Dir (_ :: _)) =>
          if decide (qa = qb) then (Ok (), t) else (Raise OSError, t)
      | Some (Dir es), _ =>
          if decide (qa = qb) then (Ok (), t)
          else if decide (qa `prefix_of` qb) then (Raise OSError, t)
          else (Ok (), put (del t qa) qb (Dir es))
      end
  end.

(** [shutil.rmtree] *)
Definition rmtree (p : ospath) : M () := fun t =>
  match locate p t with
  | Raise e => (Raise e, t)
  | Ok q =>
      match get t q with
      | Some (Dir _) => (Ok (), del t q)
      | Some (File _) => (Raise NotADirectoryError, t)
      | None => (Raise FileNotFoundError, t)
      end
  end.

(** [os.path.samefile], with a failing [stat] answering [False] as
    [shutil] does *)
Definition samefile (a b : ospath) (t : node) : bool :=
  match locate a t, locate b t with
  | Ok qa, Ok qb =>
      bool_decide (qa = qb) && bool_decide (is_Some (get t qa))
  | _, _ => false
  end.

(** [shutil.copy2(src, dst)]: into [dst] when it is a directory; file
    times and modes are outside the model. *)
Definition copy2 (src dst : ospath) : M () := fun t =>
  let dst :=
    if is_dir dst t
    then mkOs (anchored dst) (comps dst ++ [List.last (comps src) ""])
    else dst in
  if samefile src dst t then (Raise OSError, t)
  else (d ← read_bytes src; write_bytes dst d) t.
End os.

(** [Path.rglob("*")] on a directory, as paths relative to it: the entries
    of the directory in the order the directory lists them, then the same
    for each entry in turn (regular files contribute nothing more). *)
Fixpoint rglob_rel (n : node) : list cpath :=
  match n with
  | File _ => []
  | Dir es =>
      (map (fun e => [e.1]) es ++
       (fix below (l : list (string * node)) : list cpath :=
          match l with
          | [] => []
          | (k, v) :: l' => map (cons k) (rglob_rel v) ++ below l'
          end) es)%list
  end.

(** ** Configuration *)

(** The fields of [microcore.config.Config] that [Storage] reads through
    [config()] on every call; the configuration module itself is outside
    this development, so its values are parameters. *)
Record Config := mkConfig {
  STORAGE_PATH : string;
  STORAGE_DEFAULT_FILE_EXT : option string;
  DEFAULT_ENCODING : option string
}.

(** ** Storage *)

Section Storage.
Variable h : Host.
Variable cfg : Config.

(** [Storage.path] *)
Definition self_path : PurePath := parse (STORAGE_PATH cfg).

(** [Storage.default_ext] *)
Definition default_ext : option string :=
  match STORAGE_DEFAULT_FILE_EXT cfg with
  | Some ext =>
      if nonempty ext && negb (startswith "." ext)
      then Some ("." +:+ ext) else Some ext
  | None => None
  end.

(** [Storage.default_encoding] *)
Definition default_encoding : option string := DEFAULT_ENCODING cfg.

(** [self.path / name] as handed to the system *)
Definition under_root (name : string) : ospath :=
  os_of_path (joinpath self_path (parse name)).

(** [Storage.exists] *)
Definition exists_ (name : string) : M bool :=
  ask (path_exists h (under_root name)).

(** [Storage.abs_path] *)
Definition abs_path (name : string) : PurePath :=
  if isabs name then parse name else joinpath self_path (parse name).

(** [Storage.read], lines 44-55: the name that is opened. *)
Definition read_name (name : string) : M string :=
  if negb (isabs name) && negb (startswith "./" name) then
    if contains "." name then
      let parts := split_on "." name in
      let name := join "." (removelast parts) in
      let ext := "." +:+ List.last parts "" in
      ret (to_str self_path +:+ "/" +:+ name +:+ ext)
    else
      let ext := default_ext in
      ex ← exists_ (name +:+ fmt ext);
      let ext := if (ex : bool) then fmt ext else "" in
      ret (to_str self_path +:+ "/" +:+ name +:+ ext)
  else ret name.

(** [Storage.read], lines 56-64: the read itself. *)
Definition read_open (name : string) (encoding : option string) : M string :=
  match encoding with
  | None =>
      rawdata ← open_read h name;
      match chardet_detect h rawdata with
      | None => raise TypeError
      | Some enc => try (fun _ => decode h enc rawdata)
      end
  | Some enc =>
      rawdata ← open_read h name;
      text ← try (fun _ => decode h enc rawdata);
      ret (universal_newlines text)
  end.

(** [Storage.read] *)
Definition read (name : string) (encoding : option string) : M string :=
  let encoding := py_or encoding default_encoding in
  name ← read_name name;
  read_open name encoding.

(** [Storage.read_json]; [JNull] is the default's default, [None]. *)
Definition read_json (name : string) (default : json) : M json := fun t =>
  match (s ← read name None; try (fun _ => json_loads h s)) t with
  | (Raise FileNotFoundError, t') =>
      match default with
      | JNull => (Raise FileNotFoundError, t')
      | _ => (Ok default, t')
      end
  | r => r
  end.

(** [Storage.delete] *)
Definition delete (name : string) : M () := os_remove h (under_root name).

(** [Storage.write], lines 104-105: [str(base_name)] and the extension as
    the f-strings print them; [None] stands for the [ValueError] of
    [with_suffix] on an empty name. *)
Definition name_parts (name : string) : option (string * string) :=
  match with_suffix_empty (parse name) with
  | None => None
  | Some base_name =>
      let ext :=
        if nonempty (suffix (parse name))
        then Some (suffix (parse name)) else default_ext in
      Some (to_str base_name, fmt ext)
  end.

(** Line 113: [f"{base_name}_{counter}{ext}"] *)
Definition numbered (base_name ext : string) (counter : nat) : string :=
  base_name +:+ "_" +:+ pretty counter +:+ ext.

(** The [while True] loop of [Storage.write]: the first counter from
    [counter] on whose numbered name is not a regular file.  [fuel]
    bounds the number of names tried; [None] when it runs out. *)
Fixpoint probe (fuel : nat) (base_name ext : string) (counter : nat)
         (t : node) : option string :=
  match fuel with
  | O => None
  | S fuel' =>
      let file_name1 := numbered base_name ext counter in
      if negb (is_file h (under_root file_name1) t) then Some file_name1
      else probe fuel' base_name ext (S counter) t
  end.

(** Lines 121-123: make the directory, write the text, return the name. *)
Definition write_file (file_name content : string) (encoding : option string)
  : M string :=
  mkdir_parents h (parent (joinpath self_path (parse file_name)));;
  write_text h (under_root file_name) content encoding;;
  ret file_name.

(** [Storage.write]; running out of [fuel] in the loop is reported as
    [None] in place of an outcome. *)
Definition write (fuel : nat) (name : string) (content : option string)
           (rewrite_existing backup_existing : bool)
           (encoding : option string) : node -> option (outcome string * node) :=
  fun t =>
  let encoding := py_or encoding default_encoding in
  let '(content, name) :=
    match content with
    | None => (name, "out" +:+ fmt default_ext)
    | Some c => (c, name)
    end in
  match name_parts name with
  | None => Some (Raise ValueError, t)
  | Some (base_name, ext) =>
      let file_name := base_name +:+ ext in
      if is_file h (under_root file_name) t
         && (backup_existing || negb rewrite_existing)
      then
        match probe fuel base_name ext 1 t with
        | None => None
        | Some file_name1 =>
            if negb rewrite_existing
            then Some (write_file file_name1 content encoding t)
            else if backup_existing then
              Some ((os_rename h (under_root file_name) (under_root file_name1);;
                     write_file file_name content encoding) t)
            else Some (write_file file_name content encoding t)
        end
      else Some (write_file file_name content encoding t)
  end.

(** [Storage.write_json] *)
Definition write_json (fuel : nat) (name : string) (data : json)
           (rewrite_existing backup_existing : bool) :=
  write fuel name (Some (json_dumps h data)) rewrite_existing backup_existing None.

(** [Storage.clean] *)
Definition clean (path : string) : M () :=
  let full_path := resolve (cwd h) (joinpath self_path (parse path)) in
  if negb (bool_decide (resolve (cwd h) self_path `prefix_of` full_path
                        ∧ resolve (cwd h) self_path ≠ full_path))
  then raise ValueError
  else
    let p := mkOs true full_path in
    ex ← ask (path_exists h p);
    isd ← ask (is_dir h p);
    if (ex : bool) && (isd : bool) then rmtree h p else ret ().

(** [parent / rel] for the relative path [rel] of an entry found by
    [rglob] *)
Definition child (p : PurePath) (rel : cpath) : PurePath :=
  {| root := root p; parts := parts p ++ rel |}.

(** [any(fnmatch.fnmatch(name, pattern) for pattern in exceptions)] *)
Definition excluded (exceptions : list string) (name : string) : bool :=
  existsb (fnmatch h name) exceptions.

(** One round of the loop of [Storage.copy], lines 157-165 *)
Definition copy_entry (src dest : PurePath) (exceptions : list string)
           (rel : cpath) : M () :=
  if excluded exceptions (join "/" rel) then ret ()
  else
    let path := child src rel in
    let dest_path := child dest rel in
    isd ← ask (is_dir h (os_of_path path));
    if (isd : bool) then mkdir_parents h dest_path
    else
      mkdir_parents h (parent dest_path);;
      copy2 h (os_of_path path) (os_of_path dest_path).

Fixpoint copy_entries (src dest : PurePath) (exceptions : list string)
         (rels : list cpath) : M () :=
  match rels with
  | [] => ret ()
  | rel :: rels' =>
      copy_entry src dest exceptions rel;;
      copy_entries src dest exceptions rels'
  end.

(** Lines 151-152: [Path(s) if Path(s).is_absolute() else self.path / s] *)
Definition rooted (s : string) : PurePath :=
  if is_absolute (parse s) then parse s else joinpath self_path (parse s).

(** [Storage.copy].  The entries of [src] are those present when the
    loop starts, which is what the loop sees whenever [dest] lies
    outside [src].  For a [dest] inside [src] the listing of the code,
    which is made as the loop goes, also meets what the loop creates; the
    definition does not describe that case, and the statements on
    directories keep to a [dest] outside [src]. *)
Definition copy (src dest : string) (exceptions : option (list string))
  : M () :=
  let exceptions := default [] exceptions in
  let src := rooted src in
  let dest := rooted dest in
  isd ← ask (is_dir h (os_of_path src));
  if (isd : bool) then
    mkdir_parents h dest;;
    rels ← ask (fun t => match stat h (os_of_path src) t with
                         | Some n => rglob_rel n
                         | None => []
                         end);
    copy_entries src dest exceptions rels
  else
    isf ← ask (is_file h (os_of_path src));
    if (isf : bool) then
      if negb (excluded exceptions (name_of src)) then
        destd ← ask (is_dir h (os_of_path dest));
        let dest := if (destd : bool)
                    then joinpath dest (parse (name_of src)) else dest in
        mkdir_parents h (parent dest);;
        copy2 h (os_of_path src) (os_of_path dest)
      else ret ()
    else ret ().
End Storage.

(** ** A concrete host, for running the model

    Codecs for the three encodings below on code points under 256, a
    detector that tells ASCII from Latin-1, wildcard matching for patterns
    made of literals, [*] and [?], and a JSON reader for atoms. *)

Definition bytes_of_str (s : string) : list byte :=
  map byte_of_ascii (String.list_ascii_of_string s).
Definition str_of_bytes (d : list byte) : string :=
  String.string_of_list_ascii (map ascii_of_byte d).

Definition is_ascii_byte (b : byte) : bool := (Byte.to_N b <? 128)%N.

Definition byte_of_N (n : N) : byte := default x00 (Byte.of_N n).

Definition utf8_encode (s : string) : list byte :=
  flat_map (fun b =>
    let n := Byte.to_N b in
    if (n <? 128)%N then [b]
    else [byte_of_N (192 + n / 64); byte_of_N (128 + n mod 64)])
    (bytes_of_str s).

Fixpoint utf8_decode (d : list byte) : outcome string :=
  match d with
  | [] => Ok ""
  | b :: d' =>
      let n := Byte.to_N b in
      if (n <? 128)%N then
        match utf8_decode d' with
        | Ok s => Ok (String (ascii_of_byte b) s)
        | Raise e => Raise e
        end
      else
        match d' with
        | b' :: d'' =>
            let m := Byte.to_N b' in
            if ((194 <=? n) && (n <=? 195) && (128 <=? m) && (m <? 192))%N then
              match utf8_decode d'' with
              | Ok s => Ok (String (ascii_of_N ((n - 192) * 64 + (m - 128))) s)
              | Raise e => Raise e
              end
            else Raise UnicodeError
        | [] => Raise UnicodeError
        end
  end.

Definition demo_encode (enc s : string) : outcome (list byte) :=
  if decide (enc = "utf-8") then Ok (utf8_encode s)
  else if decide (enc = "latin-1" ∨ enc = "ISO-8859-1") then Ok (bytes_of_str s)
  else if decide (enc = "ascii") then
    if forallb is_ascii_byte (bytes_of_str s) then Ok (bytes_of_str s)
    else Raise UnicodeError
  else Raise LookupError.

Definition demo_decode (enc : string) (d : list byte) : outcome string :=
  if decide (enc = "utf-8") then utf8_decode d
  else if decide (enc = "latin-1" ∨ enc = "ISO-8859-1") then Ok (str_of_bytes d)
  else if decide (enc = "ascii") then
    if forallb is_ascii_byte d then Ok (str_of_bytes d)
    else Raise UnicodeError
  else Raise LookupError.

Definition demo_detect (d : list byte) : option string :=
  match d with
  | [] => None
  | _ => if forallb is_ascii_byte d then Some "ascii" else Some "ISO-8859-1"
  end.

Fixpoint glob (pat : string) : string -> bool :=
  match pat with
  | EmptyString => fun name => negb (nonempty name)
  | String c pat' =>
      if decide (c = "*"%char) then
        fix star (name : string) : bool :=
          glob pat' name ||
          match name with
          | String _ name' => star name'
          | EmptyString => false
          end
      else if decide (c = "?"%char) then
        fun name => match name with
                    | String _ name' => glob pat' name'
                    | EmptyString => false
                    end
      else
        fun name => match name with
                    | String a name' => bool_decide (a = c) && glob pat' name'
                    | EmptyString => false
                    end
  end.

Definition demo_loads (s : string) : outcome json :=
  if decide (s = "null") then Ok JNull
  else if decide (s = "true") then Ok (JBool true)
  else if decide (s = "false") then Ok (JBool false)
  else if decide (s = "0") then Ok (JNum 0)
  else if decide (s = "[]") then Ok (JList [])
  else Raise JSONDecodeError.

Definition demo_dumps (j : json) : string :=
  match j with
  | JBool true => "true"
  | JBool false => "false"
  | JNum 0 => "0"
  | JList [] => "[]"
  | _ => "null"
  end.

Definition demo_host : Host :=
  {| cwd := ["home"; "app"];
     encode := demo_encode;
     decode := demo_decode;
     locale_encoding := "utf-8";
     chardet_detect := demo_detect;
     fnmatch := fun name pat => glob pat name;
     json_loads := demo_loads;
     json_dumps := demo_dumps |}.

Definition demo_cfg : Config :=
  {| STORAGE_PATH := "storage";
     STORAGE_DEFAULT_FILE_EXT := Some "txt";
     DEFAULT_ENCODING := Some "utf-8" |}.

(** [/home/app/storage] exists and is empty. *)
Definition demo_fs : node :=
  Dir [("home", Dir [("app", Dir [("storage", Dir [])])])].

(** ** Vocabulary of the statements *)

(** What a canonical path leads to. *)
Inductive what := Missing | Regular (d : list byte) | Directory.

Definition look (t : node) (q : cpath) : what :=
  match get t q with
  | None => Missing
  | Some (File d) => Regular d
  | Some (Dir _) => Directory
  end.

(** A component that names an entry: not empty, not ["."], not [".."]. *)
Definition is_name (c : string) : Prop := c ≠ "" ∧ c ≠ "." ∧ c ≠ "..".

(** [f] lies strictly under [r]. *)
Definition strictly_under (r f : cpath) : Prop := ∃ k, k ≠ [] ∧ f = (r ++ k)%list.

(** The claim on extensions as its words have it: the default extension
    is appended unless a file with the bare name exists. *)
Definition read_name_as_claimed (h : Host) (cfg : Config) (name : string)
  : M string :=
  bare ← exists_ h cfg name;
  let ext := if (bare : bool) then "" else fmt (default_ext cfg) in
  ret (to_str (self_path cfg) +:+ "/" +:+ name +:+ ext).

(** The claim on an omitted encoding as its words have it: raw bytes,
    detection, decoding, with no default encoding. *)
Definition read_as_claimed (h : Host) (cfg : Config) (name : string) : M string :=
  name ← read_name h cfg name;
  read_open h name None.

(** [/home/app/storage] holds both [note] and [note.txt]. *)
Definition both_fs : node :=
  Dir [("home", Dir [("app", Dir [("storage",
    Dir [("note", File (bytes_of_str "bare"));
         ("note.txt", File (bytes_of_str "with ext"))])])])].

(** [cafe] with an acute accent, stored in Latin-1. *)
Definition latin1_fs : node :=
  Dir [("home", Dir [("app", Dir [("storage",
    Dir [("menu.txt", File ["c"; "a"; "f"; xe9]%byte)])])])].

(** The same name in the working directory and in the storage root. *)
Definition two_fs : node :=
  Dir [("home", Dir [("app",
    Dir [("x.txt", File (bytes_of_str "working directory"));
         ("storage", Dir [("x.txt", File (bytes_of_str "storage"))])])])].

(** [read] opens a path under the root: the name it opens leads to a
    location at or below the resolved root. *)
Definition opens_under_root (h : Host) (cfg : Config) (name : string)
           (t : node) : Prop :=
  ∃ n q, read_name h cfg name t = (Ok n, t) ∧
         locate h (os_of_str n) t = Ok q ∧
         resolve (cwd h) (self_path cfg) `prefix_of` q.

(** The storage root after [write("note", "hello")] and
    [write("note", "world")]. *)
Definition noted_fs : node :=
  Dir [("home", Dir [("app", Dir [("storage",
    Dir [("note_1.txt", File (bytes_of_str "hello"));
         ("note.txt", File (bytes_of_str "world"))])])])].

(** The storage root with an older [note.txt]. *)
Definition older_fs : node :=
  Dir [("home", Dir [("app", Dir [("storage",
    Dir [("note.txt", File (bytes_of_str "old"))])])])].

(** The state a successful [write] leaves, or the state it started in. *)
Definition state_after (r : option (outcome string * node)) (t : node) : node :=
  match r with Some (Ok _, t') => t' | _ => t end.

(** The text after the last slash of a name. *)
Definition final_component (name : string) : string :=
  List.last (split_on "/" name) "".

#[global] Instance is_name_dec c : Decision (is_name c).
Proof. unfold is_name. apply _. Defined.

(** In every directory of the tree the entries have proper, distinct
    names. *)
Fixpoint wf_node (n : node) : bool :=
  match n with
  | File _ => true
  | Dir es =>
      bool_decide (NoDup es.*1) &&
      forallb (fun c => bool_decide (is_name c)) es.*1 &&
      (fix all (l : list (string * node)) : bool :=
         match l with
         | [] => true
         | (_, v) :: l' => wf_node v && all l'
         end) es
  end.

(** A site to copy: [tmp] and the [.tmp] files are to be left out. *)
Definition site : node :=
  Dir [("index.html", File (bytes_of_str "<html>"));
       ("tmp", Dir [("keep.txt", File (bytes_of_str "k"));
                    ("cache.tmp", File (bytes_of_str "c"))]);
       ("css", Dir [("main.css", File (bytes_of_str "body"))]);
       ("empty", Dir [])].

Definition site_fs : node :=
  Dir [("home", Dir [("app", Dir [("storage", Dir [("site", site)])])])].

Definition site_exceptions : list string := ["tmp"; "*.tmp"].

(** From [ti] to [tj] nothing changed but for directories that appeared
    at [qd] extended by prefixes of [rel]. *)
Definition grows (qd rel : cpath) (ti tj : node) : Prop :=
  ∀ p, look tj p = look ti p ∨
       (look ti p = Missing ∧ look tj p = Directory ∧
        ∃ r, r `prefix_of` rel ∧ p = qd ++ r).

(** While [copy] runs: outside the destination [qd] the tree [ti] is the
    tree [t0] the loop started in; the destination is a directory; and
    what it holds comes from the source directory [n], at the same
    relative path, and is not excluded. *)
Definition mirrors (h : Host) (exceptions : list string) (n : node)
           (qd : cpath) (t0 ti : node) : Prop :=
  (∀ p, ¬ qd `prefix_of` p → look ti p = look t0 p) ∧
  look ti qd = Directory ∧
  (∀ r d, look ti (qd ++ r) = Regular d →
          look n r = Regular d ∧ excluded h exceptions (join "/" r) = false) ∧
  (∀ r, look ti (qd ++ r) = Directory → look n r = Directory).

(** [site_fs] once [copy] has made the destination [out]. *)
Definition site_out_fs : node :=
  (mkdir_parents demo_host (rooted demo_cfg "out") site_fs).2.

(** The storage root before anything was written, with a directory that
    bears the first numbered name of [note.txt]. *)
Definition blocked_before_fs : node :=
  Dir [("home", Dir [("app", Dir [("storage",
    Dir [("note_1.txt", Dir [])])])])].

(** The same after [write("note", "hello")]. *)
Definition blocked_fs : node :=
  Dir [("home", Dir [("app", Dir [("storage",
    Dir [("note_1.txt", Dir []);
         ("note.txt", File (bytes_of_str "hello"))])])])].

(** The storage root with a JSON file. *)
Definition flag_fs : node :=
  Dir [("home", Dir [("app", Dir [("storage",
    Dir [("on.txt", File (bytes_of_str "true"))])])])].

(** A source directory with a file [a], and a destination in which a
    directory bears that name. *)
Definition clash_fs : node :=
  Dir [("home", Dir [("app", Dir [("storage",
    Dir [("src", Dir [("a", File (bytes_of_str "data"))]);
         ("dst", Dir [("a", Dir [])])])])])].

(** * Properties *)

(** ** The model at work *)

Example parse_ex1 : parse "a//b/./c.txt/" = mkPath "" ["a"; "b"; "c.txt"].
Proof. reflexivity. Qed.

Example parse_ex2 : parse "//x/../y" = mkPath "//" ["x"; ".."; "y"].
Proof. reflexivity. Qed.

Example parse_ex3 : parse "///x" = mkPath "/" ["x"].
Proof. reflexivity. Qed.

Example suffix_ex1 : stem_suffix "a.tar.gz" = ("a.tar", ".gz").
Proof. reflexivity. Qed.

Example suffix_ex2 : stem_suffix ".bashrc" = (".bashrc", "").
Proof. reflexivity. Qed.

Example suffix_ex3 : stem_suffix "x." = ("x.", "").
Proof. reflexivity. Qed.

Example to_str_ex : to_str (joinpath (parse "storage") (parse "a/b.txt")) = "storage/a/b.txt".
Proof. reflexivity. Qed.

Example rglob_ex :
  rglob_rel (Dir [("a", Dir [("x", File []); ("y", Dir [])]); ("b", File [])])
  = [["a"]; ["b"]; ["a"; "x"]; ["a"; "y"]].
Proof. reflexivity. Qed.

(** ** Directory entries and trees *)

Lemma find_put_eq c v es : find_entry c (put_entry c v es) = Some v.
Proof.
  induction es as [|[k w] es IH]; simpl.
  - by rewrite decide_True.
  - destruct (decide (k = c)) as [->|Hne]; simpl.
    + by rewrite decide_True.
    + by rewrite decide_False.
Qed.

Lemma find_put_ne c c' v es :
  c ≠ c' → find_entry c' (put_entry c v es) = find_entry c' es.
Proof.
  intros Hne. induction es as [|[k w] es IH]; simpl.
  - by rewrite decide_False.
  - destruct (decide (k = c)) as [->|Hkc]; simpl.
    + by rewrite !decide_False.
    + by rewrite IH.
Qed.

Lemma find_del_eq c es : find_entry c (del_entry c es) = None.
Proof.
  induction es as [|[k w] es IH]; simpl; [done|].
  destruct (decide (k = c)); simpl; [done|]. by rewrite decide_False.
Qed.

Lemma find_del_ne c c' es :
  c ≠ c' → find_entry c' (del_entry c es) = find_entry c' es.
Proof.
  intros Hne. induction es as [|[k w] es IH]; simpl; [done|].
  destruct (decide (k = c)) as [->|Hkc]; simpl.
  - by rewrite decide_False.
  - by rewrite IH.
Qed.

Lemma get_app t a b : get t (a ++ b) = get t a ≫= fun n => get n b.
Proof.
  revert t. induction a as [|c a IH]; intros t; simpl; [done|].
  destruct t as [d|es]; [done|]. destruct (find_entry c es); [apply IH|done].
Qed.

Lemma get_file_nil d q n : get (File d) q = Some n → q = [].
Proof. by destruct q. Qed.

(** Whatever exists lies in a directory. *)
Lemma get_snoc_dir t q c n :
  get t (q ++ [c]) = Some n → ∃ es, get t q = Some (Dir es).
Proof.
  rewrite get_app. destruct (get t q) as [[d|es]|]; simpl; [done|eauto|done].
Qed.

Lemma get_prefix_dir t q k n :
  get t (q ++ k) = Some n → k ≠ [] → ∃ es, get t q = Some (Dir es).
Proof.
  rewrite get_app. destruct (get t q) as [[d|es]|]; simpl; [|eauto|done].
  by destruct k.
Qed.

(** [del] removes a whole subtree and nothing else. *)
Lemma look_del_under t q q' :
  q ≠ [] → q `prefix_of` q' → look (del t q) q' = Missing.
Proof.
  unfold look. revert t q'. induction q as [|c q IH]; intros t q' Hq [k ->]; [done|].
  simpl. destruct t as [d|es]; [done|].
  destruct q as [|c1 q1].
  - simpl. by rewrite find_del_eq.
  - destruct (find_entry c es) as [m|] eqn:Hf.
    + simpl. rewrite find_put_eq. apply (IH m ((c1 :: q1) ++ k)); [done|by eexists].
    + simpl. by rewrite Hf.
Qed.

Lemma look_del_frame t q q' :
  ¬ q `prefix_of` q' → look (del t q) q' = look t q'.
Proof.
  unfold look. revert t q'. induction q as [|c q IH]; intros t q' Hn.
  - destruct Hn. apply prefix_nil.
  - simpl. destruct t as [d|es]; [done|].
    destruct q' as [|c' q'].
    { destruct q; [done|]. by destruct (find_entry c es). }
    destruct (decide (c = c')) as [<-|Hne].
    + destruct q as [|c1 q1].
      { destruct Hn. by exists q'. }
      destruct (find_entry c es) as [m|] eqn:Hf; [|done].
      simpl. rewrite find_put_eq, Hf. apply IH.
      intros [k Hk]. apply Hn. exists k. by rewrite Hk.
    + destruct q as [|c1 q1].
      { simpl. by rewrite find_del_ne. }
      destruct (find_entry c es) as [m|] eqn:Hf; [|done].
      simpl. by rewrite find_put_ne.
Qed.

(** ** Walking canonical paths *)

Lemma step_name cur c : is_name c → step cur c = cur ++ [c].
Proof.
  intros (H1 & H2 & H3). unfold step.
  rewrite decide_False by (intros [?|?]; done). by rewrite decide_False.
Qed.

Lemma Forall_removelast {A} (P : A → Prop) (l : list A) :
  Forall P l → Forall P (removelast l).
Proof.
  induction 1 as [|x l Hx Hl IH]; simpl; [constructor|].
  destruct l; [constructor|]. by constructor.
Qed.

Lemma step_names cur c : Forall is_name cur → Forall is_name (step cur c).
Proof.
  intros Hcur. unfold step.
  destruct (decide (c = "" ∨ c = ".")) as [|Hn]; [done|].
  destruct (decide (c = "..")) as [|Hn'].
  - by apply Forall_removelast.
  - apply Forall_app. split; [done|]. constructor; [|constructor].
    unfold is_name. naive_solver.
Qed.

Lemma foldl_step_names cur cs :
  Forall is_name cur → Forall is_name (foldl step cur cs).
Proof.
  revert cur. induction cs as [|c cs IH]; intros cur Hcur; simpl; [done|].
  apply IH. by apply step_names.
Qed.

Lemma resolve_names cwd p : Forall is_name cwd → Forall is_name (resolve cwd p).
Proof.
  intros Hcwd. unfold resolve. apply foldl_step_names.
  destruct (is_absolute p); [constructor|done].
Qed.

(** Walking names from [cur] ends at [cur ++ q], or fails because nothing
    is there. *)
Lemma walk_names t cur q :
  Forall is_name q →
  match walk t cur q with
  | Ok r => r = cur ++ q
  | Raise _ => get t (cur ++ q) = None
  end.
Proof.
  intros Hq. revert cur. induction Hq as [|c q Hc Hq IH]; intros cur; simpl.
  - by rewrite app_nil_r.
  - destruct (get t cur) as [[d|es]|] eqn:Hg.
    + by rewrite get_app, Hg.
    + rewrite step_name by done. specialize (IH (cur ++ [c])).
      by rewrite <- app_assoc in IH.
    + by rewrite get_app, Hg.
Qed.

Lemma stat_names h t q :
  Forall is_name q → stat h (mkOs true q) t = get t q.
Proof.
  intros Hq. unfold stat, locate. simpl.
  pose proof (walk_names t [] q Hq) as Hw.
  destruct (walk t [] q) as [r|e]; simpl in Hw; by subst.
Qed.

Lemma locate_names h t q n :
  Forall is_name q → get t q = Some n → locate h (mkOs true q) t = Ok q.
Proof.
  intros Hq Hg. unfold locate. simpl.
  pose proof (walk_names t [] q Hq) as Hw.
  destruct (walk t [] q) as [r|e]; simpl in Hw; [by subst|congruence].
Qed.

Lemma strictly_under_prefix r f :
  strictly_under r f ↔ r `prefix_of` f ∧ r ≠ f.
Proof.
  split.
  - intros (k & Hk & ->). split; [by exists k|].
    intros Heq. apply Hk. apply (app_inv_head r). by rewrite app_nil_r.
  - intros [[k ->] Hne]. exists k. split; [|done].
    intros ->. by rewrite app_nil_r in Hne.
Qed.

(** ** C1: [clean] *)

(** C1.  [clean] raises [ValueError] and leaves the file system as it was
    when the argument, resolved against the root, is not strictly under the
    resolved root.  When it is strictly under it: a directory there is
    removed with everything beneath it and nothing else changes; anything
    else there (a regular file, or nothing) is left alone. *)
Theorem clean_guarded_delete h cfg path t :
  Forall is_name (cwd h) →
  let r := resolve (cwd h) (self_path cfg) in
  let f := resolve (cwd h) (joinpath (self_path cfg) (parse path)) in
  (¬ strictly_under r f → clean h cfg path t = (Raise ValueError, t)) ∧
  (strictly_under r f →
     match look t f with
     | Directory =>
         ∃ t', clean h cfg path t = (Ok (), t') ∧
               (∀ q, f `prefix_of` q → look t' q = Missing) ∧
               (∀ q, ¬ f `prefix_of` q → look t' q = look t q)
     | _ => clean h cfg path t = (Ok (), t)
     end).
Proof.
  intros Hcwd r f.
  assert (Hf : Forall is_name f) by by apply resolve_names.
  split.
  - intros Hn. unfold clean. fold r f.
    rewrite bool_decide_eq_false_2; [done|].
    by rewrite <- strictly_under_prefix.
  - intros Hu. unfold clean. fold r f.
    rewrite bool_decide_eq_true_2 by by rewrite <- strictly_under_prefix.
    simpl. unfold mbind, M_bind, bind, ask, path_exists, is_dir.
    rewrite stat_names by done. unfold look.
    destruct (get t f) as [[d|es]|] eqn:Hg; simpl; [done| |done].
    unfold rmtree. rewrite (locate_names h t f (Dir es)) by done. rewrite Hg.
    eexists. split; [done|]. split.
    + intros q Hq. apply look_del_under; [|done].
      destruct Hu as (k & Hk & ->). by destruct r, k.
    + intros q Hq. by apply look_del_frame.
Qed.

Lemma demo_cwd_names : Forall is_name (cwd demo_host).
Proof. repeat constructor; unfold is_name; done. Qed.

Lemma clean_guarded_delete_witness :
  clean demo_host demo_cfg "../outside" demo_fs = (Raise ValueError, demo_fs)
  ∧ ∃ t', clean demo_host demo_cfg "site/tmp" site_fs = (Ok (), t') ∧
          (∀ q, ["home"; "app"; "storage"; "site"; "tmp"] `prefix_of` q →
                look t' q = Missing) ∧
          (∀ q, ¬ ["home"; "app"; "storage"; "site"; "tmp"] `prefix_of` q →
                look t' q = look site_fs q).
Proof.
  split.
  - apply (clean_guarded_delete demo_host demo_cfg "../outside" demo_fs
             demo_cwd_names).
    intros (k & Hk & Heq). vm_compute in Heq.
    destruct k as [|? [|? ?]]; simplify_eq.
  - apply (proj2 (clean_guarded_delete demo_host demo_cfg "site/tmp" site_fs
                    demo_cwd_names)).
    exists ["site"; "tmp"]. split; [done|by vm_compute].
Defined.

(** ** Strings *)

Lemma str_cons_app x a b : String x a +:+ b = String x (a +:+ b).
Proof. reflexivity. Qed.

Lemma str_nil_app a : "" +:+ a = a.
Proof. reflexivity. Qed.

Lemma str_app_assoc a b c : (a +:+ b) +:+ c = a +:+ b +:+ c.
Proof.
  induction a as [|x a IH]; [done|]. rewrite !str_cons_app. by f_equal.
Qed.

Lemma str_app_nil_r a : a +:+ "" = a.
Proof. induction a as [|x a IH]; [done|]. rewrite str_cons_app. by f_equal. Qed.

Lemma split_on_nonnil sep s : split_on sep s ≠ [].
Proof.
  destruct s as [|a s]; simpl; [done|].
  destruct (decide (a = sep)); [done|]. by destruct (split_on sep s).
Qed.

Lemma join_split sep s : join (String sep "") (split_on sep s) = s.
Proof.
  induction s as [|a s IH]; simpl; [done|].
  pose proof (split_on_nonnil sep s) as Hnn.
  destruct (split_on sep s) as [|x l]; [done|].
  destruct (decide (a = sep)) as [->|Hne].
  - change (join (String sep "") ("" :: x :: l))
      with (String sep (join (String sep "") (x :: l))).
    by rewrite IH.
  - destruct l as [|y l]; simpl in *; by rewrite <- IH.
Qed.

Lemma join_snoc sep l x :
  l ≠ [] → join sep (l ++ [x]) = join sep l +:+ sep +:+ x.
Proof.
  induction l as [|y l IH]; intros Hl; [done|].
  destruct l as [|z l]; [done|].
  change (join sep ((y :: z :: l) ++ [x]))
    with (y +:+ sep +:+ join sep ((z :: l) ++ [x])).
  rewrite IH by done.
  change (join sep (y :: z :: l)) with (y +:+ sep +:+ join sep (z :: l)).
  by rewrite !str_app_assoc.
Qed.

Lemma contains_split_length c s :
  contains c s = true → 2 ≤ length (split_on c s).
Proof.
  induction s as [|a s IH]; simpl; [done|].
  pose proof (split_on_nonnil c s) as Hnn.
  destruct (decide (a = c)).
  - intros _. destruct (split_on c s); [done|simpl; lia].
  - intros H. specialize (IH H). destruct (split_on c s); simpl in *; lia.
Qed.

(** Splitting at the last dot and putting the pieces together again gives
    the name back. *)
Lemma split_last_dot name :
  contains "." name = true →
  join "." (removelast (split_on "." name)) +:+ "." +:+
    List.last (split_on "." name) "" = name.
Proof.
  intros Hc. pose proof (contains_split_length _ _ Hc) as Hlen.
  pose proof (split_on_nonnil "." name) as Hnn.
  rewrite <- (join_split "." name) at 3.
  rewrite (app_removelast_last "" Hnn) at 3.
  rewrite join_snoc; [done|].
  destruct (split_on "." name) as [|x [|y l]]; simpl in *; [lia|lia|done].
Qed.

Lemma lstrip_slash_length s :
  String.length (lstrip_slash s) ≤ String.length s.
Proof.
  induction s as [|a s IH]; simpl; [done|].
  destruct (decide (a = "/"%char)); simpl; lia.
Qed.

Lemma is_absolute_parse name : is_absolute (parse name) = isabs name.
Proof.
  unfold is_absolute, parse, isabs. simpl.
  destruct name as [|a s]; simpl; [done|].
  destruct (decide ("/"%char = a)) as [<-|Hne].
  - rewrite decide_True by done.
    pose proof (lstrip_slash_length s).
    destruct (Nat.eqb_spec (S (String.length s) - String.length (lstrip_slash s)) 0);
      [lia|].
    by destruct (_ =? 2).
  - rewrite decide_False by done. simpl. by rewrite Nat.sub_diag.
Qed.

(** ** C4: the default extension in [read] *)

(** C4, as amended.  For a relative name without a dot that does not start
    with ["./"], [read] opens [<root>/<name><default-ext>] when something
    of that name exists under the root, and the bare [<root>/<name>]
    otherwise; whether the bare name exists plays no part. *)
Theorem read_default_extension h cfg name t :
  isabs name = false →
  startswith "./" name = false →
  contains "." name = false →
  read_name h cfg name t =
    (Ok (to_str (self_path cfg) +:+ "/" +:+ name +:+
         (if path_exists h (under_root cfg (name +:+ fmt (default_ext cfg))) t
          then fmt (default_ext cfg) else "")), t)
  ∧ ∀ encoding,
      read h cfg name encoding t =
        read_open h
          (to_str (self_path cfg) +:+ "/" +:+ name +:+
           (if path_exists h (under_root cfg (name +:+ fmt (default_ext cfg))) t
            then fmt (default_ext cfg) else ""))
          (py_or encoding (default_encoding cfg)) t.
Proof.
  intros Habs Hdot Hext.
  assert (Hn : read_name h cfg name t =
    (Ok (to_str (self_path cfg) +:+ "/" +:+ name +:+
         (if path_exists h (under_root cfg (name +:+ fmt (default_ext cfg))) t
          then fmt (default_ext cfg) else "")), t)).
  { unfold read_name. rewrite Habs, Hdot, Hext. simpl.
    unfold mbind, M_bind, bind, exists_, ask, ret.
    by destruct (path_exists _ _ _). }
  split; [done|]. intros encoding. unfold read.
  unfold mbind, M_bind, bind. by rewrite Hn.
Qed.

Lemma read_default_extension_witness :
  read_name demo_host demo_cfg "note" both_fs = (Ok "storage/note.txt", both_fs).
Proof.
  apply (read_default_extension demo_host demo_cfg "note" both_fs); reflexivity.
Defined.

(** C4, as stated, fails: with both [note] and [note.txt] in the root the
    claim has [read("note")] open the bare [note]; the code opens
    [note.txt] and returns its content. *)
Lemma read_bare_name_counterexample :
  read_name demo_host demo_cfg "note" both_fs
    ≠ read_name_as_claimed demo_host demo_cfg "note" both_fs
  ∧ read demo_host demo_cfg "note" None both_fs = (Ok "with ext", both_fs).
Proof. split; [by vm_compute|by vm_compute]. Qed.

(** ** C5: the encoding used by [read] *)

(** C5, as amended.  With the encoding omitted, [read] decodes with the
    configured default encoding, in text mode; only when no default
    encoding is configured either does it read the raw bytes and decode
    them with the encoding [chardet] detects. *)
Theorem read_encoding_default h cfg name t :
  read h cfg name None t =
    (name ← read_name h cfg name;
     rawdata ← open_read h name;
     match DEFAULT_ENCODING cfg with
     | None =>
         match chardet_detect h rawdata with
         | None => raise TypeError
         | Some enc => try (fun _ => decode h enc rawdata)
         end
     | Some enc =>
         text ← try (fun _ => decode h enc rawdata);
         ret (universal_newlines text)
     end) t.
Proof.
  unfold read, default_encoding, py_or. simpl.
  unfold mbind, M_bind, bind.
  destruct (read_name h cfg name t) as [[n|e] t']; [|done].
  unfold read_open. by destruct (DEFAULT_ENCODING cfg).
Qed.

(** C5, as stated, fails: with [DEFAULT_ENCODING = "utf-8"] a Latin-1 file
    read without an encoding is decoded as UTF-8 and raises, where
    detection would have decoded it. *)
Lemma read_autodetect_counterexample :
  read demo_host demo_cfg "menu.txt" None latin1_fs
    = (Raise UnicodeError, latin1_fs)
  ∧ read_as_claimed demo_host demo_cfg "menu.txt" latin1_fs
    = (Ok (String "c" (String "a" (String "f" (String "233" "")))), latin1_fs).
Proof. split; by vm_compute. Qed.

(** ** C9: how names are resolved *)

Lemma under_root_abs_path cfg name :
  under_root cfg name = os_of_path (abs_path cfg name).
Proof.
  unfold under_root, abs_path, joinpath. rewrite is_absolute_parse.
  by destruct (isabs name).
Qed.

(** C9, as stated, fails for [read]: [read("./x.txt")] opens [x.txt] in the
    working directory [/home/app], not in the root [/home/app/storage]. *)
Lemma read_dot_slash_counterexample :
  ¬ opens_under_root demo_host demo_cfg "./x.txt" two_fs
  ∧ read demo_host demo_cfg "./x.txt" None two_fs
      = (Ok "working directory", two_fs)
  ∧ read_bytes demo_host (under_root demo_cfg "./x.txt") two_fs
      = (Ok (bytes_of_str "storage"), two_fs).
Proof.
  split; [|split; by vm_compute].
  intros (n & q & Hn & Hq & Hp). vm_compute in Hn. simplify_eq.
  vm_compute in Hq. simplify_eq.
  destruct Hp as [k Hk]. vm_compute in Hk. simplify_eq.
Qed.

(** ** C7: [read_json] *)

Lemma read_name_state h cfg name t r t' :
  read_name h cfg name t = (r, t') → t' = t.
Proof.
  unfold read_name, mbind, M_bind, bind, exists_, ask, ret.
  repeat case_match; by intros [= <- <-].
Qed.

(** Reading a name that leads to a place where nothing is raises the
    not-found error. *)
Lemma read_missing h cfg name t n q :
  read_name h cfg name t = (Ok n, t) →
  nonempty n = true →
  locate h (os_of_str n) t = Ok q →
  get t q = None →
  read h cfg name None t = (Raise FileNotFoundError, t).
Proof.
  intros Hn Hne Hq Hg. unfold read, mbind, M_bind, bind. rewrite Hn.
  unfold read_open.
  assert (Ho : open_read h n t = (Raise FileNotFoundError, t)).
  { unfold open_read. rewrite Hne. unfold read_bytes. by rewrite Hq, Hg. }
  destruct (py_or None (default_encoding cfg));
    unfold mbind, M_bind, bind; by rewrite Ho.
Qed.

(** The name [read] opens is never empty. *)
Lemma read_name_nonempty h cfg name t n t' :
  read_name h cfg name t = (Ok n, t') → nonempty n = true.
Proof.
  unfold read_name.
  destruct (isabs name) eqn:Ha; cbn [negb andb].
  { intros [= <- _]. by destruct name. }
  destruct (startswith "./" name) eqn:Hd; cbn [negb andb].
  { intros [= <- _]. by destruct name. }
  unfold mbind, M_bind, bind, exists_, ask, ret.
  destruct (contains "." name).
  - intros [= <- _]. by destruct (to_str (self_path cfg)).
  - intros [= <- _]. by destruct (to_str (self_path cfg)).
Qed.

(** [read] with the encoding omitted, once the name is known. *)
Lemma read_opened h cfg name t n :
  read_name h cfg name t = (Ok n, t) →
  read h cfg name None t = read_open h n (DEFAULT_ENCODING cfg) t.
Proof.
  intros Hn. unfold read, mbind, M_bind, bind. by rewrite Hn.
Qed.

(** When the file cannot be opened, [read] raises what [open] raises. *)
Lemma read_open_raises h n enc t e :
  open_read h n t = (Raise e, t) → read_open h n enc t = (Raise e, t).
Proof.
  intros Ho. unfold read_open.
  destruct enc; unfold mbind, M_bind, bind; by rewrite Ho.
Qed.

(** [read] always settles on a name to open, without touching anything. *)
Lemma read_name_total h cfg name t : ∃ n, read_name h cfg name t = (Ok n, t).
Proof.
  unfold read_name.
  destruct (negb (isabs name) && negb (startswith "./" name)); [|by eexists].
  unfold mbind, M_bind, bind, exists_, ask, ret.
  destruct (contains "." name); by eexists.
Qed.

(** C7, as amended.  [read] settles on a name [n] to open.  When nothing
    is there (it leads to nothing, or a directory on the way is missing),
    [read_json] returns the default if one other than [None] was given,
    whatever its truth value, and raises the not-found error otherwise.
    When a regular file is on the way, it raises [NotADirectoryError]
    whatever the default.  When a regular file is there and its bytes
    decode to a text (with the configured default encoding, in text mode,
    or with the detected encoding when none is configured), [read_json]
    returns what [json.loads] makes of that text, a value or an error.
    ([json.loads] itself never raises the not-found error.) *)
Theorem read_json_default h cfg name default t :
  (∀ s, json_loads h s ≠ Raise FileNotFoundError) →
  ∃ n, read_name h cfg name t = (Ok n, t) ∧
  ((locate h (os_of_str n) t = Raise FileNotFoundError ∨
    ∃ q, locate h (os_of_str n) t = Ok q ∧ look t q = Missing) →
     (default ≠ JNull → read_json h cfg name default t = (Ok default, t)) ∧
     (default = JNull →
        read_json h cfg name default t = (Raise FileNotFoundError, t))) ∧
  (locate h (os_of_str n) t = Raise NotADirectoryError →
     read_json h cfg name default t = (Raise NotADirectoryError, t)) ∧
  (∀ q d, locate h (os_of_str n) t = Ok q → look t q = Regular d →
     match DEFAULT_ENCODING cfg with
     | Some e =>
         ∀ s, decode h e d = Ok s →
              read_json h cfg name default t
                = (json_loads h (universal_newlines s), t)
     | None =>
         ∀ e s, chardet_detect h d = Some e → decode h e d = Ok s →
                read_json h cfg name default t = (json_loads h s, t)
     end).
Proof.
  intros Hloads.
  destruct (read_name_total h cfg name t) as [n Hn]. exists n.
  split; [done|].
  pose proof (read_name_nonempty h cfg name t n t Hn) as Hne.
  pose proof (read_opened h cfg name t n Hn) as Hr.
  assert (Hparsed : ∀ s, read h cfg name None t = (Ok s, t) →
            read_json h cfg name default t = (json_loads h s, t)).
  { intros s Hs. unfold read_json, mbind, M_bind, bind, try. rewrite Hs.
    specialize (Hloads s). destruct (json_loads h s) as [j|[]]; done. }
  split_and!.
  - intros Hmiss.
    assert (Ho : open_read h n t = (Raise FileNotFoundError, t)).
    { unfold open_read. rewrite Hne. unfold read_bytes.
      destruct Hmiss as [->|(q & -> & Hq)]; [done|].
      unfold look in Hq. by destruct (get t q) as [[?|?]|]. }
    apply (read_open_raises h n (DEFAULT_ENCODING cfg)) in Ho.
    unfold read_json, mbind, M_bind, bind. rewrite Hr, Ho.
    split; [by destruct default|by intros ->].
  - intros Hnd.
    assert (Ho : open_read h n t = (Raise NotADirectoryError, t)).
    { unfold open_read. rewrite Hne. unfold read_bytes. by rewrite Hnd. }
    apply (read_open_raises h n (DEFAULT_ENCODING cfg)) in Ho.
    unfold read_json, mbind, M_bind, bind. by rewrite Hr, Ho.
  - intros q d Hl Hq.
    assert (Ho : open_read h n t = (Ok d, t)).
    { unfold open_read. rewrite Hne. unfold read_bytes. rewrite Hl.
      unfold look in Hq. destruct (get t q) as [[?|?]|]; by simplify_eq. }
    destruct (DEFAULT_ENCODING cfg) as [e|] eqn:Henc.
    + intros s Hd. apply Hparsed. rewrite Hr.
      unfold read_open, mbind, M_bind, bind, try, ret. by rewrite Ho, Hd.
    + intros e s Hdet Hd. apply Hparsed. rewrite Hr.
      unfold read_open, mbind, M_bind, bind, try. by rewrite Ho, Hdet, Hd.
Qed.

Lemma demo_loads_not_found s : demo_loads s ≠ Raise FileNotFoundError.
Proof. unfold demo_loads. repeat case_decide; done. Qed.

Lemma read_json_default_witness :
  read_json demo_host demo_cfg "settings" (JNum 0) demo_fs = (Ok (JNum 0), demo_fs)
  ∧ read_json demo_host demo_cfg "settings" JNull demo_fs
    = (Raise FileNotFoundError, demo_fs)
  ∧ read_json demo_host demo_cfg "on" (JNum 0) flag_fs = (Ok (JBool true), flag_fs).
Proof.
  split_and!.
  - destruct (read_json_default demo_host demo_cfg "settings" (JNum 0) demo_fs
                demo_loads_not_found) as (n & Hn & Hmiss & _).
    vm_compute in Hn. injection Hn as <-.
    apply Hmiss; [|done].
    right. exists ["home"; "app"; "storage"; "settings"]. by vm_compute.
  - destruct (read_json_default demo_host demo_cfg "settings" JNull demo_fs
                demo_loads_not_found) as (n & Hn & Hmiss & _).
    vm_compute in Hn. injection Hn as <-.
    apply Hmiss; [|done].
    right. exists ["home"; "app"; "storage"; "settings"]. by vm_compute.
  - destruct (read_json_default demo_host demo_cfg "on" (JNum 0) flag_fs
                demo_loads_not_found) as (n & Hn & _ & _ & Hfile).
    vm_compute in Hn. injection Hn as <-.
    apply (Hfile ["home"; "app"; "storage"; "on.txt"] (bytes_of_str "true")
             eq_refl eq_refl "true" eq_refl).
Defined.

(** C7, as stated, fails: nothing exists under [note.txt/x], since
    [note.txt] is a regular file, and yet [read_json] with the default [0]
    does not return it: it raises [NotADirectoryError], which the handler
    does not catch. *)
Lemma read_json_missing_counterexample :
  path_exists demo_host (under_root demo_cfg "note.txt/x") older_fs = false ∧
  read_json demo_host demo_cfg "note.txt/x" (JNum 0) older_fs
    = (Raise NotADirectoryError, older_fs) ∧
  read_json demo_host demo_cfg "note.txt/x" (JNum 0) older_fs
    ≠ (Ok (JNum 0), older_fs).
Proof. split_and!; by vm_compute. Qed.

(** ** Writing into the tree *)

Lemma is_dir_look t q : is_dir_node (get t q) = true ↔ look t q = Directory.
Proof. unfold look. destruct (get t q) as [[d|es]|]; simpl; split; done. Qed.

Lemma put_entry_twice c a b es :
  put_entry c b (put_entry c a es) = put_entry c b es.
Proof.
  induction es as [|[k w] es IH]; simpl.
  - by rewrite decide_True.
  - destruct (decide (k = c)) as [->|Hne]; simpl.
    + by rewrite decide_True.
    + rewrite decide_False by done. by rewrite IH.
Qed.

Lemma put_single es c v : put (Dir es) [c] v = Dir (put_entry c v es).
Proof. reflexivity. Qed.

Lemma put_deeper es c c1 q1 v :
  put (Dir es) (c :: c1 :: q1) v =
    match find_entry c es with
    | Some m => Dir (put_entry c (put m (c1 :: q1) v) es)
    | None => Dir es
    end.
Proof. reflexivity. Qed.

Lemma get_cons es c p :
  get (Dir es) (c :: p) =
    match find_entry c es with Some m => get m p | None => None end.
Proof. reflexivity. Qed.

Lemma put_twice t q a b : put (put t q a) q b = put t q b.
Proof.
  revert t. induction q as [|c q IH]; intros t; [done|].
  destruct t as [d|es]; [done|].
  destruct q as [|c1 q1].
  - rewrite !put_single. by rewrite put_entry_twice.
  - rewrite !put_deeper. destruct (find_entry c es) as [m|] eqn:Hf.
    + rewrite put_deeper, find_put_eq, put_entry_twice. by rewrite IH.
    + rewrite put_deeper. by rewrite Hf.
Qed.

(** What is put into an existing directory is found there. *)
Lemma get_put_snoc t q0 c v :
  is_dir_node (get t q0) = true → get (put t (q0 ++ [c]) v) (q0 ++ [c]) = Some v.
Proof.
  revert t. induction q0 as [|c0 q0 IH]; intros t Hd.
  - simpl in *. destruct t as [d|es]; [done|]. by rewrite find_put_eq.
  - destruct t as [d|es]; [done|]. rewrite get_cons in Hd.
    destruct (find_entry c0 es) as [m|] eqn:Hf; [|done].
    change ((c0 :: q0) ++ [c]) with (c0 :: (q0 ++ [c])).
    destruct (q0 ++ [c]) as [|x l] eqn:Hq; [by destruct q0|].
    rewrite put_deeper, Hf, get_cons, find_put_eq. by apply IH.
Qed.

(** Putting a leaf where there is no directory changes nothing else. *)
Lemma look_put_frame t q v q' :
  is_dir_node (get t q) = false →
  (∀ r, r ≠ [] → get v r = None) →
  q' ≠ q →
  look (put t q v) q' = look t q'.
Proof.
  unfold look. intros Hd Hleaf. revert t q' Hd.
  induction q as [|c q IH]; intros t q' Hd Hne.
  - simpl in *. rewrite Hleaf by done.
    destruct t as [d|es]; [|done]. by destruct q'.
  - destruct t as [d|es]; [done|].
    destruct q' as [|c' q'].
    { destruct q; [done|]. rewrite put_deeper. by destruct (find_entry c es). }
    rewrite get_cons in Hd.
    destruct (decide (c = c')) as [<-|Hcc].
    + destruct q as [|c1 q1].
      * rewrite put_single, !get_cons, find_put_eq.
        rewrite Hleaf by (intros ->; done).
        destruct (find_entry c es) as [[d|es']|]; [|done|done].
        by destruct q'.
      * rewrite put_deeper. destruct (find_entry c es) as [m|] eqn:Hf; [|done].
        rewrite !get_cons, find_put_eq, Hf. apply IH; [done|congruence].
    + destruct q as [|c1 q1].
      * rewrite put_single, !get_cons. by rewrite find_put_ne.
      * rewrite put_deeper. destruct (find_entry c es) as [m|] eqn:Hf; [|done].
        rewrite !get_cons. by rewrite find_put_ne.
Qed.

Lemma file_is_leaf d r : r ≠ [] → get (File d) r = None.
Proof. by destruct r. Qed.

Lemma empty_dir_is_leaf r : r ≠ [] → get (Dir []) r = None.
Proof. by destruct r. Qed.

Lemma is_dir_removelast t q :
  is_dir_node (get t q) = true → is_dir_node (get t (removelast q)) = true.
Proof.
  intros Hd. destruct (decide (q = [])) as [->|Hne]; [done|].
  rewrite (app_removelast_last "" Hne) in Hd.
  destruct (get t (removelast q ++ [List.last q ""])) as [n|] eqn:Hg; [|done].
  apply get_snoc_dir in Hg as [es ->]. done.
Qed.

(** ** Walking *)

Lemma walk_app t cur a b :
  walk t cur (a ++ b) =
    match walk t cur a with Ok q => walk t q b | Raise e => Raise e end.
Proof.
  revert cur. induction a as [|c a IH]; intros cur; simpl; [done|].
  destruct (get t cur) as [[d|es]|]; [done|apply IH|done].
Qed.

(** A walk only asks which paths are directories. *)
Lemma walk_mono t t' cur cs q :
  (∀ p, is_dir_node (get t p) = true → is_dir_node (get t' p) = true) →
  walk t cur cs = Ok q → walk t' cur cs = Ok q.
Proof.
  intros Hm. revert cur. induction cs as [|c cs IH]; intros cur; simpl; [done|].
  destruct (get t cur) as [[d|es]|] eqn:Hg; [done| |done].
  specialize (Hm cur). rewrite Hg in Hm. specialize (Hm eq_refl).
  destruct (get t' cur) as [[d'|es']|]; [done| |done]. apply IH.
Qed.

(** Where a walk ends: at a directory, or at a name in a directory. *)
Lemma walk_last t cur cs q :
  walk t cur cs = Ok q →
  is_dir_node (get t cur) = true →
  is_dir_node (get t q) = true ∨
  ∃ q0 c, q = q0 ++ [c] ∧ is_dir_node (get t q0) = true.
Proof.
  revert cur. induction cs as [|c cs IH]; intros cur Hw Hd; simpl in Hw.
  - left. by simplify_eq.
  - destruct (get t cur) as [[d|es]|] eqn:Hg; [done| |done].
    destruct (is_dir_node (get t (step cur c))) eqn:Hs; [by eapply IH|].
    destruct cs as [|c' cs].
    + simpl in Hw. simplify_eq. unfold step in *.
      destruct (decide (c = "" ∨ c = ".")); [by rewrite Hg in Hs|].
      destruct (decide (c = "..")).
      * rewrite is_dir_removelast in Hs; [done|by rewrite Hg].
      * right. exists cur, c. by rewrite Hg.
    + simpl in Hw. by destruct (get t (step cur c)) as [[d|es']|].
Qed.

Lemma walk_snoc_inv t cur cs c q :
  walk t cur (cs ++ [c]) = Ok q →
  ∃ q0, walk t cur cs = Ok q0 ∧ is_dir_node (get t q0) = true ∧ q = step q0 c.
Proof.
  rewrite walk_app. destruct (walk t cur cs) as [q0|e]; [|done].
  simpl. destruct (get t q0) as [[d|es]|] eqn:Hg; [done| |done].
  intros [= <-]. exists q0. by rewrite Hg.
Qed.

(** ** System calls *)

Section os_facts.
Variable h : Host.

Lemma root_is_dir t q :
  is_dir_node (get t q) = true → is_dir_node (get t []) = true.
Proof. destruct q, t; done. Qed.

Lemma start_is_dir t (p : ospath) :
  is_dir_node (get t (cwd h)) = true →
  is_dir_node (get t (if anchored p then [] else cwd h)) = true.
Proof. intros Hd. destruct (anchored p); [by eapply root_is_dir|done]. Qed.

(** A located path that is not a directory is a name in a directory. *)
Lemma locate_target p t q :
  locate h p t = Ok q →
  is_dir_node (get t (cwd h)) = true →
  is_dir_node (get t q) = false →
  ∃ q0 c, q = q0 ++ [c] ∧ is_dir_node (get t q0) = true.
Proof.
  intros Hl Hcwd Hq. unfold locate in Hl.
  apply walk_last in Hl as [Hd|Hd]; [congruence|done|by apply start_is_dir].
Qed.

Lemma dirs_put_file t q d p :
  is_dir_node (get t q) = false →
  is_dir_node (get t p) = true →
  is_dir_node (get (put t q (File d)) p) = true.
Proof.
  intros Hq Hp. apply is_dir_look. rewrite look_put_frame.
  - by apply is_dir_look.
  - done.
  - apply file_is_leaf.
  - intros ->. congruence.
Qed.

Lemma locate_put_file p t q q' d :
  locate h p t = Ok q' →
  is_dir_node (get t q) = false →
  locate h p (put t q (File d)) = Ok q'.
Proof.
  intros Hl Hq. unfold locate in *. eapply walk_mono; [|done].
  intros p0. by apply dirs_put_file.
Qed.

Lemma write_bytes_ok p d t q :
  locate h p t = Ok q →
  is_dir_node (get t q) = false →
  write_bytes h p d t = (Ok (), put t q (File d)).
Proof.
  intros Hl Hq. unfold write_bytes. rewrite Hl.
  by destruct (get t q) as [[d'|es]|].
Qed.

Lemma write_bytes_inv p d t r t' :
  write_bytes h p d t = (Ok r, t') →
  ∃ q, locate h p t = Ok q ∧ is_dir_node (get t q) = false ∧
       t' = put t q (File d).
Proof.
  unfold write_bytes. destruct (locate h p t) as [q|e]; [|done].
  destruct (get t q) as [[d'|es]|] eqn:Hg; intros [= <- <-];
    exists q; by rewrite Hg.
Qed.

Lemma not_dir_put_file t q d :
  is_dir_node (get t q) = false →
  is_dir_node (get (put t q (File d)) q) = false.
Proof.
  revert t. induction q as [|c q IH]; intros t Hd; [done|].
  destruct t as [d'|es]; [done|]. rewrite get_cons in Hd.
  destruct q as [|c1 q1].
  - rewrite put_single, get_cons. by rewrite find_put_eq.
  - rewrite put_deeper. destruct (find_entry c es) as [m|] eqn:Hf.
    + rewrite get_cons, find_put_eq. by apply IH.
    + rewrite get_cons. by rewrite Hf.
Qed.

(** [write_text] succeeds exactly when its path leads to something other
    than a directory and the text can be encoded; the file then holds the
    encoded text. *)
Lemma write_text_ok p content enc t q d :
  locate h p t = Ok q →
  is_dir_node (get t q) = false →
  encode h (default (locale_encoding h) enc) content = Ok d →
  write_text h p content enc t = (Ok (), put t q (File d)).
Proof.
  intros Hl Hq He. unfold write_text, mbind, M_bind, bind, try.
  rewrite (write_bytes_ok p [] t q) by done. rewrite He.
  rewrite (write_bytes_ok p d _ q).
  - by rewrite put_twice.
  - by apply locate_put_file.
  - by apply not_dir_put_file.
Qed.

Lemma write_text_inv p content enc t r t' :
  write_text h p content enc t = (Ok r, t') →
  ∃ q d, locate h p t = Ok q ∧ is_dir_node (get t q) = false ∧
         encode h (default (locale_encoding h) enc) content = Ok d ∧
         t' = put t q (File d).
Proof.
  unfold write_text, mbind, M_bind, bind, try.
  destruct (write_bytes h p [] t) as [[[]|e] t1] eqn:Hw1; [|done].
  apply write_bytes_inv in Hw1 as (q & Hl & Hq & ->).
  destruct (encode h _ content) as [d|e] eqn:He; [|done].
  intros Hw2. exists q, d. split_and!; try done.
  rewrite (write_bytes_ok p d _ q) in Hw2.
  - rewrite put_twice in Hw2. by simplify_eq.
  - by apply locate_put_file.
  - by apply not_dir_put_file.
Qed.

(** After a file was put at a name in a directory, it is there. *)
Lemma look_put_file t q0 c d :
  is_dir_node (get t q0) = true →
  look (put t (q0 ++ [c]) (File d)) (q0 ++ [c]) = Regular d.
Proof. intros Hd. unfold look. by rewrite get_put_snoc. Qed.

(** Making a directory that exists, with [exist_ok], does nothing. *)
Lemma mkdir_parents_exists p t q0 :
  locate h (os_of_path p) t = Ok q0 →
  is_dir_node (get t q0) = true →
  mkdir_parents h p t = (Ok (), t).
Proof.
  intros Hl Hd. unfold mkdir_parents.
  assert (Hm : os_mkdir h (mkOs (is_absolute p) (rev (rev (parts p)))) t
               = (Raise FileExistsError, t)).
  { unfold os_mkdir. rewrite rev_involutive.
    change (mkOs (is_absolute p) (parts p)) with (os_of_path p). rewrite Hl.
    by destruct (get t q0). }
  assert (Hi : is_dir h (mkOs (is_absolute p) (rev (rev (parts p)))) t = true).
  { unfold is_dir, stat. rewrite rev_involutive.
    change (mkOs (is_absolute p) (parts p)) with (os_of_path p). by rewrite Hl. }
  destruct (rev (parts p)) as [|c rp]; simpl in *; by rewrite Hm, Hi.
Qed.
End os_facts.

(** ** [Storage.write] *)

Section write_facts.
Variable h : Host.
Variable cfg : Config.

Lemma under_root_parent_located f t q :
  locate h (under_root cfg f) t = Ok q →
  is_dir_node (get t (cwd h)) = true →
  is_dir_node (get t q) = false →
  ∃ q0, locate h (os_of_path (parent (joinpath (self_path cfg) (parse f)))) t = Ok q0
        ∧ is_dir_node (get t q0) = true.
Proof.
  unfold under_root, locate, os_of_path, parent, is_absolute. simpl.
  set (P := joinpath (self_path cfg) (parse f)).
  intros Hl Hcwd Hq.
  destruct (decide (parts P = [])) as [He|Hne].
  - rewrite He in Hl. simpl in Hl. simplify_eq.
    pose proof (start_is_dir h t (mkOs (nonempty (root P)) []) Hcwd) as Hs.
    simpl in Hs. congruence.
  - rewrite (app_removelast_last "" Hne) in Hl.
    apply walk_snoc_inv in Hl as (q0 & Hw & Hd & _). by exists q0.
Qed.

Lemma write_file_ok f content enc t q d :
  locate h (under_root cfg f) t = Ok q →
  is_dir_node (get t (cwd h)) = true →
  is_dir_node (get t q) = false →
  encode h (default (locale_encoding h) enc) content = Ok d →
  write_file h cfg f content enc t = (Ok f, put t q (File d)).
Proof.
  intros Hl Hcwd Hq He.
  destruct (under_root_parent_located f t q Hl Hcwd Hq) as (q0 & Hl0 & Hd0).
  unfold write_file, mbind, M_bind, bind.
  rewrite (mkdir_parents_exists h _ t q0) by done.
  by rewrite (write_text_ok h _ content enc t q d).
Qed.

Lemma write_file_inv f content enc t r t' :
  write_file h cfg f content enc t = (Ok r, t') →
  r = f ∧ ∃ t0 q d,
    locate h (under_root cfg f) t0 = Ok q ∧
    is_dir_node (get t0 q) = false ∧
    encode h (default (locale_encoding h) enc) content = Ok d ∧
    t' = put t0 q (File d).
Proof.
  unfold write_file, mbind, M_bind, bind.
  destruct (mkdir_parents h _ t) as [[[]|e] t0]; [|done].
  destruct (write_text h _ content enc t0) as [[[]|e] t1] eqn:Hw; [|done].
  intros [= <- <-]. split; [done|].
  apply write_text_inv in Hw as (q & d & ? & ? & ? & ?). by exists t0, q, d.
Qed.

(** After a successful [write_file] the name leads to a regular file that
    holds the encoded content. *)
Lemma write_file_post f content enc t r t' :
  write_file h cfg f content enc t = (Ok r, t') →
  is_dir_node (get t' (cwd h)) = true →
  r = f ∧ ∃ q d,
    locate h (under_root cfg f) t' = Ok q ∧
    look t' q = Regular d ∧
    encode h (default (locale_encoding h) enc) content = Ok d.
Proof.
  intros Hw Hcwd. apply write_file_inv in Hw as (-> & t0 & q & d & Hl & Hq & He & ->).
  split; [done|]. exists q, d.
  assert (Hcwd0 : is_dir_node (get t0 (cwd h)) = true).
  { apply is_dir_look. rewrite <- (look_put_frame t0 q (File d)).
    - by apply is_dir_look.
    - done.
    - apply file_is_leaf.
    - intros Heq. rewrite Heq in Hcwd.
      by rewrite not_dir_put_file in Hcwd. }
  destruct (locate_target h _ t0 q Hl Hcwd0 Hq) as (q0 & c & -> & Hd0).
  split_and!; [by apply locate_put_file|by apply look_put_file|done].
Qed.

Lemma probe_first base ext t n fuel c :
  c ≤ n → n < c + fuel →
  (∀ k, c ≤ k < n → is_file h (under_root cfg (numbered base ext k)) t = true) →
  is_file h (under_root cfg (numbered base ext n)) t = false →
  probe h cfg fuel base ext c t = Some (numbered base ext n).
Proof.
  revert c. induction fuel as [|fuel IH]; intros c Hc Hf Hbefore Hn; [lia|].
  simpl. destruct (decide (c = n)) as [->|Hne].
  - by rewrite Hn.
  - rewrite Hbefore by lia. simpl. apply IH; [lia|lia| |done].
    intros k Hk. apply Hbefore. lia.
Qed.
End write_facts.

Section write_on_directory.
Variable h : Host.
Variable cfg : Config.

(** The parent of a path that leads somewhere is a directory. *)
Lemma parent_located (P : PurePath) t q :
  locate h (os_of_path P) t = Ok q →
  is_dir_node (get t (cwd h)) = true →
  ∃ q0, locate h (os_of_path (parent P)) t = Ok q0
        ∧ is_dir_node (get t q0) = true.
Proof.
  unfold locate, os_of_path, parent, is_absolute. simpl.
  intros Hl Hcwd.
  destruct (decide (parts P = [])) as [He|Hne].
  - rewrite He in *. simpl in *. simplify_eq. eexists. split; [done|].
    apply (start_is_dir h t (mkOs (nonempty (root P)) []) Hcwd).
  - rewrite (app_removelast_last "" Hne) in Hl.
    apply walk_snoc_inv in Hl as (q0 & Hw & Hd & _). by exists q0.
Qed.

(** Lines 121-122 on a name that a directory bears: opening it for
    writing fails, and nothing has changed. *)
Lemma write_file_on_dir f content enc t q :
  locate h (under_root cfg f) t = Ok q →
  look t q = Directory →
  is_dir_node (get t (cwd h)) = true →
  write_file h cfg f content enc t = (Raise IsADirectoryError, t).
Proof.
  intros Hl Hq Hcwd.
  destruct (parent_located _ t q Hl Hcwd) as (q0 & Hl0 & Hd0).
  unfold write_file, mbind, M_bind, bind.
  rewrite (mkdir_parents_exists h _ t q0) by done.
  unfold write_text, mbind, M_bind, bind, write_bytes. rewrite Hl.
  unfold look in Hq. by destruct (get t q) as [[?|?]|].
Qed.
End write_on_directory.

(** C3, as amended.  When the target file of a name exists and
    [rewrite_existing] is false, [write], whatever [backup_existing] is,
    goes to the first numbered name [<base>_<n><ext>] that is not a
    regular file.  When nothing bears that name, the new content is put
    there and the name returned; everything else, the existing file
    included, keeps its name and its content.  When a directory bears it,
    [write] raises [IsADirectoryError] and nothing is written.  (The
    numbered name lies in a directory that exists, and the content can be
    encoded.) *)
Theorem write_keeps_existing h cfg fuel name content bk enc t base ext n q d :
  name_parts cfg name = Some (base, ext) →
  is_file h (under_root cfg (base +:+ ext)) t = true →
  1 ≤ n ≤ fuel →
  (∀ k, 1 ≤ k < n →
        is_file h (under_root cfg (numbered base ext k)) t = true) →
  locate h (under_root cfg (numbered base ext n)) t = Ok q →
  is_dir_node (get t (cwd h)) = true →
  encode h (default (locale_encoding h) (py_or enc (default_encoding cfg)))
         content = Ok d →
  (look t q = Missing →
     ∃ t', write h cfg fuel name (Some content) false bk enc t
             = Some (Ok (numbered base ext n), t') ∧
           look t' q = Regular d ∧
           ∀ q', q' ≠ q → look t' q' = look t q') ∧
  (look t q = Directory →
     write h cfg fuel name (Some content) false bk enc t
       = Some (Raise IsADirectoryError, t)).
Proof.
  intros Hparts Hfile Hn Hbefore Hl Hcwd He.
  assert (Hfree : (∀ d0, look t q ≠ Regular d0) →
                  is_file h (under_root cfg (numbered base ext n)) t = false).
  { intros Hnr. unfold is_file, stat. rewrite Hl. unfold look in Hnr.
    destruct (get t q) as [[d0|?]|]; [by destruct (Hnr d0)|done|done]. }
  split.
  - intros Hmiss.
    assert (Hq : is_dir_node (get t q) = false).
    { unfold look in Hmiss. by destruct (get t q) as [[?|?]|]. }
    exists (put t q (File d)). split_and!.
    + unfold write. rewrite Hparts, Hfile, orb_true_r. simpl.
      rewrite (probe_first h cfg base ext t n fuel 1);
        [|lia|lia|done|apply Hfree; congruence].
      by rewrite (write_file_ok h cfg _ content _ t q d).
    + destruct (locate_target h _ t q Hl Hcwd Hq) as (q0 & c & -> & Hd0).
      by apply look_put_file.
    + intros q' Hne. apply look_put_frame; [done|apply file_is_leaf|done].
  - intros Hdir.
    unfold write. rewrite Hparts, Hfile, orb_true_r. simpl.
    rewrite (probe_first h cfg base ext t n fuel 1);
      [|lia|lia|done|apply Hfree; congruence].
    by rewrite (write_file_on_dir h cfg _ content _ t q).
Qed.

Lemma write_keeps_existing_witness :
  (∃ t', write demo_host demo_cfg 5 "note" (Some "x") false true None noted_fs
           = Some (Ok (numbered "note" ".txt" 2), t') ∧
         look t' ["home"; "app"; "storage"; "note_2.txt"] = Regular ["x"%byte] ∧
         ∀ q', q' ≠ ["home"; "app"; "storage"; "note_2.txt"] →
               look t' q' = look noted_fs q') ∧
  write demo_host demo_cfg 5 "note" (Some "x") false true None blocked_fs
    = Some (Raise IsADirectoryError, blocked_fs).
Proof.
  split.
  - apply (write_keeps_existing demo_host demo_cfg 5 "note" "x" true None
             noted_fs "note" ".txt" 2
             ["home"; "app"; "storage"; "note_2.txt"] ["x"%byte]);
      try (by vm_compute); [lia|].
    intros k Hk. assert (k = 1) as -> by lia. by vm_compute.
  - apply (write_keeps_existing demo_host demo_cfg 5 "note" "x" true None
             blocked_fs "note" ".txt" 1
             ["home"; "app"; "storage"; "note_1.txt"] ["x"%byte]);
      try (by vm_compute); [lia|].
    intros k Hk. lia.
Defined.

(** C3, as stated, fails: with [note.txt] a file and [note_1.txt] a
    directory, the first numbered name under which nothing exists is
    [note_2.txt]; the claim has the new content written there and that
    name returned, the code stops at [note_1.txt], raises and writes
    nothing. *)
Lemma write_keeps_existing_counterexample :
  is_file demo_host (under_root demo_cfg "note.txt") blocked_fs = true ∧
  path_exists demo_host (under_root demo_cfg "note_1.txt") blocked_fs = true ∧
  path_exists demo_host (under_root demo_cfg "note_2.txt") blocked_fs = false ∧
  write demo_host demo_cfg 5 "note" (Some "x") false true None blocked_fs
    = Some (Raise IsADirectoryError, blocked_fs) ∧
  look blocked_fs ["home"; "app"; "storage"; "note_2.txt"] = Missing.
Proof. by vm_compute. Qed.

(** ** C2: writing the same name twice *)

Section write_twice.
Variable h : Host.
Variable cfg : Config.

Lemma read_bytes_ok p t q d :
  locate h p t = Ok q → look t q = Regular d → read_bytes h p t = (Ok d, t).
Proof.
  intros Hl Hq. unfold read_bytes. rewrite Hl. unfold look in Hq.
  destruct (get t q) as [[d'|es]|]; by simplify_eq.
Qed.

Lemma is_file_ok p t q d :
  locate h p t = Ok q → look t q = Regular d → is_file h p t = true.
Proof.
  intros Hl Hq. unfold is_file, stat. rewrite Hl. unfold look in Hq.
  by destruct (get t q) as [[d'|es]|].
Qed.

Lemma dirs_del_file t q d p :
  look t q = Regular d →
  is_dir_node (get t p) = true →
  is_dir_node (get (del t q) p) = true.
Proof.
  intros Hq Hp. apply is_dir_look. rewrite look_del_frame; [by apply is_dir_look|].
  intros [k ->]. rewrite get_app in Hp. unfold look in Hq.
  destruct (get t q) as [[d'|es]|]; [|done|done]. by destruct k.
Qed.

(** Renaming a regular file to a free name: what happens to the tree. *)
Lemma rename_file_ok a b t q qn d :
  locate h a t = Ok q → look t q = Regular d →
  locate h b t = Ok qn → look t qn = Missing →
  os_rename h a b t = (Ok (), put (del t q) qn (File d)).
Proof.
  intros Ha Hq Hb Hqn. unfold os_rename. rewrite Ha, Hb.
  unfold look in *.
  destruct (get t q) as [[d'|es]|] eqn:Hgq; [|done|done].
  destruct (get t qn) as [[d''|es]|] eqn:Hgn; [done|done|].
  simplify_eq. rewrite decide_False; [done|]. intros ->. congruence.
Qed.

Lemma write_result fuel name content bk enc t base ext f t1 :
  name_parts cfg name = Some (base, ext) →
  write h cfg fuel name (Some content) true bk enc t = Some (Ok f, t1) →
  ∃ t', write_file h cfg (base +:+ ext) content
          (py_or enc (default_encoding cfg)) t' = (Ok f, t1).
Proof.
  intros Hparts. unfold write. rewrite Hparts.
  destruct (is_file h _ t && _).
  - destruct (probe h cfg fuel base ext 1 t) as [f1|]; [|done]. simpl.
    destruct bk.
    + unfold mbind, M_bind, bind.
      destruct (os_rename h _ _ t) as [[[]|e] t']; [|done].
      intros [= Hw]. by exists t'.
    + intros [= Hw]. by exists t.
  - intros [= Hw]. by exists t.
Qed.
End write_twice.

(** Renaming a regular file to a name that a directory bears, or that
    cannot be reached, fails and changes nothing. *)
Lemma rename_file_fails h a b t q d :
  locate h a t = Ok q → look t q = Regular d →
  (∀ qn, locate h b t = Ok qn → look t qn = Directory →
         os_rename h a b t = (Raise IsADirectoryError, t)) ∧
  (∀ e, locate h b t = Raise e → os_rename h a b t = (Raise e, t)).
Proof.
  intros Ha Hq. unfold os_rename. rewrite Ha. unfold look in *. split.
  - intros qn -> Hqn.
    destruct (get t q) as [[d'|es]|]; [|done|done].
    by destruct (get t qn) as [[?|?]|].
  - by intros e ->.
Qed.

(** C2, as amended.  After [write(name, c1)] has succeeded, a second
    [write(name, c2)], both with [backup_existing] and [rewrite_existing]
    true and [c2] a text that can be encoded, goes to the first numbered
    name [<base>_<n><ext>] that is not a regular file.  When nothing bears
    that name, the file is renamed to it and [c2] written: [c2] is at the
    original name and [c1] at the numbered name, which is [<base>_1<ext>]
    when nothing bore this name.  When a directory bears it, or it cannot
    be reached, the renaming raises ([IsADirectoryError] for a directory),
    nothing changes and the original name keeps [c1]. *)
Theorem write_twice_backup h cfg fuel name c1 c2 enc t0 f t1 base ext n d2 :
  name_parts cfg name = Some (base, ext) →
  write h cfg fuel name (Some c1) true true enc t0 = Some (Ok f, t1) →
  is_dir_node (get t1 (cwd h)) = true →
  1 ≤ n ≤ fuel →
  (∀ k, 1 ≤ k < n →
        is_file h (under_root cfg (numbered base ext k)) t1 = true) →
  is_file h (under_root cfg (numbered base ext n)) t1 = false →
  encode h (default (locale_encoding h) (py_or enc (default_encoding cfg)))
         c2 = Ok d2 →
  f = base +:+ ext ∧
  ∃ d1,
    encode h (default (locale_encoding h) (py_or enc (default_encoding cfg)))
           c1 = Ok d1 ∧
    read_bytes h (under_root cfg f) t1 = (Ok d1, t1) ∧
    (∀ qn, locate h (under_root cfg (numbered base ext n)) t1 = Ok qn →
           look t1 qn = Missing →
           ∃ t2,
             write h cfg fuel name (Some c2) true true enc t1 = Some (Ok f, t2) ∧
             read_bytes h (under_root cfg f) t2 = (Ok d2, t2) ∧
             read_bytes h (under_root cfg (numbered base ext n)) t2
               = (Ok d1, t2)) ∧
    (∀ qn, locate h (under_root cfg (numbered base ext n)) t1 = Ok qn →
           look t1 qn = Directory →
           write h cfg fuel name (Some c2) true true enc t1
             = Some (Raise IsADirectoryError, t1)) ∧
    (∀ e, locate h (under_root cfg (numbered base ext n)) t1 = Raise e →
          write h cfg fuel name (Some c2) true true enc t1
            = Some (Raise e, t1)).
Proof.
  intros Hparts Hw1 Hcwd Hn Hbefore Hfree He2.
  destruct (write_result h cfg _ _ _ _ _ _ _ _ _ _ Hparts Hw1) as [t' Hwf].
  apply write_file_post in Hwf as (-> & q & d1 & Hl & Hq & He1); [|done].
  split; [done|].
  set (f := base +:+ ext) in *.
  set (fn := numbered base ext n) in *.
  assert (Hstart : ∀ r,
    (x ← os_rename h (under_root cfg f) (under_root cfg fn);
     write_file h cfg f c2 (py_or enc (default_encoding cfg))) t1 = r →
    write h cfg fuel name (Some c2) true true enc t1 = Some r).
  { intros r <-. unfold write. rewrite Hparts. fold f.
    rewrite (is_file_ok h _ t1 q d1) by done. simpl.
    rewrite (probe_first h cfg base ext t1 n fuel 1) by (done || lia).
    done. }
  destruct (rename_file_fails h (under_root cfg f) (under_root cfg fn) t1 q d1
              Hl Hq) as [Hrdir Hrfail].
  exists d1. split_and!.
  - done.
  - by apply (read_bytes_ok h _ _ q).
  - intros qn Hln Hmiss.
    set (t1' := put (del t1 q) qn (File d1)).
    assert (Hqn : is_dir_node (get t1 qn) = false).
    { unfold look in Hmiss. by destruct (get t1 qn) as [[?|?]|]. }
    assert (Hne : q ≠ qn) by (intros ->; congruence).
    assert (Hq0 : q ≠ []).
    { intros ->. apply root_is_dir in Hcwd. apply is_dir_look in Hcwd.
      congruence. }
    assert (Hdelqn : look (del t1 q) qn = Missing).
    { destruct (decide (q `prefix_of` qn)).
      - by apply look_del_under.
      - by rewrite look_del_frame. }
    assert (Hdelqn' : is_dir_node (get (del t1 q) qn) = false).
    { unfold look in Hdelqn. by destruct (get (del t1 q) qn) as [[?|?]|]. }
    assert (Hdirs : ∀ p, is_dir_node (get t1 p) = true →
                         is_dir_node (get t1' p) = true).
    { intros p Hp. apply dirs_put_file; [done|]. by eapply dirs_del_file. }
    assert (Hl' : locate h (under_root cfg f) t1' = Ok q).
    { unfold locate in *. by eapply walk_mono. }
    assert (Hln' : locate h (under_root cfg fn) t1' = Ok qn).
    { unfold locate in *. by eapply walk_mono. }
    assert (Hq' : look t1' q = Missing).
    { unfold t1'. rewrite look_put_frame; [|done|apply file_is_leaf|done].
      by apply look_del_under. }
    assert (Hq'' : is_dir_node (get t1' q) = false).
    { unfold look in Hq'. by destruct (get t1' q) as [[?|?]|]. }
    assert (Hqn1 : look t1' qn = Regular d1).
    { destruct (locate_target h _ t1 qn Hln Hcwd Hqn) as (qn0 & c & -> & Hd0).
      apply look_put_file. by eapply dirs_del_file. }
    exists (put t1' q (File d2)). split_and!.
    + apply Hstart. unfold mbind, M_bind, bind.
      rewrite (rename_file_ok h _ _ t1 q qn d1) by done. fold t1'.
      rewrite (write_file_ok h cfg f c2 _ t1' q d2); auto.
    + apply (read_bytes_ok h _ _ q); [by apply locate_put_file|].
      destruct (locate_target h _ t1' q Hl' (Hdirs _ Hcwd) Hq'')
        as (q0 & c & -> & Hd0).
      by apply look_put_file.
    + apply (read_bytes_ok h _ _ qn); [by apply locate_put_file|].
      rewrite look_put_frame; [done|done|apply file_is_leaf|done].
  - intros qn Hln Hdir. apply Hstart. unfold mbind, M_bind, bind.
    by rewrite (Hrdir qn Hln Hdir).
  - intros e Hln. apply Hstart. unfold mbind, M_bind, bind.
    by rewrite (Hrfail e Hln).
Qed.

Lemma write_twice_backup_witness :
  let t1 := state_after
    (write demo_host demo_cfg 5 "note" (Some "hello") true true None demo_fs)
    demo_fs in
  (∃ t2,
     write demo_host demo_cfg 5 "note" (Some "world") true true None t1
       = Some (Ok ("note" +:+ ".txt"), t2) ∧
     read_bytes demo_host (under_root demo_cfg ("note" +:+ ".txt")) t2
       = (Ok (bytes_of_str "world"), t2) ∧
     read_bytes demo_host (under_root demo_cfg (numbered "note" ".txt" 1)) t2
       = (Ok (bytes_of_str "hello"), t2)) ∧
  write demo_host demo_cfg 5 "note" (Some "world") true true None blocked_fs
    = Some (Raise IsADirectoryError, blocked_fs).
Proof.
  intros t1. split.
  - destruct (write_twice_backup demo_host demo_cfg 5 "note" "hello" "world"
                None demo_fs ("note" +:+ ".txt") t1 "note" ".txt" 1
                (bytes_of_str "world"))
      as (_ & d1 & He1 & _ & Hfree & _ & _);
      [by vm_compute|by vm_compute|by vm_compute|lia|intros k Hk; lia
      |by vm_compute|by vm_compute|].
    vm_compute in He1. injection He1 as <-.
    apply (Hfree ["home"; "app"; "storage"; "note_1.txt"]); by vm_compute.
  - destruct (write_twice_backup demo_host demo_cfg 5 "note" "hello" "world"
                None blocked_before_fs ("note" +:+ ".txt") blocked_fs
                "note" ".txt" 1 (bytes_of_str "world"))
      as (_ & d1 & _ & _ & _ & Hdir & _);
      [by vm_compute|by vm_compute|by vm_compute|lia|intros k Hk; lia
      |by vm_compute|by vm_compute|].
    apply (Hdir ["home"; "app"; "storage"; "note_1.txt"]); by vm_compute.
Defined.

(** C2, as stated, fails: when [note.txt] exists before the first write,
    the first write moves the older file to [note_1.txt], so the second
    write leaves the first content at [note_2.txt], not at [note_1.txt]. *)
Lemma write_twice_counterexample :
  let t1 := state_after
    (write demo_host demo_cfg 5 "note" (Some "a") true true None older_fs)
    older_fs in
  let t2 := state_after
    (write demo_host demo_cfg 5 "note" (Some "b") true true None t1) t1 in
  write demo_host demo_cfg 5 "note" (Some "a") true true None older_fs
    = Some (Ok "note.txt", t1) ∧
  write demo_host demo_cfg 5 "note" (Some "b") true true None t1
    = Some (Ok "note.txt", t2) ∧
  read_bytes demo_host (under_root demo_cfg "note.txt") t2
    = (Ok (bytes_of_str "b"), t2) ∧
  read_bytes demo_host (under_root demo_cfg "note_1.txt") t2
    = (Ok (bytes_of_str "old"), t2) ∧
  read_bytes demo_host (under_root demo_cfg "note_1.txt") t2
    ≠ (Ok (bytes_of_str "a"), t2) ∧
  read_bytes demo_host (under_root demo_cfg "note_2.txt") t2
    = (Ok (bytes_of_str "a"), t2).
Proof. by vm_compute. Qed.

(** ** Splitting and joining *)

Lemma contains_app c a b : contains c (a +:+ b) = contains c a || contains c b.
Proof.
  induction a as [|x a IH]; [done|]. rewrite str_cons_app. simpl.
  by destruct (decide (x = c)).
Qed.

Lemma split_nosep sep s : contains sep s = false → split_on sep s = [s].
Proof.
  induction s as [|x s IH]; simpl; [done|].
  destruct (decide (x = sep)); [done|]. intros H. by rewrite IH.
Qed.

Lemma split_no_sep sep s :
  Forall (fun x => contains sep x = false) (split_on sep s).
Proof.
  induction s as [|x s IH]; simpl; [by repeat constructor|].
  destruct (decide (x = sep)); [by constructor|].
  pose proof (split_on_nonnil sep s).
  destruct (split_on sep s) as [|y l]; [done|].
  inversion_clear IH. constructor; [|done]. simpl. by rewrite decide_False.
Qed.

Lemma contains_split c sep s :
  contains c s = false →
  Forall (fun x => contains c x = false) (split_on sep s).
Proof.
  induction s as [|x s IH]; simpl; [by repeat constructor|].
  destruct (decide (x = c)); [done|]. intros H. specialize (IH H).
  destruct (decide (x = sep)); [by constructor|].
  pose proof (split_on_nonnil sep s).
  destruct (split_on sep s) as [|y l]; [done|].
  inversion_clear IH. constructor; [|done]. simpl. by rewrite decide_False.
Qed.

Lemma split_app_sep sep a b :
  split_on sep (a +:+ String sep b) = split_on sep a ++ split_on sep b.
Proof.
  induction a as [|x a IH].
  - rewrite str_nil_app. simpl. by rewrite decide_True.
  - rewrite str_cons_app. simpl. rewrite IH.
    destruct (decide (x = sep)); [done|].
    pose proof (split_on_nonnil sep a).
    by destruct (split_on sep a).
Qed.

Lemma split_app sep a b :
  split_on sep (a +:+ b) =
    removelast (split_on sep a) ++
    [List.last (split_on sep a) "" +:+ hd "" (split_on sep b)] ++
    tl (split_on sep b).
Proof.
  induction a as [|x a IH].
  - rewrite str_nil_app. simpl. pose proof (split_on_nonnil sep b).
    by destruct (split_on sep b).
  - rewrite str_cons_app. simpl. rewrite IH.
    pose proof (split_on_nonnil sep a) as Hnn.
    destruct (decide (x = sep)).
    + destruct (split_on sep a) as [|h t]; [done|]. done.
    + destruct (split_on sep a) as [|h t]; [done|].
      destruct t as [|h' t']; [done|]. done.
Qed.

Lemma split_join sep xs :
  xs ≠ [] →
  Forall (fun x => contains sep x = false) xs →
  split_on sep (join (String sep "") xs) = xs.
Proof.
  induction xs as [|x xs IH]; intros Hne Hall; [done|].
  inversion_clear Hall as [|? ? Hx Hxs].
  destruct xs as [|y xs].
  - simpl. by apply split_nosep.
  - change (join (String sep "") (x :: y :: xs))
      with (x +:+ String sep (join (String sep "") (y :: xs))).
    rewrite split_app_sep, IH by done. by rewrite split_nosep.
Qed.

Lemma filter_is_part_idemp (l : list string) :
  filter (fun x => Is_true (is_part x)) (filter (fun x => Is_true (is_part x)) l)
  = filter (fun x => Is_true (is_part x)) l.
Proof.
  induction l as [|x l IH]; [done|].
  rewrite filter_cons. destruct (decide (Is_true (is_part x))) as [Hx|Hx]; [|done].
  rewrite filter_cons. rewrite decide_True by done. by rewrite IH.
Qed.

Lemma lstrip_relative s : isabs s = false → lstrip_slash s = s.
Proof.
  unfold isabs. destruct s as [|x s]; simpl; [done|].
  destruct (decide ("/"%char = x)) as [<-|Hne]; [done|].
  by rewrite decide_False.
Qed.

Lemma parse_relative s :
  isabs s = false →
  parse s = mkPath "" (filter (fun x => Is_true (is_part x)) (split_on "/" s)).
Proof.
  intros Hr. unfold parse. rewrite lstrip_relative by done.
  by rewrite Nat.sub_diag.
Qed.

Lemma isabs_app a b : nonempty a = true → isabs (a +:+ b) = isabs a.
Proof. by destruct a. Qed.

Lemma dotless_is_part p : nonempty p = true → contains "." p = false →
  Is_true (is_part p).
Proof.
  intros Hn Hd. unfold is_part. rewrite Hn. simpl.
  destruct p as [|x p]; [done|]. simpl in Hd.
  destruct (decide (x = "."%char)) as [->|Hx]; [done|].
  apply Is_true_true. apply negb_true_iff. apply String.eqb_neq.
  intros [= ->]. done.
Qed.

Lemma dotless_app_is_part p x : nonempty p = true → contains "." p = false →
  Is_true (is_part (p +:+ x)).
Proof.
  intros Hn Hd. unfold is_part. destruct p as [|a p]; [done|].
  rewrite str_cons_app. simpl. simpl in Hd.
  destruct (decide (a = "."%char)) as [->|Ha]; [done|].
  by destruct (Ascii.eqb_spec a ".").
Qed.

(** ** Names as strings and as paths *)

Lemma is_part_false x : ¬ Is_true (is_part x) → x = "" ∨ x = ".".
Proof.
  unfold is_part. destruct x as [|a x]; [by left|]. cbn [nonempty andb].
  destruct (String.eqb_spec (String a x) "."); [by right|].
  intros H. by destruct H.
Qed.

Lemma step_skip cur x : ¬ Is_true (is_part x) → step cur x = cur.
Proof. intros H. unfold step. by rewrite decide_True by by apply is_part_false. Qed.

Lemma part_not_skipped x : Is_true (is_part x) → x ≠ "" ∧ x ≠ ".".
Proof.
  unfold is_part. destruct x as [|a x]; [done|]. cbn [nonempty andb].
  destruct (String.eqb_spec (String a x) "."); [done|done].
Qed.

(** Empty and ["."] components do not change where a walk ends, as long as
    a proper component follows them. *)
Lemma walk_skip t cur cs c :
  Is_true (is_part c) →
  walk t cur (cs ++ [c]) = walk t cur (filter (fun x => Is_true (is_part x)) cs ++ [c]).
Proof.
  intros Hc. revert cur. induction cs as [|x cs IH]; intros cur; [done|].
  rewrite filter_cons. destruct (decide (Is_true (is_part x))) as [Hx|Hx].
  - simpl. destruct (get t cur) as [[d|es]|]; [done|apply IH|done].
  - simpl. rewrite step_skip by done. rewrite IH.
    destruct (filter _ cs ++ [c]) as [|y l] eqn:Hl.
    { by destruct (filter (λ x : string, Is_true (is_part x)) cs). }
    simpl. by destruct (get t cur) as [[d|es]|].
Qed.

Lemma stem_suffix_dotless nm : contains "." nm = false → stem_suffix nm = (nm, "").
Proof. intros H. unfold stem_suffix. by rewrite split_nosep. Qed.

Lemma isabs_split s : isabs s = true → hd "" (split_on "/" s) = "".
Proof.
  unfold isabs. destruct s as [|a s]; simpl; [done|].
  destruct (decide ("/"%char = a)) as [<-|]; [|done]. by rewrite decide_True.
Qed.

Lemma join_parts_relative xs y :
  xs ≠ [] →
  Forall (fun x => Is_true (is_part x) ∧ contains "/" x = false) xs →
  isabs (join "/" xs +:+ y) = false.
Proof.
  intros Hne Hall.
  assert (Hs : split_on "/" (join "/" xs) = xs).
  { apply split_join; [done|]. eapply Forall_impl; [done|]. by intros ? [_ ?]. }
  destruct (join "/" xs) as [|a s] eqn:Hj.
  - simpl in Hs. subst xs. inversion_clear Hall as [|? ? [Hp _] _]. done.
  - rewrite isabs_app by done.
    destruct (isabs (String a s)) eqn:Ha; [|done].
    apply isabs_split in Ha. rewrite Hs in Ha.
    destruct xs as [|x xs]; [done|]. simpl in Ha. subst x.
    inversion_clear Hall as [|? ? [Hp _] _]. done.
Qed.

Lemma parse_parts_wf s :
  Forall (fun x => Is_true (is_part x) ∧ contains "/" x = false) (parts (parse s)).
Proof.
  unfold parse. simpl. apply Forall_forall. intros x Hx.
  apply list_elem_of_filter in Hx as [Hp Hin]. split; [done|].
  pose proof (split_no_sep "/" (lstrip_slash s)) as Hall.
  by eapply Forall_forall in Hall.
Qed.

Lemma parse_root_cases s :
  root (parse s) = "" ∨ root (parse s) = "/" ∨ root (parse s) = "//".
Proof. unfold parse. simpl. repeat case_match; auto. Qed.

Lemma filter_parts_id xs :
  Forall (fun x => Is_true (is_part x) ∧ contains "/" x = false) xs →
  filter (fun x => Is_true (is_part x)) xs = xs.
Proof.
  induction 1 as [|x xs [Hx _] _ IH]; [done|].
  rewrite filter_cons, decide_True by done. by rewrite IH.
Qed.

Lemma split_cons_sep sep s : split_on sep (String sep s) = "" :: split_on sep s.
Proof. simpl. by rewrite decide_True. Qed.

(** The string of a parsed path splits back into its parts, up to empty
    components, and is absolute exactly when the path is. *)
Lemma to_str_parse s y :
  filter (fun x => Is_true (is_part x)) (split_on "/" (to_str (parse s)))
    = parts (parse s)
  ∧ isabs (to_str (parse s) +:+ y) = is_absolute (parse s).
Proof.
  pose proof (parse_parts_wf s) as Hwf.
  assert (Hsj : parts (parse s) ≠ [] →
                split_on "/" (join "/" (parts (parse s))) = parts (parse s)).
  { intros Hne. apply split_join; [done|].
    eapply Forall_impl; [done|]. by intros ? [_ ?]. }
  unfold to_str, is_absolute.
  destruct (parse_root_cases s) as [Hr|[Hr|Hr]]; rewrite Hr.
  - destruct (parts (parse s)) as [|x xs] eqn:Hp; [done|].
    rewrite str_nil_app, Hsj by done. split; [by apply filter_parts_id|].
    by apply join_parts_relative.
  - split; [|done].
    destruct (parts (parse s)) as [|x xs] eqn:Hp; [done|].
    change ("/" +:+ join "/" (x :: xs)) with (String "/" (join "/" (x :: xs))).
    rewrite split_cons_sep, Hsj by done.
    rewrite filter_cons, decide_False by (intros H; exact H).
    by apply filter_parts_id.
  - split; [|done].
    destruct (parts (parse s)) as [|x xs] eqn:Hp; [done|].
    change ("//" +:+ join "/" (x :: xs))
      with (String "/" (String "/" (join "/" (x :: xs)))).
    rewrite !split_cons_sep, Hsj by done.
    rewrite filter_cons, decide_False by (intros H; exact H).
    rewrite filter_cons, decide_False by (intros H; exact H).
    by apply filter_parts_id.
Qed.

Lemma universal_newlines_id s :
  contains "013" s = false → universal_newlines s = s.
Proof.
  induction s as [|a s IH]; simpl; [done|].
  destruct (decide (a = "013"%char)); [done|]. intros H. by rewrite IH.
Qed.

(** ** C6: [write] then [read] *)

Section roundtrip.
Variable h : Host.
Variable cfg : Config.

(** A relative name without a dot whose final component is not empty. *)
Variable name : string.
Hypothesis name_relative : isabs name = false.
Hypothesis name_dotless : contains "." name = false.
Hypothesis name_final : nonempty (final_component name) = true.

Lemma name_split :
  split_on "/" name = removelast (split_on "/" name) ++ [final_component name].
Proof. apply app_removelast_last, split_on_nonnil. Qed.

Lemma final_dotless : contains "." (final_component name) = false.
Proof.
  pose proof (contains_split "." "/" name name_dotless) as Hall.
  rewrite name_split in Hall. apply Forall_app in Hall as [_ Hall].
  by inversion_clear Hall.
Qed.

Lemma name_parse :
  parse name =
    mkPath "" (filter (fun x => Is_true (is_part x)) (removelast (split_on "/" name))
               ++ [final_component name]).
Proof.
  rewrite parse_relative by done. f_equal.
  rewrite name_split at 1. rewrite filter_app. f_equal.
  rewrite filter_cons, decide_True; [done|].
  apply dotless_is_part; [done|apply final_dotless].
Qed.

Lemma name_parts_dotless :
  name_parts cfg name = Some (to_str (parse name), fmt (default_ext cfg)).
Proof.
  unfold name_parts, with_suffix_empty, suffix, name_of.
  rewrite name_parse. cbn [parts root]. rewrite last_last, name_final.
  rewrite stem_suffix_dotless by apply final_dotless.
  cbn [fst snd nonempty]. by rewrite removelast_last.
Qed.

(** Parsing the name with an extension: the same path whether or not the
    name went through [pathlib] first. *)
Lemma parse_name_ext x :
  parse (to_str (parse name) +:+ x) = parse (name +:+ x).
Proof.
  set (fl := filter (fun x => Is_true (is_part x)) (removelast (split_on "/" name))).
  set (p := final_component name).
  assert (Hwf : Forall (fun x => Is_true (is_part x) ∧ contains "/" x = false)
                       (fl ++ [p])).
  { pose proof (parse_parts_wf name) as H. by rewrite name_parse in H. }
  assert (Hstr : to_str (parse name) = join "/" (fl ++ [p])).
  { rewrite name_parse. unfold to_str. cbn [root parts]. fold fl p.
    by destruct (fl ++ [p]) eqn:He; [destruct fl|]. }
  assert (Hsplit : split_on "/" (join "/" (fl ++ [p])) = fl ++ [p]).
  { apply split_join; [by destruct fl|].
    eapply Forall_impl; [done|]. by intros ? [_ ?]. }
  assert (Hrel1 : isabs (to_str (parse name) +:+ x) = false).
  { rewrite Hstr. apply join_parts_relative; [by destruct fl|done]. }
  assert (Hrel2 : isabs (name +:+ x) = false).
  { rewrite isabs_app; [done|]. destruct name; [|done].
    by vm_compute in name_final. }
  rewrite Hstr in *. rewrite !parse_relative by done. f_equal.
  rewrite !split_app. rewrite Hsplit, removelast_last, last_last.
  fold (final_component name). fold p.
  rewrite !filter_app. f_equal. unfold fl. by rewrite filter_is_part_idemp.
Qed.

(** The string [read] opens leads where the path [write] uses leads. *)
Lemma locate_read_name x t :
  contains "/" x = false →
  locate h (os_of_str (to_str (self_path cfg) +:+ "/" +:+ name +:+ x)) t
  = locate h (under_root cfg (name +:+ x)) t.
Proof.
  intros Hx. unfold locate, under_root, os_of_str, os_of_path, self_path.
  cbn [anchored comps].
  destruct (to_str_parse (STORAGE_PATH cfg) ("/" +:+ name +:+ x)) as [Hf Ha].
  assert (Hrel : isabs (name +:+ x) = false).
  { rewrite isabs_app; [done|]. destruct name; [|done].
    by vm_compute in name_final. }
  assert (Hj : joinpath (parse (STORAGE_PATH cfg)) (parse (name +:+ x)) =
               mkPath (root (parse (STORAGE_PATH cfg)))
                 (parts (parse (STORAGE_PATH cfg)) ++ parts (parse (name +:+ x)))).
  { unfold joinpath. by rewrite is_absolute_parse, Hrel. }
  rewrite Hj, Ha. cbn [is_absolute root parts].
  change ("/" +:+ name +:+ x) with (String "/" (name +:+ x)).
  rewrite split_app_sep.
  rewrite (parse_relative (name +:+ x)) by done. cbn [parts].
  assert (Hs : split_on "/" (name +:+ x) =
               removelast (split_on "/" name) ++ [final_component name +:+ x]).
  { rewrite split_app, (split_nosep "/" x) by done. simpl. done. }
  rewrite Hs. rewrite filter_app.
  rewrite (filter_cons _ (final_component name +:+ x)).
  rewrite decide_True
    by (apply dotless_app_is_part; [done|apply final_dotless]).
  rewrite filter_nil. rewrite !app_assoc.
  rewrite walk_skip by (apply dotless_app_is_part; [done|apply final_dotless]).
  by rewrite filter_app, Hf.
Qed.
End roundtrip.

Lemma dotless_no_dot_slash name :
  contains "." name = false → startswith "./" name = false.
Proof.
  destruct name as [|a s]; simpl; [done|].
  destruct (decide (a = "."%char)) as [->|Hne]; [done|].
  by rewrite decide_False.
Qed.

Lemma nonempty_app_cons a c b : nonempty (a +:+ String c b) = true.
Proof. by destruct a. Qed.

(** C6, as amended.  For a relative name without a dot whose final
    component is not empty, and a text without carriage returns that the
    configured default encoding encodes and decodes back, a successful
    [write(name, content)] followed by [read(name)] returns the content;
    both use [<name><default-ext>] under the root.  (The default extension
    holds no slash, and the working directory exists.) *)
Theorem write_read_roundtrip h cfg fuel name content bk e f t0 t1 :
  isabs name = false →
  contains "." name = false →
  nonempty (final_component name) = true →
  contains "/" (fmt (default_ext cfg)) = false →
  DEFAULT_ENCODING cfg = Some e →
  nonempty e = true →
  contains "013" content = false →
  (∀ d, encode h e content = Ok d → decode h e d = Ok content) →
  write h cfg fuel name (Some content) true bk None t0 = Some (Ok f, t1) →
  is_dir_node (get t1 (cwd h)) = true →
  f = to_str (parse name) +:+ fmt (default_ext cfg) ∧
  read_name h cfg name t1 =
    (Ok (to_str (self_path cfg) +:+ "/" +:+ name +:+ fmt (default_ext cfg)), t1) ∧
  read h cfg name None t1 = (Ok content, t1).
Proof.
  intros Hrel Hdot Hfin Hext Henc Hne Hcr Hcodec Hw Hcwd.
  pose proof (name_parts_dotless cfg name Hrel Hdot Hfin) as Hparts.
  destruct (write_result h cfg _ _ _ _ _ _ _ _ _ _ Hparts Hw) as [t' Hwf].
  apply write_file_post in Hwf as (-> & q & d & Hl & Hq & He); [|done].
  split; [done|].
  unfold under_root in Hl. rewrite (parse_name_ext name Hrel Hdot Hfin) in Hl.
  fold (under_root cfg (name +:+ fmt (default_ext cfg))) in Hl.
  unfold py_or, default_encoding in He. simpl in He. rewrite Henc in He.
  simpl in He.
  assert (Hex : path_exists h (under_root cfg (name +:+ fmt (default_ext cfg))) t1
                = true).
  { unfold path_exists, stat. rewrite Hl. unfold look in Hq.
    by destruct (get t1 q). }
  assert (Hn : read_name h cfg name t1 =
    (Ok (to_str (self_path cfg) +:+ "/" +:+ name +:+ fmt (default_ext cfg)), t1)).
  { unfold read_name. rewrite Hrel, Hdot, (dotless_no_dot_slash name Hdot). simpl.
    unfold mbind, M_bind, bind, exists_, ask, ret. by rewrite Hex. }
  split; [done|].
  unfold read, mbind, M_bind, bind. rewrite Hn.
  unfold py_or, default_encoding. simpl. rewrite Henc. unfold read_open.
  unfold mbind, M_bind, bind, open_read.
  change ("/" +:+ name +:+ fmt (default_ext cfg))
    with (String "/" (name +:+ fmt (default_ext cfg))).
  rewrite nonempty_app_cons.
  change (String "/" (name +:+ fmt (default_ext cfg)))
    with ("/" +:+ name +:+ fmt (default_ext cfg)).
  rewrite (read_bytes_ok h _ t1 q d);
    [|by rewrite (locate_read_name h cfg name Hrel Hdot Hfin)|done].
  unfold try, ret. rewrite (Hcodec d He). by rewrite universal_newlines_id.
Qed.

Lemma write_read_roundtrip_witness :
  let t1 := state_after
    (write demo_host demo_cfg 5 "drafts/note" (Some "hello") true true None demo_fs)
    demo_fs in
  read demo_host demo_cfg "drafts/note" None t1 = (Ok "hello", t1).
Proof.
  intros t1.
  refine (proj2 (proj2 (write_read_roundtrip demo_host demo_cfg 5 "drafts/note"
            "hello" true "utf-8" "drafts/note.txt" demo_fs t1
            _ _ _ _ _ _ _ _ _ _))); try (by vm_compute).
  intros d [= <-]. by vm_compute.
Defined.

(** C6, as stated, fails: a carriage return does not survive.  The text is
    written as it is and read back in text mode, which turns it into a
    line feed. *)
Lemma roundtrip_counterexample :
  let content := String "a" (String "013" (String "b" "")) in
  let t1 := state_after
    (write demo_host demo_cfg 5 "note" (Some content) true true None demo_fs)
    demo_fs in
  write demo_host demo_cfg 5 "note" (Some content) true true None demo_fs
    = Some (Ok "note.txt", t1) ∧
  read demo_host demo_cfg "note" None t1
    = (Ok (String "a" (String "010" (String "b" ""))), t1) ∧
  read demo_host demo_cfg "note" None t1 ≠ (Ok content, t1).
Proof. by vm_compute. Qed.

(** ** Listing a directory tree *)

Lemma rglob_dir es :
  rglob_rel (Dir es) =
    map (fun e => [e.1]) es ++
    flat_map (fun e => map (cons e.1) (rglob_rel e.2)) es.
Proof.
  simpl. f_equal. induction es as [|[k v] es IH]; [done|].
  simpl. by rewrite IH.
Qed.

Lemma rglob_elem es r :
  r ∈ rglob_rel (Dir es) ↔
  (∃ e, e ∈ es ∧ r = [e.1]) ∨
  (∃ e r', e ∈ es ∧ r' ∈ rglob_rel e.2 ∧ r = e.1 :: r').
Proof.
  rewrite rglob_dir, elem_of_app. split.
  - intros [H|H].
    + left. apply list_elem_of_In, in_map_iff in H as (e & <- & He).
      exists e. by rewrite list_elem_of_In.
    + right. apply list_elem_of_In, in_flat_map in H as (e & He & Hr).
      apply in_map_iff in Hr as (r' & <- & Hr').
      exists e, r'. by rewrite !list_elem_of_In.
  - intros [(e & He & ->)|(e & r' & He & Hr' & ->)].
    + left. apply list_elem_of_In, in_map_iff. exists e.
      by rewrite <- list_elem_of_In.
    + right. apply list_elem_of_In, in_flat_map. exists e.
      split; [by apply list_elem_of_In|].
      apply in_map_iff. exists r'. by rewrite <- list_elem_of_In.
Qed.

Lemma find_entry_elem c es m : find_entry c es = Some m → (c, m) ∈ es.
Proof.
  induction es as [|[k v] es IH]; simpl; [done|].
  destruct (decide (k = c)) as [->|Hne].
  - intros [= ->]. apply list_elem_of_here.
  - intros H. apply list_elem_of_further. by apply IH.
Qed.

Lemma find_entry_nodup k v es :
  NoDup es.*1 → (k, v) ∈ es → find_entry k es = Some v.
Proof.
  induction es as [|[k' v'] es IH]; simpl; intros Hnd Hin.
  - by apply elem_of_nil in Hin.
  - apply NoDup_cons in Hnd as [Hk' Hnd].
    apply elem_of_cons in Hin as [[= <- <-]|Hin].
    + by rewrite decide_True.
    + rewrite decide_False; [by apply IH|].
      intros ->. apply Hk'. apply list_elem_of_fmap. by exists (k, v).
Qed.

Lemma wf_dir_inv es :
  wf_node (Dir es) = true →
  NoDup es.*1 ∧ Forall is_name es.*1 ∧ ∀ k v, (k, v) ∈ es → wf_node v = true.
Proof.
  simpl. intros H. apply andb_prop in H as [H Hsub].
  apply andb_prop in H as [Hnd Hnames].
  split_and!.
  - by apply bool_decide_eq_true in Hnd.
  - apply Forall_forall. intros c Hc.
    rewrite forallb_forall in Hnames.
    specialize (Hnames c). rewrite <- list_elem_of_In in Hnames.
    specialize (Hnames Hc). by apply bool_decide_eq_true in Hnames.
  - clear Hnd Hnames. induction es as [|[k' v'] es IH]; intros k v Hin.
    + by apply elem_of_nil in Hin.
    + apply andb_prop in Hsub as [Hv Hsub].
      apply elem_of_cons in Hin as [[= -> ->]|Hin]; [done|by eapply IH].
Qed.

(** The listing holds exactly the paths that lead somewhere below the
    directory. *)
Lemma rglob_spec n r :
  wf_node n = true →
  r ∈ rglob_rel n ↔ r ≠ [] ∧ is_Some (get n r).
Proof.
  revert n. induction r as [|c r IH]; intros n Hwf.
  - split; [|by intros [? _]]. destruct n as [d|es]; simpl.
    + by intros ?%elem_of_nil.
    + intros [(e & _ & ?)|(e & r' & _ & _ & ?)]%rglob_elem; done.
  - destruct n as [d|es].
    { simpl. split; [by intros ?%elem_of_nil|]. by intros [_ [? ?]]. }
    destruct (wf_dir_inv es Hwf) as (Hnd & _ & Hsub).
    rewrite rglob_elem, get_cons. split.
    + intros [([k v] & He & [= -> ->])|([k v] & r' & He & Hr' & [= -> ->])];
        (split; [done|]); simpl in *;
        rewrite (find_entry_nodup _ _ _ Hnd He).
      * by eexists.
      * apply IH in Hr' as [_ ?]; [done|by eapply Hsub].
    + intros [_ Hsome].
      destruct (find_entry c es) as [m|] eqn:Hf; [|by destruct Hsome].
      apply find_entry_elem in Hf.
      destruct r as [|c' r'].
      * left. by exists (c, m).
      * right. exists (c, m), (c' :: r'). split_and!; [done| |done].
        apply IH; [by eapply Hsub|done].
Qed.

Lemma wf_get_names n r :
  wf_node n = true → is_Some (get n r) → Forall is_name r.
Proof.
  revert n. induction r as [|c r IH]; intros n Hwf Hsome; [done|].
  destruct n as [d|es]; [by destruct Hsome|].
  destruct (wf_dir_inv es Hwf) as (_ & Hnames & Hsub).
  rewrite get_cons in Hsome.
  destruct (find_entry c es) as [m|] eqn:Hf; [|by destruct Hsome].
  apply find_entry_elem in Hf. constructor.
  - eapply Forall_forall; [done|]. apply list_elem_of_fmap. by exists (c, m).
  - eapply IH; [by eapply Hsub|done].
Qed.

(** ** Making directories *)

Lemma prefix_snoc_cases (r r0 : cpath) c :
  r `prefix_of` r0 ++ [c] → r = r0 ++ [c] ∨ r `prefix_of` r0.
Proof.
  intros [k Hk]. destruct (decide (k = [])) as [->|Hne].
  - left. by rewrite app_nil_r in Hk.
  - right. rewrite (app_removelast_last "" Hne) in Hk.
    rewrite app_assoc in Hk. apply app_inj_tail in Hk as [-> _].
    by eexists.
Qed.

Lemma look_below_missing t q k : look t q = Missing → look t (q ++ k) = Missing.
Proof.
  unfold look. rewrite get_app. by destruct (get t q) as [[d|es]|].
Qed.

Lemma look_above_dir t q k :
  k ≠ [] → look t (q ++ k) ≠ Missing → look t q = Directory.
Proof.
  intros Hk Hl. unfold look in *.
  destruct (get t (q ++ k)) as [m|] eqn:Hg; [|done].
  by apply get_prefix_dir in Hg as [es ->].
Qed.

Lemma look_prefix_dir t q r r0 :
  r `prefix_of` r0 → look t (q ++ r0) = Directory → look t (q ++ r) = Directory.
Proof.
  intros [k ->] Hd. destruct (decide (k = [])) as [->|Hk].
  - by rewrite app_nil_r in Hd.
  - rewrite app_assoc in Hd. apply (look_above_dir _ _ k); [done|congruence].
Qed.

Lemma walk_names_ok t cur r0 c :
  Forall is_name (r0 ++ [c]) →
  look t (cur ++ r0) = Directory →
  walk t cur (r0 ++ [c]) = Ok (cur ++ r0 ++ [c]).
Proof.
  intros [Hr0 Hc]%Forall_app Hd. inversion_clear Hc as [|? ? Hc' _].
  rewrite walk_app. pose proof (walk_names t cur r0 Hr0) as Hw.
  unfold look in Hd.
  destruct (walk t cur r0) as [r|e].
  - subst r. simpl. destruct (get t (cur ++ r0)) as [[d|es]|]; [done| |done].
    rewrite step_name by done. by rewrite <- app_assoc.
  - by rewrite Hw in Hd.
Qed.

Lemma walk_names_missing t cur q :
  q ≠ [] →
  Forall is_name q →
  (∀ r d, r `prefix_of` q → look t (cur ++ r) ≠ Regular d) →
  look t (cur ++ removelast q) = Missing →
  walk t cur q = Raise FileNotFoundError.
Proof.
  revert cur. induction q as [|c q IH]; intros cur Hne Hnames Hfiles Hmiss; [done|].
  inversion_clear Hnames as [|? ? Hc Hq]. simpl.
  pose proof (Hfiles [] ) as H0. rewrite app_nil_r in H0.
  unfold look in H0.
  destruct (get t cur) as [[d|es]|] eqn:Hg; [|clear H0|done].
  { exfalso. eapply H0; [apply prefix_nil|done]. }
  rewrite step_name by done.
  destruct q as [|c' q'].
  - simpl in Hmiss. rewrite app_nil_r in Hmiss. unfold look in Hmiss.
    by rewrite Hg in Hmiss.
  - apply IH; [done|done| |].
    + intros r d Hr. rewrite <- app_assoc. apply Hfiles.
      by apply (prefix_app [c]).
    + by rewrite <- app_assoc.
Qed.

Lemma mkdir_rev_eq h a rp t :
  mkdir_rev h a rp t =
    match os_mkdir h (mkOs a (rev rp)) t with
    | (Ok _, t') => (Ok (), t')
    | (Raise FileNotFoundError, t') =>
        match rp with
        | [] => (Raise FileNotFoundError, t')
        | _ :: rparent =>
            match mkdir_rev h a rparent t' with
            | (Ok _, t1) => mkdir_exist_ok h (mkOs a (rev rp)) t1
            | (Raise e, t1) => (Raise e, t1)
            end
        end
    | (Raise e, t') =>
        if is_dir h (mkOs a (rev rp)) t' then (Ok (), t') else (Raise e, t')
    end.
Proof. destruct rp; reflexivity. Qed.

Section mkdir_facts.
Variable h : Host.

Lemma os_mkdir_new p t q :
  locate h p t = Ok q → look t q = Missing →
  os_mkdir h p t = (Ok (), put t q (Dir [])).
Proof.
  intros Hl Hq. unfold os_mkdir. rewrite Hl. unfold look in Hq.
  by destruct (get t q) as [[d|es]|].
Qed.

Lemma os_mkdir_exists p t q :
  locate h p t = Ok q → look t q ≠ Missing →
  os_mkdir h p t = (Raise FileExistsError, t).
Proof.
  intros Hl Hq. unfold os_mkdir. rewrite Hl. unfold look in Hq.
  by destruct (get t q) as [[d|es]|].
Qed.

Lemma os_mkdir_fail p t e :
  locate h p t = Raise e → os_mkdir h p t = (Raise e, t).
Proof. intros Hl. unfold os_mkdir. by rewrite Hl. Qed.

Lemma is_dir_located p t q :
  locate h p t = Ok q → look t q = Directory → is_dir h p t = true.
Proof.
  intros Hl Hq. unfold is_dir, stat. rewrite Hl. by apply is_dir_look.
Qed.

Lemma grows_dirs qd rel ti tj p :
  grows qd rel ti tj → look ti p = Directory → look tj p = Directory.
Proof. intros Hg Hp. destruct (Hg p) as [->|(? & _)]; congruence. Qed.

Variable a : bool.
Variable dparts : list string.
Variable qd : cpath.

(** [mkdir(parents=True, exist_ok=True)] below a directory that exists:
    with no regular file in the way it succeeds, and afterwards every
    prefix of the path is a directory. *)
Lemma mkdir_under rel : ∀ ti,
  walk ti (if a then [] else cwd h) dparts = Ok qd →
  look ti qd = Directory →
  Forall is_name rel →
  (∀ r d, r `prefix_of` rel → look ti (qd ++ r) ≠ Regular d) →
  ∃ tj, mkdir_rev h a (rev (dparts ++ rel)) ti = (Ok (), tj) ∧
        (∀ r, r `prefix_of` rel → look tj (qd ++ r) = Directory) ∧
        grows qd rel ti tj.
Proof.
  induction rel as [|c r0 IH] using rev_ind; intros ti Hw Hqd Hnames Hfiles.
  - exists ti. rewrite mkdir_rev_eq, rev_involutive, app_nil_r.
    assert (Hl : locate h (mkOs a dparts) ti = Ok qd) by done.
    rewrite (os_mkdir_exists _ _ qd) by (done || congruence).
    rewrite (is_dir_located _ _ qd) by done.
    split_and!; [done| |by left].
    intros r Hr%prefix_nil_inv. subst r. by rewrite app_nil_r.
  - assert (Hl : ∀ t, walk t (if a then [] else cwd h) dparts = Ok qd →
        locate h (mkOs a (dparts ++ r0 ++ [c])) t = walk t qd (r0 ++ [c])).
    { intros t Ht. unfold locate. simpl. by rewrite walk_app, Ht. }
    rewrite mkdir_rev_eq, rev_involutive.
    destruct (look ti (qd ++ r0)) as [|d|] eqn:Hr0.
    + (* the parent is missing: make it first *)
      assert (Hfail : locate h (mkOs a (dparts ++ r0 ++ [c])) ti
                      = Raise FileNotFoundError).
      { rewrite Hl by done. apply walk_names_missing; [by destruct r0|done|done|].
        by rewrite removelast_last. }
      rewrite (os_mkdir_fail _ _ _ Hfail).
      rewrite app_assoc, rev_unit.
      destruct (IH ti) as (t1 & Hm1 & Hd1 & Hg1); [done|done| | |].
      { by apply Forall_app in Hnames as [? _]. }
      { intros r d Hr. apply Hfiles. by apply prefix_app_r. }
      rewrite Hm1. rewrite <- app_assoc.
      assert (Hw1 : walk t1 (if a then [] else cwd h) dparts = Ok qd).
      { eapply walk_mono; [|done]. intros p Hp. apply is_dir_look.
        eapply grows_dirs; [done|]. by apply is_dir_look. }
      assert (Hl1 : locate h (mkOs a (dparts ++ r0 ++ [c])) t1
                    = Ok (qd ++ r0 ++ [c])).
      { rewrite Hl by done. apply walk_names_ok; [done|]. by apply Hd1. }
      assert (Hnew : look t1 (qd ++ r0 ++ [c]) = Missing).
      { destruct (Hg1 (qd ++ r0 ++ [c])) as [->|(_ & _ & r & Hr & Heq)].
        - rewrite app_assoc. by apply look_below_missing.
        - apply app_inv_head in Heq. subst r.
          by apply prefix_snoc_not in Hr. }
      exists (put t1 (qd ++ r0 ++ [c]) (Dir [])).
      unfold mkdir_exist_ok. rewrite (os_mkdir_new _ _ _ Hl1 Hnew).
      assert (Hnd : is_dir_node (get t1 (qd ++ r0 ++ [c])) = false).
      { unfold look in Hnew. by destruct (get t1 (qd ++ r0 ++ [c])) as [[?|?]|]. }
      split_and!; [done| |].
      * intros r [->|Hr]%prefix_snoc_cases.
        -- rewrite !app_assoc. unfold look. rewrite get_put_snoc; [done|].
           apply is_dir_look. by apply Hd1.
        -- rewrite look_put_frame; [by apply Hd1|done|apply empty_dir_is_leaf|].
           intros Heq%app_inv_head. subst r. by apply prefix_snoc_not in Hr.
      * intros p. destruct (decide (p = qd ++ r0 ++ [c])) as [->|Hp].
        -- right. split_and!.
           ++ rewrite app_assoc. by apply look_below_missing.
           ++ rewrite !app_assoc. unfold look. rewrite get_put_snoc; [done|].
              apply is_dir_look. by apply Hd1.
           ++ by exists (r0 ++ [c]).
        -- rewrite look_put_frame; [|done|apply empty_dir_is_leaf|done].
           destruct (Hg1 p) as [->|(Hm & Hd & r & Hr & ->)]; [by left|right].
           split_and!; [done|done|]. exists r. split; [|done].
           by apply prefix_app_r.
    + (* a regular file in the way *)
      exfalso. eapply (Hfiles r0 d); [by apply prefix_app_r|done].
    + (* the parent is there *)
      assert (Hloc : locate h (mkOs a (dparts ++ r0 ++ [c])) ti
                     = Ok (qd ++ r0 ++ [c])).
      { rewrite Hl by done. by apply walk_names_ok. }
      assert (Hup : ∀ r, r `prefix_of` r0 → look ti (qd ++ r) = Directory).
      { intros r Hr. by eapply look_prefix_dir. }
      destruct (look ti (qd ++ r0 ++ [c])) as [|d|] eqn:Hnew.
      * exists (put ti (qd ++ r0 ++ [c]) (Dir [])).
        rewrite (os_mkdir_new _ _ _ Hloc Hnew).
        assert (Hnd : is_dir_node (get ti (qd ++ r0 ++ [c])) = false).
        { unfold look in Hnew. by destruct (get ti (qd ++ r0 ++ [c])) as [[?|?]|]. }
        assert (Hthere : look (put ti (qd ++ r0 ++ [c]) (Dir [])) (qd ++ r0 ++ [c])
                         = Directory).
        { rewrite !app_assoc. unfold look. rewrite get_put_snoc; [done|].
          by apply is_dir_look. }
        split_and!; [done| |].
        -- intros r [->|Hr]%prefix_snoc_cases; [done|].
           rewrite look_put_frame; [by apply Hup|done|apply empty_dir_is_leaf|].
           intros Heq%app_inv_head. subst r. by apply prefix_snoc_not in Hr.
        -- intros p. destruct (decide (p = qd ++ r0 ++ [c])) as [->|Hp].
           ++ right. split_and!; [done|done|]. by exists (r0 ++ [c]).
           ++ left. by rewrite look_put_frame;
                [|done|apply empty_dir_is_leaf|done].
      * exfalso. by eapply (Hfiles (r0 ++ [c]) d).
      * exists ti. rewrite (os_mkdir_exists _ _ _ Hloc) by congruence.
        rewrite (is_dir_located _ _ _ Hloc Hnew).
        split_and!; [done| |by left].
        intros r [->|Hr]%prefix_snoc_cases; [done|by apply Hup].
Qed.
End mkdir_facts.

(** ** [Storage.copy] *)

Section copy_facts.
Variable h : Host.
Variable exceptions : list string.
Variables S D : PurePath.
Variable t0 : node.
Variables qs qd : cpath.
Variable n : node.

Hypothesis HS : locate h (os_of_path S) t0 = Ok qs.
Hypothesis Hn : get t0 qs = Some n.
Hypothesis Hdir : look n [] = Directory.
Hypothesis Hwf : wf_node n = true.
Hypothesis HD : locate h (os_of_path D) t0 = Ok qd.
Hypothesis Hqd : look t0 qd = Directory.
Hypothesis Hempty : ∀ r, r ≠ [] → look t0 (qd ++ r) = Missing.
Hypothesis Hdisj : ¬ qs `prefix_of` qd.

Lemma src_outside r : ¬ qd `prefix_of` qs ++ r.
Proof.
  intros Hp.
  destruct (prefix_weak_total qd qs (qs ++ r)) as [[k Hk]|Hq];
    [done|by apply prefix_app_r| |done].
  destruct (decide (k = [])) as [->|Hne].
  - rewrite app_nil_r in Hk. subst qs. by apply Hdisj.
  - specialize (Hempty k Hne). rewrite <- Hk in Hempty. unfold look in Hempty.
    by rewrite Hn in Hempty; destruct n.
Qed.

Lemma src_look0 r : look t0 (qs ++ r) = look n r.
Proof. unfold look. by rewrite get_app, Hn. Qed.

Lemma mirrors_start : mirrors h exceptions n qd t0 t0.
Proof.
  split_and!; [done|done| |].
  - intros r d Hr. destruct (decide (r = [])) as [->|Hne].
    + rewrite app_nil_r in Hr. congruence.
    + rewrite Hempty in Hr; done.
  - intros r Hr. destruct (decide (r = [])) as [->|Hne]; [done|].
    rewrite Hempty in Hr; done.
Qed.

Section step.
Variable ti : node.
Hypothesis Hinv : mirrors h exceptions n qd t0 ti.

Lemma dirs_kept p :
  is_dir_node (get t0 p) = true → is_dir_node (get ti p) = true.
Proof.
  destruct Hinv as (HF & HDq & _ & _). intros Hp. apply is_dir_look.
  destruct (decide (qd `prefix_of` p)) as [[r ->]|Hout].
  - destruct (decide (r = [])) as [->|Hne]; [by rewrite app_nil_r|].
    apply is_dir_look in Hp. rewrite Hempty in Hp; done.
  - rewrite HF by done. by apply is_dir_look.
Qed.

Lemma locate_kept p q : locate h p t0 = Ok q → locate h p ti = Ok q.
Proof. unfold locate. apply walk_mono, dirs_kept. Qed.

Lemma src_look r : look ti (qs ++ r) = look n r.
Proof.
  destruct Hinv as (HF & _). rewrite HF by apply src_outside. apply src_look0.
Qed.

Lemma locate_src rel :
  Forall is_name rel → look n rel ≠ Missing →
  locate h (os_of_path (child S rel)) ti = Ok (qs ++ rel).
Proof.
  intros Hnames Hex. pose proof (locate_kept _ _ HS) as Hq.
  unfold locate, os_of_path, child, is_absolute in *. simpl in *.
  rewrite walk_app, Hq. pose proof (walk_names ti qs rel Hnames) as Hw.
  destruct (walk ti qs rel) as [r|e]; [by subst|].
  rewrite <- src_look in Hex. unfold look in Hex. by rewrite Hw in Hex.
Qed.

Lemma locate_dst_walk : walk ti (if is_absolute D then [] else cwd h) (parts D) = Ok qd.
Proof. by apply (locate_kept (os_of_path D)). Qed.

(** No regular file of the destination lies on the way to an entry of the
    source. *)
Lemma no_file_on_way rel r d :
  look n rel ≠ Missing → r `prefix_of` rel →
  (r = rel → look n rel = Directory) →
  look ti (qd ++ r) ≠ Regular d.
Proof.
  destruct Hinv as (_ & _ & HS1 & _). intros Hex [k ->] Hlast Hr.
  apply HS1 in Hr as [Hr _].
  destruct (decide (k = [])) as [->|Hk].
  - rewrite app_nil_r in *. rewrite Hlast in Hr; done.
  - pose proof (look_above_dir n r k Hk Hex). congruence.
Qed.

(** Growing directories along an entry of the source keeps the picture. *)
Lemma mirrors_grows rel tj :
  grows qd rel ti tj →
  (∀ r, r `prefix_of` rel → look n r = Directory) →
  mirrors h exceptions n qd t0 tj ∧ ∀ p, look ti p ≠ Missing → look tj p = look ti p.
Proof.
  destruct Hinv as (HF & HDq & HS1 & HS2). intros Hg Hdirs. split; [split_and!|].
  - intros p Hout. destruct (Hg p) as [->|(_ & _ & r & _ & ->)]; [by apply HF|].
    destruct Hout. by apply prefix_app_r.
  - by eapply grows_dirs.
  - intros r d Hr. destruct (Hg (qd ++ r)) as [Heq|(_ & Hd & _)]; [|congruence].
    apply HS1. congruence.
  - intros r Hr. destruct (Hg (qd ++ r)) as [Heq|(_ & _ & r' & Hr' & Heq)].
    + apply HS2. congruence.
    + apply app_inv_head in Heq. subst r'. by apply Hdirs.
  - intros p Hp. by destruct (Hg p) as [->|(? & _)].
Qed.
End step.

Lemma is_dir_false_look t q : look t q ≠ Directory → is_dir_node (get t q) = false.
Proof. unfold look. by destruct (get t q) as [[?|?]|]. Qed.

(** One round of the loop. *)
Lemma copy_entry_step ti rel :
  mirrors h exceptions n qd t0 ti →
  rel ≠ [] → Forall is_name rel → look n rel ≠ Missing →
  ∃ tj, copy_entry h S D exceptions rel ti = (Ok (), tj) ∧
        mirrors h exceptions n qd t0 tj ∧
        (excluded h exceptions (join "/" rel) = false →
           look tj (qd ++ rel) = look n rel) ∧
        (∀ p, look ti p ≠ Missing → look tj p = look ti p).
Proof.
  intros Hinv Hne Hnames Hex. unfold copy_entry.
  destruct (excluded h exceptions (join "/" rel)) eqn:Hexcl.
  { exists ti. by split_and!. }
  unfold mbind, M_bind, bind, ask.
  assert (Hisd : is_dir h (os_of_path (child S rel)) ti
                 = is_dir_node (get ti (qs ++ rel))).
  { unfold is_dir, stat. by rewrite (locate_src ti Hinv). }
  rewrite Hisd. clear Hisd.
  pose proof (src_look ti Hinv rel) as Hsrc.
  destruct (look n rel) as [|d|] eqn:Hkind; [done| |].
  - (* a regular file *)
    rewrite is_dir_false_look by congruence.
    destruct (exists_last Hne) as (r0 & c & ->).
    assert (Hup : ∀ r, r `prefix_of` r0 → look n r = Directory).
    { intros r [k ->]. apply (look_above_dir n r (k ++ [c])); [by destruct k|].
      rewrite app_assoc. congruence. }
    destruct (mkdir_under h (is_absolute D) (parts D) qd r0 ti)
      as (tm & Hmk & HM1 & Hg).
    { by apply locate_dst_walk. }
    { by destruct Hinv as (_ & ? & _). }
    { by apply Forall_app in Hnames as [? _]. }
    { intros r d' Hr. apply (no_file_on_way ti Hinv (r0 ++ [c]));
        [congruence|by apply prefix_app_r|].
      intros ->. by apply prefix_snoc_not in Hr. }
    assert (Hparent : mkdir_parents h (parent (child D (r0 ++ [c]))) ti = (Ok (), tm)).
    { unfold mkdir_parents, parent, child, is_absolute. cbn [root parts].
      by rewrite app_assoc, removelast_last. }
    rewrite Hparent.
    destruct (mirrors_grows ti Hinv r0 tm Hg Hup) as [Hinvm Hmono].
    assert (Hld : locate h (os_of_path (child D (r0 ++ [c]))) tm
                  = Ok (qd ++ r0 ++ [c])).
    { unfold locate, os_of_path, child, is_absolute. cbn [anchored comps root parts].
      fold (is_absolute D). rewrite walk_app, (locate_dst_walk tm Hinvm).
      apply walk_names_ok; [done|]. by apply HM1. }
    assert (Hls : locate h (os_of_path (child S (r0 ++ [c]))) tm
                  = Ok (qs ++ r0 ++ [c])).
    { apply locate_src; [done|done|congruence]. }
    assert (Hnotdir : look tm (qd ++ r0 ++ [c]) ≠ Directory).
    { destruct Hinvm as (_ & _ & _ & HS2). intros Hd%HS2. congruence. }
    assert (Hdstf : is_dir h (os_of_path (child D (r0 ++ [c]))) tm = false).
    { unfold is_dir, stat. rewrite Hld. by apply is_dir_false_look. }
    unfold copy2. rewrite !Hdstf.
    unfold samefile. rewrite Hls, Hld.
    rewrite bool_decide_eq_false_2
      by (intros Heq%app_inv_tail; subst qs; by apply Hdisj).
    cbn [andb]. unfold mbind, M_bind, bind.
    rewrite (read_bytes_ok h _ tm (qs ++ r0 ++ [c]) d);
      [|done|by rewrite (src_look tm Hinvm)].
    rewrite (write_bytes_ok h _ d tm (qd ++ r0 ++ [c]));
      [|done|by apply is_dir_false_look].
    exists (put tm (qd ++ r0 ++ [c]) (File d)).
    assert (Hthere : look (put tm (qd ++ r0 ++ [c]) (File d)) (qd ++ r0 ++ [c])
                     = Regular d).
    { rewrite !app_assoc. apply look_put_file. apply is_dir_look.
      by apply HM1. }
    assert (Hframe : ∀ p, p ≠ qd ++ r0 ++ [c] →
              look (put tm (qd ++ r0 ++ [c]) (File d)) p = look tm p).
    { intros p Hp. apply look_put_frame;
        [by apply is_dir_false_look|apply file_is_leaf|done]. }
    destruct Hinvm as (HF & HDq & HS1 & HS2).
    split_and!; [done|split_and!| |].
    + intros p Hout. rewrite Hframe; [by apply HF|].
      intros ->. apply Hout. by apply prefix_app_r.
    + rewrite Hframe; [done|]. intros Heq.
      rewrite <- (app_nil_r qd) in Heq at 1. apply app_inv_head in Heq.
      by destruct r0.
    + intros r d' Hr. destruct (decide (r = r0 ++ [c])) as [->|Hr'].
      * rewrite Hthere in Hr. by simplify_eq.
      * rewrite Hframe in Hr by (by intros ?%app_inv_head). by apply HS1.
    + intros r Hr. destruct (decide (r = r0 ++ [c])) as [->|Hr'].
      * rewrite Hthere in Hr. done.
      * rewrite Hframe in Hr by (by intros ?%app_inv_head). by apply HS2.
    + done.
    + intros p Hp. destruct (decide (p = qd ++ r0 ++ [c])) as [->|Hp'].
      * rewrite Hthere. rewrite <- (Hmono _ Hp).
        destruct (look tm (qd ++ r0 ++ [c])) as [|d'|] eqn:Hlk.
        -- rewrite (Hmono _ Hp) in Hlk. done.
        -- apply HS1 in Hlk as [Hlk _]. congruence.
        -- done.
      * rewrite Hframe by done. by apply Hmono.
  - (* a directory *)
    rewrite (proj2 (is_dir_look ti (qs ++ rel))) by done.
    assert (Hup : ∀ r, r `prefix_of` rel → look n r = Directory).
    { intros r Hr. by apply (look_prefix_dir n [] r rel). }
    destruct (mkdir_under h (is_absolute D) (parts D) qd rel ti)
      as (tj & Hmk & HM1 & Hg).
    { by apply locate_dst_walk. }
    { by destruct Hinv as (_ & ? & _). }
    { done. }
    { intros r d' Hr. apply (no_file_on_way ti Hinv rel); [congruence|done|done]. }
    exists tj. destruct (mirrors_grows ti Hinv rel tj Hg Hup) as [Hinvj Hmono].
    split_and!; [done|done| |done].
    intros _. by apply HM1.
Qed.

(** The whole loop, over entries that exist in the source. *)
Lemma copy_entries_spec L : ∀ ti,
  mirrors h exceptions n qd t0 ti →
  Forall (fun rel => rel ≠ [] ∧ Forall is_name rel ∧ look n rel ≠ Missing) L →
  ∃ tj, copy_entries h S D exceptions L ti = (Ok (), tj) ∧
        mirrors h exceptions n qd t0 tj ∧
        (∀ p, look ti p ≠ Missing → look tj p = look ti p) ∧
        (∀ rel, rel ∈ L → excluded h exceptions (join "/" rel) = false →
                look tj (qd ++ rel) = look n rel).
Proof.
  induction L as [|rel L IH]; intros ti Hinv Hgood.
  - exists ti. split_and!; [done|done|done|]. by intros rel ?%elem_of_nil.
  - inversion_clear Hgood as [|? ? (Hne & Hnames & Hex) HL].
    destruct (copy_entry_step ti rel Hinv Hne Hnames Hex)
      as (t1 & Hstep & Hinv1 & Hdone1 & Hmono1).
    destruct (IH t1 Hinv1 HL) as (tj & Hrest & Hinvj & Hmonoj & Hdonej).
    exists tj. split_and!.
    + simpl. unfold mbind, M_bind, bind. by rewrite Hstep.
    + done.
    + intros p Hp. rewrite Hmonoj; [by apply Hmono1|].
      by rewrite Hmono1.
    + intros r [->|Hr]%elem_of_cons Hexcl; [|by apply Hdonej].
      rewrite Hmonoj; [by apply Hdone1|]. by rewrite Hdone1.
Qed.

Lemma rglob_good :
  Forall (fun rel => rel ≠ [] ∧ Forall is_name rel ∧ look n rel ≠ Missing)
         (rglob_rel n).
Proof.
  apply Forall_forall. intros rel [Hne Hsome]%rglob_spec; [|done].
  split_and!; [done|by eapply wf_get_names|].
  unfold look. destruct Hsome as [m ->]. by destruct m.
Qed.

(** What the loop of [copy] leaves in the destination. *)
Lemma copy_loop_result :
  ∃ t', copy_entries h S D exceptions (rglob_rel n) t0 = (Ok (), t') ∧
    (∀ p, ¬ qd `prefix_of` p → look t' p = look t0 p) ∧
    (∀ r d, look t' (qd ++ r) = Regular d ↔
            look n r = Regular d ∧ excluded h exceptions (join "/" r) = false) ∧
    (∀ r, look n r = Directory → excluded h exceptions (join "/" r) = false →
          look t' (qd ++ r) = Directory) ∧
    (∀ r, look t' (qd ++ r) = Directory → look n r = Directory).
Proof.
  destruct (copy_entries_spec (rglob_rel n) t0 mirrors_start rglob_good)
    as (t' & Hrun & (HF & HDq & HS1 & HS2) & Hmono & Hdone).
  assert (Hin : ∀ r, r ≠ [] → look n r ≠ Missing → r ∈ rglob_rel n).
  { intros r Hne Hr. apply rglob_spec; [done|]. split; [done|].
    unfold look in Hr. by destruct (get n r). }
  exists t'. split_and!; [done|done| | |done].
  - intros r d. split; [by apply HS1|]. intros [Hr Hexcl].
    rewrite Hdone; [done| |done]. apply Hin; [|congruence].
    intros ->. congruence.
  - intros r Hr Hexcl. destruct (decide (r = [])) as [->|Hne].
    + by rewrite app_nil_r.
    + rewrite Hdone; [done| |done]. apply Hin; [done|congruence].
Qed.
End copy_facts.

(** [copy] of a directory into a fresh place outside it: the outcome. *)
Lemma copy_result h cfg src dest exceptions t t0 qs qd n :
  is_dir h (os_of_path (rooted cfg src)) t = true →
  mkdir_parents h (rooted cfg dest) t = (Ok (), t0) →
  locate h (os_of_path (rooted cfg src)) t0 = Ok qs →
  get t0 qs = Some n →
  look n [] = Directory →
  wf_node n = true →
  locate h (os_of_path (rooted cfg dest)) t0 = Ok qd →
  look t0 qd = Directory →
  (∀ r, r ≠ [] → look t0 (qd ++ r) = Missing) →
  ¬ qs `prefix_of` qd →
  ∃ t', copy h cfg src dest (Some exceptions) t = (Ok (), t') ∧
    (∀ p, ¬ qd `prefix_of` p → look t' p = look t0 p) ∧
    (∀ r d, look t' (qd ++ r) = Regular d ↔
            look n r = Regular d ∧ excluded h exceptions (join "/" r) = false) ∧
    (∀ r, look n r = Directory → excluded h exceptions (join "/" r) = false →
          look t' (qd ++ r) = Directory) ∧
    (∀ r, look t' (qd ++ r) = Directory → look n r = Directory).
Proof.
  intros Hisd Hmk HS Hn Hdir Hwf HD Hqd Hempty Hdisj.
  destruct (copy_loop_result h exceptions (rooted cfg src) (rooted cfg dest)
              t0 qs qd n HS Hn Hdir Hwf HD Hqd Hempty Hdisj)
    as (t' & Hrun & Hrest).
  exists t'. split; [|done].
  unfold copy, mbind, M_bind, bind, ask. simpl. rewrite Hisd, Hmk.
  unfold stat. by rewrite HS, Hn.
Qed.

(** No pattern of the list matches the name. *)
Lemma excluded_false h exceptions name :
  excluded h exceptions name = false ↔
  ∀ pat, pat ∈ exceptions → fnmatch h name pat = false.
Proof.
  unfold excluded. induction exceptions as [|p ps IH]; simpl.
  - split; [|done]. intros _ pat Hin. by apply elem_of_nil in Hin.
  - rewrite orb_false_iff, IH. split.
    + intros [Hp Hps] pat [->|Hin]%elem_of_cons; [done|by apply Hps].
    + intros Hall. split; [apply Hall; by left|].
      intros pat Hin. apply Hall. by right.
Qed.

(** C8, as amended.  [copy] of a directory into a destination that is
    empty once [copy] has made it, and that is neither the source nor
    inside it: a file is in the destination, at the same relative path and
    with the same content, exactly when it is a file of the source whose
    relative path matches no exclusion pattern; the directories of the
    source that match no pattern are directories of the destination, and
    every directory of the destination is one of the source; nothing
    outside the destination differs from the state in which the
    destination was made. *)
Theorem copy_omits_excluded_files h cfg src dest exceptions t t0 qs qd n :
  is_dir h (os_of_path (rooted cfg src)) t = true →
  mkdir_parents h (rooted cfg dest) t = (Ok (), t0) →
  locate h (os_of_path (rooted cfg src)) t0 = Ok qs →
  get t0 qs = Some n →
  look n [] = Directory →
  wf_node n = true →
  locate h (os_of_path (rooted cfg dest)) t0 = Ok qd →
  look t0 qd = Directory →
  (∀ r, r ≠ [] → look t0 (qd ++ r) = Missing) →
  ¬ qs `prefix_of` qd →
  ∃ t', copy h cfg src dest (Some exceptions) t = (Ok (), t') ∧
    (∀ r d, look t' (qd ++ r) = Regular d ↔
            look n r = Regular d ∧
            ∀ pat, pat ∈ exceptions → fnmatch h (join "/" r) pat = false) ∧
    (∀ r, look n r = Directory →
          (∀ pat, pat ∈ exceptions → fnmatch h (join "/" r) pat = false) →
          look t' (qd ++ r) = Directory) ∧
    (∀ r, look t' (qd ++ r) = Directory → look n r = Directory) ∧
    (∀ p, ¬ qd `prefix_of` p → look t' p = look t0 p).
Proof.
  intros Hisd Hmk HS Hn Hdir Hwf HD Hqd Hempty Hdisj.
  destruct (copy_result h cfg src dest exceptions t t0 qs qd n)
    as (t' & Hrun & HF & Hfiles & Hdirs & Hsound); try done.
  exists t'. split_and!; [done| | |done|done].
  - intros r d. by rewrite Hfiles, excluded_false.
  - intros r Hr Hno. apply Hdirs; [done|]. by apply excluded_false.
Qed.

Lemma site_out_empty r :
  r ≠ [] → look site_out_fs (["home"; "app"; "storage"; "out"] ++ r) = Missing.
Proof.
  intros Hr. unfold look. rewrite get_app.
  change (get site_out_fs ["home"; "app"; "storage"; "out"]) with (Some (Dir [])).
  by destruct r.
Qed.

Lemma site_out_disjoint :
  ¬ ["home"; "app"; "storage"; "site"] `prefix_of` ["home"; "app"; "storage"; "out"].
Proof. intros [k Hk]. simplify_eq. Qed.

Lemma copy_omits_excluded_files_witness :
  ∃ t', copy demo_host demo_cfg "site" "out" (Some site_exceptions) site_fs
          = (Ok (), t') ∧
    (∀ r d, look t' (["home"; "app"; "storage"; "out"] ++ r) = Regular d ↔
            look site r = Regular d ∧
            ∀ pat, pat ∈ site_exceptions →
                   fnmatch demo_host (join "/" r) pat = false) ∧
    (∀ r, look site r = Directory →
          (∀ pat, pat ∈ site_exceptions →
                  fnmatch demo_host (join "/" r) pat = false) →
          look t' (["home"; "app"; "storage"; "out"] ++ r) = Directory) ∧
    (∀ r, look t' (["home"; "app"; "storage"; "out"] ++ r) = Directory →
          look site r = Directory) ∧
    (∀ p, ¬ ["home"; "app"; "storage"; "out"] `prefix_of` p →
          look t' p = look site_out_fs p).
Proof.
  apply (copy_omits_excluded_files demo_host demo_cfg "site" "out"
           site_exceptions site_fs site_out_fs
           ["home"; "app"; "storage"; "site"]).
  - by vm_compute.
  - by vm_compute.
  - by vm_compute.
  - by vm_compute.
  - by vm_compute.
  - by vm_compute.
  - by vm_compute.
  - by vm_compute.
  - apply site_out_empty.
  - apply site_out_disjoint.
Defined.

(** C8, as stated, fails for a destination that is not empty: [src] holds
    the file [a], which no pattern excludes, and [dst] a directory [a];
    the copy does not land at [dst/a], where the structure of the source
    has it, but inside that directory, at [dst/a/a], a path the source
    does not have. *)
Lemma copy_destination_counterexample :
  let t' := (copy demo_host demo_cfg "src" "dst" (Some []) clash_fs).2 in
  copy demo_host demo_cfg "src" "dst" (Some []) clash_fs = (Ok (), t') ∧
  look clash_fs ["home"; "app"; "storage"; "src"; "a"]
    = Regular (bytes_of_str "data") ∧
  look clash_fs ["home"; "app"; "storage"; "src"; "a"; "a"] = Missing ∧
  look t' ["home"; "app"; "storage"; "dst"; "a"] = Directory ∧
  look t' ["home"; "app"; "storage"; "dst"; "a"; "a"]
    = Regular (bytes_of_str "data").
Proof. by vm_compute. Qed.



(** * Further properties of [Storage] *)

(** ** Reading leaves the files alone *)

Lemma open_read_state h name t : (open_read h name t).2 = t.
Proof.
  unfold open_read. destruct (nonempty name); [|done].
  unfold read_bytes. by repeat case_match.
Qed.

Lemma read_open_state h name enc t : (read_open h name enc t).2 = t.
Proof.
  pose proof (open_read_state h name t) as Ho.
  unfold read_open, mbind, M_bind, bind, try, raise, ret.
  destruct enc; destruct (open_read h name t) as [[raw|e] t1]; simpl in Ho;
    subst; repeat case_match; by simplify_eq.
Qed.

Lemma read_state h cfg name enc t : (read h cfg name enc t).2 = t.
Proof.
  unfold read, mbind, M_bind, bind.
  destruct (read_name h cfg name t) as [[n|e] t1] eqn:Hn;
    apply read_name_state in Hn; subst; [|done].
  apply read_open_state.
Qed.

(** X1.  [read], [read_json] and [exists] never change the file system,
    whether they return or raise. *)
Theorem reading_changes_nothing h cfg name enc default t :
  (read h cfg name enc t).2 = t ∧
  (read_json h cfg name default t).2 = t ∧
  (exists_ h cfg name t).2 = t.
Proof.
  split_and!; [apply read_state| |done].
  pose proof (read_state h cfg name None t) as Hr.
  unfold read_json, mbind, M_bind, bind, try.
  destruct (read h cfg name None t) as [[s|e] t1]; simpl in Hr; subst.
  - destruct (json_loads h s) as [j|[]]; try done. by destruct default.
  - destruct e; try done. by destruct default.
Qed.

(** ** [delete] *)

Lemma look_del_file t q d q' :
  q ≠ [] → look t q = Regular d → q' ≠ q → look (del t q) q' = look t q'.
Proof.
  intros Hq Hd Hne. destruct (decide (q `prefix_of` q')) as [[k ->]|Hp].
  - rewrite look_del_under; [|done|by eexists].
    unfold look in *. rewrite get_app.
    destruct (get t q) as [[d'|es]|]; [|done|done].
    destruct k; [by rewrite app_nil_r in Hne|done].
  - by apply look_del_frame.
Qed.

(** X2.  [delete] of a name that leads to a regular file removes that file
    and nothing else; afterwards [exists] answers false for the name. *)
Theorem delete_removes_file h cfg name t q d :
  locate h (under_root cfg name) t = Ok q →
  look t q = Regular d →
  is_dir_node (get t (cwd h)) = true →
  ∃ t', delete h cfg name t = (Ok (), t') ∧
        look t' q = Missing ∧
        (∀ q', q' ≠ q → look t' q' = look t q') ∧
        exists_ h cfg name t' = (Ok false, t').
Proof.
  intros Hl Hq Hcwd.
  assert (Hq0 : q ≠ []).
  { intros ->. apply root_is_dir, is_dir_look in Hcwd. congruence. }
  exists (del t q). split_and!.
  - unfold delete, os_remove. rewrite Hl. unfold look in Hq.
    by destruct (get t q) as [[?|?]|].
  - by apply look_del_under.
  - intros q' Hne. by eapply look_del_file.
  - unfold exists_, ask, path_exists, stat.
    assert (Hl' : locate h (under_root cfg name) (del t q) = Ok q).
    { unfold locate in *. eapply walk_mono; [|done].
      intros p. by eapply dirs_del_file. }
    rewrite Hl'. pose proof (look_del_under t q q Hq0 (reflexivity q)) as Hm.
    unfold look in Hm. by destruct (get (del t q) q) as [[?|?]|].
Qed.

Lemma delete_removes_file_witness :
  ∃ t', delete demo_host demo_cfg "note_1.txt" noted_fs = (Ok (), t') ∧
        look t' ["home"; "app"; "storage"; "note_1.txt"] = Missing ∧
        (∀ q', q' ≠ ["home"; "app"; "storage"; "note_1.txt"] →
               look t' q' = look noted_fs q') ∧
        exists_ demo_host demo_cfg "note_1.txt" t' = (Ok false, t').
Proof.
  apply (delete_removes_file demo_host demo_cfg "note_1.txt" noted_fs
           ["home"; "app"; "storage"; "note_1.txt"] (bytes_of_str "hello"));
    by vm_compute.
Defined.

(** ** More on [write] *)

Section write_more.
Variable h : Host.
Variable cfg : Config.

(** What [write] writes: the content, or the name when the content is
    omitted. *)
Lemma write_any_result fuel name content rw bk enc t f t' :
  write h cfg fuel name content rw bk enc t = Some (Ok f, t') →
  ∃ f' tm, write_file h cfg f' (default name content)
             (py_or enc (default_encoding cfg)) tm = (Ok f, t').
Proof.
  unfold write.
  destruct content as [c|]; simpl;
    (destruct (name_parts cfg _) as [[base ext]|]; [|done]);
    (destruct (is_file h _ t && _);
     [destruct (probe h cfg fuel base ext 1 t) as [f1|]; [|done];
      destruct rw; simpl;
      [destruct bk;
       [unfold mbind, M_bind, bind;
        destruct (os_rename h _ _ t) as [[[]|e] tm]; [|done]|]|]|]);
    intros [= Hw]; by eexists _, _.
Qed.

Lemma write_file_raise f content enc t q e :
  locate h (under_root cfg f) t = Ok q →
  is_dir_node (get t (cwd h)) = true →
  is_dir_node (get t q) = false →
  encode h (default (locale_encoding h) enc) content = Raise e →
  write_file h cfg f content enc t = (Raise e, put t q (File [])).
Proof.
  intros Hl Hcwd Hq He.
  destruct (under_root_parent_located h cfg f t q Hl Hcwd Hq) as (q0 & Hl0 & Hd0).
  unfold write_file, mbind, M_bind, bind.
  rewrite (mkdir_parents_exists h _ t q0) by done.
  unfold write_text, mbind, M_bind, bind, try.
  rewrite (write_bytes_ok h _ [] t q) by done. by rewrite He.
Qed.
End write_more.

(** X3.  [write] under a name whose target does not exist yet, in a
    directory that does: whatever the two flags are, the file is created
    with the encoded content, its name [<base><ext>] is returned, and no
    other path changes. *)
Theorem write_creates h cfg fuel name content rw bk enc t base ext q d :
  name_parts cfg name = Some (base, ext) →
  locate h (under_root cfg (base +:+ ext)) t = Ok q →
  look t q = Missing →
  is_dir_node (get t (cwd h)) = true →
  encode h (default (locale_encoding h) (py_or enc (default_encoding cfg)))
         content = Ok d →
  ∃ t', write h cfg fuel name (Some content) rw bk enc t
          = Some (Ok (base +:+ ext), t') ∧
        look t' q = Regular d ∧
        ∀ q', q' ≠ q → look t' q' = look t q'.
Proof.
  intros Hparts Hl Hmiss Hcwd He.
  assert (Hq : is_dir_node (get t q) = false) by (apply is_dir_false_look; congruence).
  assert (Hnf : is_file h (under_root cfg (base +:+ ext)) t = false).
  { unfold is_file, stat. rewrite Hl. unfold look in Hmiss.
    by destruct (get t q) as [[?|?]|]. }
  exists (put t q (File d)). split_and!.
  - unfold write. rewrite Hparts, Hnf. simpl.
    by rewrite (write_file_ok h cfg _ content _ t q d).
  - destruct (locate_target h _ t q Hl Hcwd Hq) as (q0 & c & -> & Hd0).
    by apply look_put_file.
  - intros q' Hne. apply look_put_frame; [done|apply file_is_leaf|done].
Qed.

Lemma write_creates_witness :
  ∃ t', write demo_host demo_cfg 0 "memo" (Some "hi") false true None demo_fs
          = Some (Ok ("memo" +:+ ".txt"), t') ∧
        look t' ["home"; "app"; "storage"; "memo.txt"]
          = Regular (bytes_of_str "hi") ∧
        ∀ q', q' ≠ ["home"; "app"; "storage"; "memo.txt"] →
              look t' q' = look demo_fs q'.
Proof.
  apply (write_creates demo_host demo_cfg 0 "memo" "hi" false true None demo_fs
           "memo" ".txt"); by vm_compute.
Defined.

(** X4.  [write] with [rewrite_existing] true and [backup_existing] false
    on an existing file replaces its content in place: no numbered copy
    appears and no other path changes. *)
Theorem write_overwrites_in_place h cfg fuel name content enc t base ext q d0 d :
  name_parts cfg name = Some (base, ext) →
  locate h (under_root cfg (base +:+ ext)) t = Ok q →
  look t q = Regular d0 →
  is_dir_node (get t (cwd h)) = true →
  encode h (default (locale_encoding h) (py_or enc (default_encoding cfg)))
         content = Ok d →
  ∃ t', write h cfg fuel name (Some content) true false enc t
          = Some (Ok (base +:+ ext), t') ∧
        look t' q = Regular d ∧
        ∀ q', q' ≠ q → look t' q' = look t q'.
Proof.
  intros Hparts Hl Hold Hcwd He.
  assert (Hq : is_dir_node (get t q) = false) by (apply is_dir_false_look; congruence).
  exists (put t q (File d)). split_and!.
  - unfold write. rewrite Hparts. simpl. rewrite andb_false_r.
    by rewrite (write_file_ok h cfg _ content _ t q d).
  - destruct (locate_target h _ t q Hl Hcwd Hq) as (q0 & c & -> & Hd0).
    by apply look_put_file.
  - intros q' Hne. apply look_put_frame; [done|apply file_is_leaf|done].
Qed.

Lemma write_overwrites_in_place_witness :
  ∃ t', write demo_host demo_cfg 0 "note" (Some "new") true false None older_fs
          = Some (Ok ("note" +:+ ".txt"), t') ∧
        look t' ["home"; "app"; "storage"; "note.txt"]
          = Regular (bytes_of_str "new") ∧
        ∀ q', q' ≠ ["home"; "app"; "storage"; "note.txt"] →
              look t' q' = look older_fs q'.
Proof.
  apply (write_overwrites_in_place demo_host demo_cfg 0 "note" "new" None
           older_fs "note" ".txt" _ (bytes_of_str "old")); by vm_compute.
Defined.

(** X5.  Whatever the flags, a [write] that returns has put the encoded
    text under the very name it returns: that name leads to a regular file
    with the encoded text, and [exists] answers true for it.  (The text is
    the content, or the name when the content is omitted.) *)
Theorem write_returns_written_name h cfg fuel name content rw bk enc t f t' :
  write h cfg fuel name content rw bk enc t = Some (Ok f, t') →
  is_dir_node (get t' (cwd h)) = true →
  ∃ q d, locate h (under_root cfg f) t' = Ok q ∧
         look t' q = Regular d ∧
         encode h (default (locale_encoding h) (py_or enc (default_encoding cfg)))
                (default name content) = Ok d ∧
         exists_ h cfg f t' = (Ok true, t').
Proof.
  intros Hw Hcwd.
  destruct (write_any_result h cfg _ _ _ _ _ _ _ _ _ Hw) as (f' & tm & Hwf).
  apply write_file_post in Hwf as (-> & q & d & Hl & Hq & He); [|done].
  exists q, d. split_and!; [done|done|done|].
  unfold exists_, ask, path_exists, stat. rewrite Hl. unfold look in Hq.
  by destruct (get t' q).
Qed.

Lemma write_returns_written_name_witness :
  let t' := state_after
    (write demo_host demo_cfg 5 "note" (Some "x") false true None noted_fs)
    noted_fs in
  ∃ q d, locate demo_host (under_root demo_cfg "note_2.txt") t' = Ok q ∧
         look t' q = Regular d ∧
         demo_encode "utf-8" "x" = Ok d ∧
         exists_ demo_host demo_cfg "note_2.txt" t' = (Ok true, t').
Proof.
  intros t'.
  apply (write_returns_written_name demo_host demo_cfg 5 "note" (Some "x")
           false true None noted_fs "note_2.txt" t'); by vm_compute.
Defined.

(** X6.  A name without a final component (the empty name, ["."], ["/"],
    ["./"]) makes [write] raise [ValueError] before anything is touched. *)
Theorem write_rejects_empty_name h cfg fuel name content rw bk enc t :
  parts (parse name) = [] →
  write h cfg fuel name (Some content) rw bk enc t = Some (Raise ValueError, t).
Proof.
  intros Hp. unfold write, name_parts, with_suffix_empty, name_of.
  by rewrite Hp.
Qed.

Lemma write_rejects_empty_name_witness :
  write demo_host demo_cfg 5 "./" (Some "x") true true None demo_fs
    = Some (Raise ValueError, demo_fs).
Proof. by apply write_rejects_empty_name. Defined.

(** X7.  When the text cannot be encoded, [write] in place (no backup)
    raises the codec's error after the target was opened for writing: the
    target is left as an empty file, so what it held before is lost. *)
Theorem write_unencodable_truncates h cfg fuel name content enc t base ext q e :
  name_parts cfg name = Some (base, ext) →
  locate h (under_root cfg (base +:+ ext)) t = Ok q →
  look t q ≠ Directory →
  is_dir_node (get t (cwd h)) = true →
  encode h (default (locale_encoding h) (py_or enc (default_encoding cfg)))
         content = Raise e →
  ∃ t', write h cfg fuel name (Some content) true false enc t
          = Some (Raise e, t') ∧
        look t' q = Regular [] ∧
        ∀ q', q' ≠ q → look t' q' = look t q'.
Proof.
  intros Hparts Hl Hnd Hcwd He.
  assert (Hq : is_dir_node (get t q) = false) by by apply is_dir_false_look.
  exists (put t q (File [])). split_and!.
  - unfold write. rewrite Hparts. simpl. rewrite andb_false_r.
    by rewrite (write_file_raise h cfg _ content _ t q e).
  - destruct (locate_target h _ t q Hl Hcwd Hq) as (q0 & c & -> & Hd0).
    by apply look_put_file.
  - intros q' Hne. apply look_put_frame; [done|apply file_is_leaf|done].
Qed.

Lemma write_unencodable_truncates_witness :
  ∃ t', write demo_host demo_cfg 0 "note" (Some (String "233" "")) true false
          (Some "ascii") older_fs = Some (Raise UnicodeError, t') ∧
        look t' ["home"; "app"; "storage"; "note.txt"] = Regular [] ∧
        ∀ q', q' ≠ ["home"; "app"; "storage"; "note.txt"] →
              look t' q' = look older_fs q'.
Proof.
  apply (write_unencodable_truncates demo_host demo_cfg 0 "note"
           (String "233" "") (Some "ascii") older_fs "note" ".txt");
    by vm_compute.
Defined.

(** ** The numbering loop of [write] *)

Lemma probe_sound h cfg base ext t fuel : ∀ c f,
  probe h cfg fuel base ext c t = Some f →
  ∃ n, c ≤ n < c + fuel ∧ f = numbered base ext n ∧
       is_file h (under_root cfg (numbered base ext n)) t = false ∧
       ∀ k, c ≤ k < n →
            is_file h (under_root cfg (numbered base ext k)) t = true.
Proof.
  induction fuel as [|fuel IH]; intros c f; simpl; [done|].
  destruct (is_file h (under_root cfg (numbered base ext c)) t) eqn:Hc; simpl.
  - intros (n & Hn & -> & Hfree & Hbefore)%IH. exists n.
    split_and!; [lia|lia|done|done|].
    intros k Hk. destruct (decide (k = c)) as [->|]; [done|].
    apply Hbefore. lia.
  - intros [= <-]. exists c. split_and!; [lia|lia|done|done|]. intros k Hk. lia.
Qed.

(** X8.  The name the numbering loop returns is [<base>_<n><ext>] for the
    least [n >= 1] that no regular file bears, and trying longer does not
    change it. *)
Theorem probe_least h cfg base ext t fuel f :
  probe h cfg fuel base ext 1 t = Some f →
  ∃ n, 1 ≤ n ≤ fuel ∧ f = numbered base ext n ∧
       is_file h (under_root cfg (numbered base ext n)) t = false ∧
       (∀ k, 1 ≤ k < n →
             is_file h (under_root cfg (numbered base ext k)) t = true) ∧
       ∀ fuel', fuel ≤ fuel' → probe h cfg fuel' base ext 1 t = Some f.
Proof.
  intros (n & Hn & -> & Hfree & Hbefore)%probe_sound.
  exists n. split_and!; [lia|lia|done|done|done|].
  intros fuel' Hf. apply probe_first; [lia|lia|done|done].
Qed.

Lemma probe_least_witness :
  ∃ n, 1 ≤ n ≤ 7 ∧ "note_2.txt" = numbered "note" ".txt" n ∧
       is_file demo_host (under_root demo_cfg (numbered "note" ".txt" n)) noted_fs
         = false ∧
       (∀ k, 1 ≤ k < n →
             is_file demo_host (under_root demo_cfg (numbered "note" ".txt" k))
               noted_fs = true) ∧
       ∀ fuel', 7 ≤ fuel' →
                probe demo_host demo_cfg fuel' "note" ".txt" 1 noted_fs
                  = Some "note_2.txt".
Proof.
  apply (probe_least demo_host demo_cfg "note" ".txt" noted_fs 7 "note_2.txt").
  by vm_compute.
Defined.

(** ** Extensions *)

Lemma stem_suffix_join nm :
  (stem_suffix nm).1 +:+ (stem_suffix nm).2 = nm.
Proof.
  unfold stem_suffix.
  destruct ((2 <=? length (split_on "." nm)) && _ && _) eqn:Hc; simpl;
    [|apply str_app_nil_r].
  apply andb_prop in Hc as [Hc _]. apply andb_prop in Hc as [Hlen _].
  apply Nat.leb_le in Hlen.
  pose proof (split_on_nonnil "." nm) as Hnn.
  rewrite <- (join_split "." nm) at 3.
  rewrite (app_removelast_last "" Hnn) at 3.
  rewrite join_snoc; [done|].
  destruct (split_on "." nm) as [|x [|y l]]; simpl in *; [lia|lia|done].
Qed.

Lemma to_str_snoc_app r l a s :
  nonempty a = true →
  to_str (mkPath r (l ++ [a])) +:+ s = to_str (mkPath r (l ++ [a +:+ s])).
Proof.
  intros Ha. unfold to_str. cbn [root parts].
  assert (Hj : join "/" (l ++ [a]) +:+ s = join "/" (l ++ [a +:+ s])).
  { destruct (decide (l = [])) as [->|Hl]; [done|].
    rewrite !join_snoc by done. by rewrite !str_app_assoc. }
  destruct r as [|c r].
  - destruct (l ++ [a]) eqn:H1; [by destruct l|].
    destruct (l ++ [a +:+ s]) eqn:H2; [by destruct l|].
    by rewrite !str_nil_app.
  - by rewrite str_app_assoc, Hj.
Qed.

(** X9.  An extension written in the name wins: the name [write] uses is
    the name as [pathlib] prints it, and the configured default extension
    plays no part. *)
Theorem explicit_extension_wins cfg name :
  nonempty (suffix (parse name)) = true →
  ∃ base, name_parts cfg name = Some (base, suffix (parse name)) ∧
          base +:+ suffix (parse name) = to_str (parse name).
Proof.
  unfold name_parts. generalize (parse name). intros p Hs.
  unfold with_suffix_empty. rewrite Hs. unfold suffix, name_of in *.
  destruct p as [r ps]. cbn [root parts] in *.
  destruct (decide (ps = [])) as [->|Hne]; [done|].
  pose proof (app_removelast_last "" Hne) as Hl.
  set (nm := List.last ps "") in *.
  assert (Hnm : nonempty nm = true) by by destruct nm.
  rewrite Hnm. eexists. split; [done|].
  assert (Hstem : nonempty (stem_suffix nm).1 = true).
  { unfold stem_suffix in *.
    destruct ((2 <=? length (split_on "." nm)) && _ && _) eqn:Hc;
      cbn [fst snd] in *; [|done].
    apply andb_prop in Hc as [Hc _]. by apply andb_prop in Hc as [_ ?]. }
  rewrite to_str_snoc_app by done. rewrite stem_suffix_join. by rewrite <- Hl.
Qed.

Lemma explicit_extension_wins_witness :
  ∃ base, name_parts demo_cfg "a//b/notes.tar.gz"
            = Some (base, suffix (parse "a//b/notes.tar.gz")) ∧
          base +:+ suffix (parse "a//b/notes.tar.gz")
            = to_str (parse "a//b/notes.tar.gz").
Proof. by apply explicit_extension_wins. Defined.

Lemma probe_same_root h cfg1 cfg2 fuel base ext c t :
  STORAGE_PATH cfg1 = STORAGE_PATH cfg2 →
  probe h cfg1 fuel base ext c t = probe h cfg2 fuel base ext c t.
Proof.
  intros Hp. revert c. induction fuel as [|fuel IH]; intros c; simpl; [done|].
  unfold under_root, self_path. rewrite Hp. by rewrite IH.
Qed.

(** X10.  The leading dot of the configured default extension is optional:
    with ["txt"] and with [".txt"] the default extension is the same, and
    so is everything [write] and [read] do. *)
Theorem default_ext_dot_optional h root ext enc :
  nonempty ext = true →
  startswith "." ext = false →
  let cfg1 := mkConfig root (Some ext) enc in
  let cfg2 := mkConfig root (Some ("." +:+ ext)) enc in
  default_ext cfg1 = Some ("." +:+ ext) ∧
  default_ext cfg2 = Some ("." +:+ ext) ∧
  (∀ fuel name content rw bk encoding t,
     write h cfg1 fuel name content rw bk encoding t
     = write h cfg2 fuel name content rw bk encoding t) ∧
  (∀ name encoding t, read h cfg1 name encoding t = read h cfg2 name encoding t).
Proof.
  intros Hne Hdot cfg1 cfg2.
  assert (H1 : default_ext cfg1 = Some ("." +:+ ext)).
  { unfold default_ext, cfg1. cbn [STORAGE_DEFAULT_FILE_EXT].
    by rewrite Hne, Hdot. }
  assert (H2 : default_ext cfg2 = Some ("." +:+ ext)).
  { unfold default_ext, cfg2. cbn [STORAGE_DEFAULT_FILE_EXT].
    assert (Hs : startswith "." ("." +:+ ext) = true).
    { reflexivity. }
    rewrite Hs. by rewrite andb_false_r. }
  split_and!; [done|done| |].
  - intros fuel name content rw bk encoding t.
    unfold write, name_parts, write_file, under_root, self_path, default_encoding.
    rewrite H1, H2. cbn [STORAGE_PATH DEFAULT_ENCODING cfg1 cfg2].
    destruct content as [c|]; simpl;
      (destruct (with_suffix_empty _) as [bp|]; [|done]);
      by rewrite (probe_same_root h cfg1 cfg2).
  - intros name encoding t.
    unfold read, read_name, exists_, under_root, self_path, default_encoding.
    by rewrite H1, H2.
Qed.

Lemma default_ext_dot_optional_witness :
  default_ext (mkConfig "storage" (Some "md") None) = Some ".md" ∧
  default_ext (mkConfig "storage" (Some ".md") None) = Some ".md".
Proof.
  destruct (default_ext_dot_optional demo_host "storage" "md" None)
    as (H1 & H2 & _); [done|done|]. by split.
Defined.

(** ** More on [clean] *)

Lemma rmtree_names h q t r t' :
  Forall is_name q →
  rmtree h (mkOs true q) t = (r, t') →
  t' = t ∨ (look t q = Directory ∧ t' = del t q).
Proof.
  intros Hq. unfold rmtree, locate. cbn [anchored comps].
  pose proof (walk_names t [] q Hq) as Hw.
  destruct (walk t [] q) as [q0|e]; [|intros [= <- <-]; by left].
  simpl in Hw. subst q0. unfold look.
  destruct (get t q) as [[d|es]|]; intros [= <- <-]; auto.
Qed.

(** X11.  [clean] is confined to the storage area: whatever the path and
    whatever the outcome, nothing that is not strictly under the resolved
    root changes, the root directory itself included. *)
Theorem clean_confined h cfg path t r t' :
  Forall is_name (cwd h) →
  clean h cfg path t = (r, t') →
  ∀ q, ¬ strictly_under (resolve (cwd h) (self_path cfg)) q →
       look t' q = look t q.
Proof.
  intros Hcwd Hc q Hout. unfold clean in Hc.
  set (root_ := resolve (cwd h) (self_path cfg)) in *.
  set (full := resolve (cwd h) (joinpath (self_path cfg) (parse path))) in *.
  destruct (bool_decide (root_ `prefix_of` full ∧ root_ ≠ full)) eqn:Hb;
    simpl in Hc; [|by inversion Hc].
  apply bool_decide_eq_true in Hb. apply strictly_under_prefix in Hb.
  unfold mbind, M_bind, bind, ask in Hc.
  destruct (path_exists h _ t && is_dir h _ t); [|by inversion Hc].
  apply rmtree_names in Hc as [->|[_ ->]]; [done| |by apply resolve_names].
  apply look_del_frame. intros [k ->]. apply Hout.
  destruct Hb as (k0 & Hk0 & ->). exists (k0 ++ k).
  split; [by destruct k0|by rewrite app_assoc].
Qed.

Lemma clean_confined_witness :
  (clean demo_host demo_cfg "site" site_fs).1 = Ok () ∧
  look site_fs ["home"; "app"; "storage"; "site"] = Directory ∧
  look (clean demo_host demo_cfg "site" site_fs).2 ["home"; "app"; "storage"; "site"]
    = Missing ∧
  look (clean demo_host demo_cfg "site" site_fs).2 ["home"; "app"; "storage"]
    = look site_fs ["home"; "app"; "storage"].
Proof.
  split_and!; [by vm_compute|by vm_compute|by vm_compute|].
  apply (clean_confined demo_host demo_cfg "site" site_fs
           (clean demo_host demo_cfg "site" site_fs).1
           (clean demo_host demo_cfg "site" site_fs).2 demo_cwd_names).
  - by destruct (clean demo_host demo_cfg "site" site_fs).
  - intros (k & Hk & Heq).
    rewrite <- (app_nil_r ["home"; "app"; "storage"]) in Heq at 1.
    by apply app_inv_head in Heq.
Defined.

(** X12.  [clean] is idempotent: after a [clean] that returned, the same
    [clean] returns again and changes nothing. *)
Theorem clean_idempotent h cfg path t t' :
  Forall is_name (cwd h) →
  clean h cfg path t = (Ok (), t') →
  clean h cfg path t' = (Ok (), t').
Proof.
  intros Hcwd Hc. unfold clean in *.
  set (root_ := resolve (cwd h) (self_path cfg)) in *.
  set (full := resolve (cwd h) (joinpath (self_path cfg) (parse path))) in *.
  assert (Hfull : Forall is_name full) by by apply resolve_names.
  destruct (bool_decide (root_ `prefix_of` full ∧ root_ ≠ full)) eqn:Hb;
    simpl in *; [|by inversion Hc].
  apply bool_decide_eq_true in Hb. apply strictly_under_prefix in Hb.
  unfold mbind, M_bind, bind, ask in *.
  destruct (path_exists h _ t && is_dir h _ t) eqn:Hed;
    [|inversion Hc; subst; by rewrite Hed].
  pose proof Hc as Hc'.
  apply rmtree_names in Hc as [->|[_ ->]]; [by rewrite Hed| |done].
  clear Hc'.
  assert (Hgone : look (del t full) full = Missing).
  { apply look_del_under; [|done]. destruct Hb as (k & Hk & ->).
    by destruct root_, k. }
  unfold path_exists. rewrite stat_names by done. unfold look in Hgone.
  by destruct (get (del t full) full) as [[?|?]|].
Qed.

Lemma clean_idempotent_witness :
  clean demo_host demo_cfg "site" (clean demo_host demo_cfg "site" site_fs).2
  = (Ok (), (clean demo_host demo_cfg "site" site_fs).2).
Proof.
  apply (clean_idempotent demo_host demo_cfg "site" site_fs _ demo_cwd_names).
  by vm_compute.
Defined.

(** ** More on [copy] *)

(** X13.  [copy] does nothing, and raises nothing, when the source does
    not exist, and when the source is a regular file whose base name
    matches an exclusion pattern. *)
Theorem copy_does_nothing h cfg src dest exceptions t :
  stat h (os_of_path (rooted cfg src)) t = None ∨
  (is_file h (os_of_path (rooted cfg src)) t = true ∧
   excluded h (default [] exceptions) (name_of (rooted cfg src)) = true) →
  copy h cfg src dest exceptions t = (Ok (), t).
Proof.
  unfold copy, mbind, M_bind, bind, ask, is_dir, is_file. simpl.
  intros [Hs|[Hf Hx]].
  - rewrite Hs. cbn [is_dir_node]. by rewrite Hs.
  - destruct (stat h (os_of_path (rooted cfg src)) t) as [[d|es]|] eqn:Hs;
      [|done|done].
    cbn [is_dir_node]. rewrite Hs. cbn [is_file_node]. by rewrite Hx.
Qed.

Lemma copy_does_nothing_witness :
  copy demo_host demo_cfg "nowhere" "out" None site_fs = (Ok (), site_fs)
  ∧ copy demo_host demo_cfg "site/tmp/cache.tmp" "out" (Some site_exceptions)
         site_fs = (Ok (), site_fs).
Proof.
  split; apply copy_does_nothing.
  - left. by vm_compute.
  - right. by vm_compute.
Defined.

Section copy_file_facts.
Variable h : Host.

Lemma path_parent_located (P : PurePath) t q :
  locate h (os_of_path P) t = Ok q →
  is_dir_node (get t (cwd h)) = true →
  is_dir_node (get t q) = false →
  ∃ q0, locate h (os_of_path (parent P)) t = Ok q0
        ∧ is_dir_node (get t q0) = true.
Proof.
  unfold locate, os_of_path, parent, is_absolute. simpl.
  intros Hl Hcwd Hq.
  destruct (decide (parts P = [])) as [He|Hne].
  - rewrite He in Hl. simpl in Hl. simplify_eq.
    pose proof (start_is_dir h t (mkOs (nonempty (root P)) []) Hcwd) as Hs.
    simpl in Hs. congruence.
  - rewrite (app_removelast_last "" Hne) in Hl.
    apply walk_snoc_inv in Hl as (q0 & Hw & Hd & _). by exists q0.
Qed.

(** [copy2] of a regular file to a path that is not a directory *)
Lemma copy2_file src dst t qs qd d :
  locate h src t = Ok qs → look t qs = Regular d →
  locate h dst t = Ok qd → look t qd ≠ Directory →
  qd ≠ qs →
  copy2 h src dst t = (Ok (), put t qd (File d)).
Proof.
  intros Hs Hd Hl Hnd Hne.
  assert (Hdf : is_dir h dst t = false).
  { unfold is_dir, stat. rewrite Hl. by apply is_dir_false_look. }
  unfold copy2. rewrite !Hdf. unfold samefile. rewrite Hs, Hl.
  rewrite bool_decide_eq_false_2 by done. cbn [andb].
  unfold mbind, M_bind, bind.
  rewrite (read_bytes_ok h _ t qs d) by done.
  by rewrite (write_bytes_ok h _ d t qd) by (done || by apply is_dir_false_look).
Qed.
End copy_file_facts.

(** X14.  [copy] of a regular file whose base name matches no pattern, to
    a destination path whose directory exists and that is not a directory
    itself (a name not in use there, or a file other than the source): the
    destination holds the content of the source, and nothing else
    changes. *)
Theorem copy_file_to_path h cfg src dest exceptions t qs qd d :
  locate h (os_of_path (rooted cfg src)) t = Ok qs →
  look t qs = Regular d →
  excluded h (default [] exceptions) (name_of (rooted cfg src)) = false →
  locate h (os_of_path (rooted cfg dest)) t = Ok qd →
  look t qd ≠ Directory →
  qd ≠ qs →
  is_dir_node (get t (cwd h)) = true →
  ∃ t', copy h cfg src dest exceptions t = (Ok (), t') ∧
        look t' qd = Regular d ∧
        ∀ q', q' ≠ qd → look t' q' = look t q'.
Proof.
  intros Hs Hd Hx Hl Hnd Hne Hcwd.
  assert (Hq : is_dir_node (get t qd) = false) by by apply is_dir_false_look.
  destruct (path_parent_located h _ t qd Hl Hcwd Hq) as (q0 & Hl0 & Hd0).
  exists (put t qd (File d)). split_and!.
  - unfold copy, mbind, M_bind, bind, ask. cbv zeta.
    assert (Hsd : is_dir h (os_of_path (rooted cfg src)) t = false).
    { unfold is_dir, stat. rewrite Hs. apply is_dir_false_look. congruence. }
    assert (Hsf : is_file h (os_of_path (rooted cfg src)) t = true).
    { by apply (is_file_ok h _ t qs d). }
    assert (Hdd : is_dir h (os_of_path (rooted cfg dest)) t = false).
    { unfold is_dir, stat. by rewrite Hl. }
    rewrite Hsd, Hsf, Hx. cbn [negb]. rewrite Hdd.
    rewrite (mkdir_parents_exists h _ t q0) by done.
    by apply (copy2_file h _ _ t qs qd d).
  - destruct (locate_target h _ t qd Hl Hcwd Hq) as (q1 & c & -> & Hd1).
    by apply look_put_file.
  - intros q' Hq'. apply look_put_frame; [done|apply file_is_leaf|done].
Qed.

Lemma copy_file_to_path_witness :
  ∃ t', copy demo_host demo_cfg "site/index.html" "site/home.html"
             (Some site_exceptions) site_fs = (Ok (), t') ∧
        look t' ["home"; "app"; "storage"; "site"; "home.html"]
          = Regular (bytes_of_str "<html>") ∧
        ∀ q', q' ≠ ["home"; "app"; "storage"; "site"; "home.html"] →
              look t' q' = look site_fs q'.
Proof.
  apply (copy_file_to_path demo_host demo_cfg "site/index.html" "site/home.html"
           (Some site_exceptions) site_fs
           ["home"; "app"; "storage"; "site"; "index.html"]); by vm_compute.
Defined.

(** X15.  [copy] of a directory with no exclusion patterns into a fresh
    destination outside it makes the destination a mirror of the source:
    every relative path leads to the same thing, with the same content, in
    both; nothing outside the destination changes. *)
Theorem copy_mirrors h cfg src dest t t0 qs qd n :
  is_dir h (os_of_path (rooted cfg src)) t = true →
  mkdir_parents h (rooted cfg dest) t = (Ok (), t0) →
  locate h (os_of_path (rooted cfg src)) t0 = Ok qs →
  get t0 qs = Some n →
  look n [] = Directory →
  wf_node n = true →
  locate h (os_of_path (rooted cfg dest)) t0 = Ok qd →
  look t0 qd = Directory →
  (∀ r, r ≠ [] → look t0 (qd ++ r) = Missing) →
  ¬ qs `prefix_of` qd →
  ∃ t', copy h cfg src dest None t = (Ok (), t') ∧
        (∀ r, look t' (qd ++ r) = look n r) ∧
        (∀ p, ¬ qd `prefix_of` p → look t' p = look t0 p).
Proof.
  intros Hisd Hmk HS Hn Hdir Hwf HD Hqd Hempty Hdisj.
  destruct (copy_result h cfg src dest [] t t0 qs qd n)
    as (t' & Hrun & HF & Hfiles & Hdirs & Hsound); try done.
  exists t'. split_and!; [exact Hrun| |done].
  intros r. destruct (look n r) as [|d|] eqn:Hr.
  - destruct (look t' (qd ++ r)) as [|d|] eqn:Hr'; [done| |].
    + apply Hfiles in Hr' as [? _]. congruence.
    + apply Hsound in Hr'. congruence.
  - by apply Hfiles.
  - by apply Hdirs.
Qed.

Lemma copy_mirrors_witness :
  ∃ t', copy demo_host demo_cfg "site" "out" None site_fs = (Ok (), t') ∧
        (∀ r, look t' (["home"; "app"; "storage"; "out"] ++ r) = look site r) ∧
        (∀ p, ¬ ["home"; "app"; "storage"; "out"] `prefix_of` p →
              look t' p = look site_out_fs p).
Proof.
  apply (copy_mirrors demo_host demo_cfg "site" "out" site_fs site_out_fs
           ["home"; "app"; "storage"; "site"]);
    try (by vm_compute); [apply site_out_empty|apply site_out_disjoint].
Defined.

Section copy_into_dir_facts.
Variable h : Host.
Variable cfg : Config.

Lemma rooted_parts_wf s :
  Forall (fun x => Is_true (is_part x) ∧ contains "/" x = false)
         (parts (rooted cfg s)).
Proof.
  unfold rooted. destruct (is_absolute (parse s)) eqn:Ha.
  - apply parse_parts_wf.
  - unfold joinpath. rewrite Ha. simpl. apply Forall_app. split.
    + apply parse_parts_wf.
    + apply parse_parts_wf.
Qed.

Lemma parse_single nm :
  Is_true (is_part nm) → contains "/" nm = false → parse nm = mkPath "" [nm].
Proof.
  intros Hp Hc.
  assert (Hr : isabs nm = false).
  { unfold isabs. destruct nm as [|x nm]; [done|]. simpl in *.
    destruct (decide (x = "/"%char)) as [->|Hx]; [done|].
    by destruct (decide ("/"%char = x)) as [<-|]. }
  rewrite parse_relative, split_nosep by done.
  by rewrite filter_cons, decide_True by done.
Qed.

(** The base name of a path that leads to a regular file is a proper
    name, and the file is the entry of that name in a directory. *)
Lemma file_base_name (P : PurePath) t qs d :
  locate h (os_of_path P) t = Ok qs →
  look t qs = Regular d →
  is_dir_node (get t (cwd h)) = true →
  parts P ≠ [] ∧ is_name (name_of P).
Proof.
  unfold locate, os_of_path, name_of. simpl. intros Hl Hd Hcwd.
  assert (Hq : is_dir_node (get t qs) = false)
    by (apply is_dir_false_look; congruence).
  destruct (decide (parts P = [])) as [He|Hne].
  { rewrite He in Hl. simpl in Hl. simplify_eq.
    pose proof (start_is_dir h t (mkOs (is_absolute P) []) Hcwd) as Hs.
    simpl in Hs. congruence. }
  split; [done|].
  rewrite (app_removelast_last "" Hne) in Hl.
  apply walk_snoc_inv in Hl as (q0 & _ & Hd0 & ->).
  unfold step in Hq. unfold is_name.
  destruct (decide (List.last (parts P) "" = "" ∨ List.last (parts P) "" = "."))
    as [|Hn]; [congruence|].
  destruct (decide (List.last (parts P) "" = "..")) as [|Hn'].
  - apply is_dir_removelast in Hd0. congruence.
  - naive_solver.
Qed.
End copy_into_dir_facts.

(** X16.  [copy] of a regular file to a destination that is an existing
    directory, in which no directory bears the base name of the source and
    the entry of that name, if there is one, is not the source itself,
    puts the copy inside that directory, under that base name; the
    directory itself and everything else are as before. *)
Theorem copy_file_into_directory h cfg src dest exceptions t qs qd d :
  locate h (os_of_path (rooted cfg src)) t = Ok qs →
  look t qs = Regular d →
  excluded h (default [] exceptions) (name_of (rooted cfg src)) = false →
  locate h (os_of_path (rooted cfg dest)) t = Ok qd →
  look t qd = Directory →
  look t (qd ++ [name_of (rooted cfg src)]) ≠ Directory →
  qd ++ [name_of (rooted cfg src)] ≠ qs →
  is_dir_node (get t (cwd h)) = true →
  ∃ t', copy h cfg src dest exceptions t = (Ok (), t') ∧
        look t' (qd ++ [name_of (rooted cfg src)]) = Regular d ∧
        ∀ q', q' ≠ qd ++ [name_of (rooted cfg src)] → look t' q' = look t q'.
Proof.
  intros Hs Hd Hx Hl Hqd Hnd Hne Hcwd.
  set (nm := name_of (rooted cfg src)) in *.
  destruct (file_base_name h _ t qs d Hs Hd Hcwd) as [Hparts Hnm].
  fold nm in Hnm.
  assert (Hwf : Is_true (is_part nm) ∧ contains "/" nm = false).
  { pose proof (rooted_parts_wf cfg src) as Hall.
    rewrite Forall_forall in Hall. apply Hall.
    unfold nm, name_of.
    rewrite (app_removelast_last "" Hparts) at 2.
    apply elem_of_app. right. by apply list_elem_of_singleton. }
  destruct Hwf as [Hpart Hslash].
  assert (Hdir : is_dir_node (get t qd) = true) by by apply is_dir_look.
  set (T := joinpath (rooted cfg dest) (parse nm)).
  assert (HT : T = mkPath (root (rooted cfg dest)) (parts (rooted cfg dest) ++ [nm])).
  { unfold T. by rewrite (parse_single nm). }
  assert (HTl : locate h (os_of_path T) t = Ok (qd ++ [nm])).
  { rewrite HT. unfold locate, os_of_path, is_absolute in *. simpl in *.
    rewrite walk_app, Hl. simpl.
    destruct (get t qd) as [[?|?]|]; [done| |done].
    by rewrite step_name. }
  assert (HTp : locate h (os_of_path (parent T)) t = Ok qd).
  { rewrite HT. unfold parent. simpl. rewrite removelast_last.
    exact Hl. }
  exists (put t (qd ++ [nm]) (File d)). split_and!.
  - unfold copy, mbind, M_bind, bind, ask. cbv zeta. fold nm.
    assert (Hsd : is_dir h (os_of_path (rooted cfg src)) t = false).
    { unfold is_dir, stat. rewrite Hs. apply is_dir_false_look. congruence. }
    assert (Hsf : is_file h (os_of_path (rooted cfg src)) t = true).
    { by apply (is_file_ok h _ t qs d). }
    assert (Hdd : is_dir h (os_of_path (rooted cfg dest)) t = true).
    { unfold is_dir, stat. by rewrite Hl. }
    rewrite Hsd, Hsf, Hx. cbn [negb]. rewrite Hdd. fold T.
    rewrite (mkdir_parents_exists h _ t qd) by done.
    by apply (copy2_file h _ _ t qs (qd ++ [nm]) d).
  - by apply look_put_file.
  - intros q' Hq'. apply look_put_frame; [|apply file_is_leaf|done].
    by apply is_dir_false_look.
Qed.

Lemma copy_file_into_directory_witness :
  ∃ t', copy demo_host demo_cfg "site/index.html" "site/css" None site_fs
          = (Ok (), t') ∧
        look t' ["home"; "app"; "storage"; "site"; "css"; "index.html"]
          = Regular (bytes_of_str "<html>") ∧
        ∀ q', q' ≠ ["home"; "app"; "storage"; "site"; "css"; "index.html"] →
              look t' q' = look site_fs q'.
Proof.
  apply (copy_file_into_directory demo_host demo_cfg "site/index.html"
           "site/css" None site_fs
           ["home"; "app"; "storage"; "site"; "index.html"]
           ["home"; "app"; "storage"; "site"; "css"]); by vm_compute.
Defined.

(** ** How the operations compose *)

(** What [read] finds after a successful [write] under a dotless relative
    name, with a configured default encoding. *)
Lemma read_back h cfg fuel name content bk e f t0 t1 :
  isabs name = false →
  contains "." name = false →
  nonempty (final_component name) = true →
  contains "/" (fmt (default_ext cfg)) = false →
  DEFAULT_ENCODING cfg = Some e →
  nonempty e = true →
  contains "013" content = false →
  (∀ d, encode h e content = Ok d → decode h e d = Ok content) →
  write h cfg fuel name (Some content) true bk None t0 = Some (Ok f, t1) →
  is_dir_node (get t1 (cwd h)) = true →
  read h cfg name None t1 = (Ok content, t1).
Proof.
  intros Hrel Hdot Hfin Hext Henc Hne Hcr Hcodec Hw Hcwd.
  pose proof (name_parts_dotless cfg name Hrel Hdot Hfin) as Hparts.
  destruct (write_result h cfg _ _ _ _ _ _ _ _ _ _ Hparts Hw) as [t' Hwf].
  apply write_file_post in Hwf as (-> & q & d & Hl & Hq & He); [|done].
  unfold under_root in Hl. rewrite (parse_name_ext name Hrel Hdot Hfin) in Hl.
  fold (under_root cfg (name +:+ fmt (default_ext cfg))) in Hl.
  unfold py_or, default_encoding in He. simpl in He. rewrite Henc in He.
  simpl in He.
  assert (Hex : path_exists h (under_root cfg (name +:+ fmt (default_ext cfg))) t1
                = true).
  { unfold path_exists, stat. rewrite Hl. unfold look in Hq.
    by destruct (get t1 q). }
  assert (Hn : read_name h cfg name t1 =
    (Ok (to_str (self_path cfg) +:+ "/" +:+ name +:+ fmt (default_ext cfg)), t1)).
  { unfold read_name. rewrite Hrel, Hdot, (dotless_no_dot_slash name Hdot). simpl.
    unfold mbind, M_bind, bind, exists_, ask, ret. by rewrite Hex. }
  unfold read, mbind, M_bind, bind. rewrite Hn.
  unfold py_or, default_encoding. simpl. rewrite Henc. unfold read_open.
  unfold mbind, M_bind, bind, open_read.
  change ("/" +:+ name +:+ fmt (default_ext cfg))
    with (String "/" (name +:+ fmt (default_ext cfg))).
  rewrite nonempty_app_cons.
  change (String "/" (name +:+ fmt (default_ext cfg)))
    with ("/" +:+ name +:+ fmt (default_ext cfg)).
  rewrite (read_bytes_ok h _ t1 q d);
    [|by rewrite (locate_read_name h cfg name Hrel Hdot Hfin)|done].
  unfold try, ret. rewrite (Hcodec d He). by rewrite universal_newlines_id.
Qed.

(** X17.  [write_json] then [read_json] under a dotless relative name
    whose final component is not empty (the name does not end in a slash)
    gives the data back, with or without a default, when [json.loads]
    inverts [json.dumps] on the data and the default encoding, which is
    configured, encodes and decodes the dumped text back.  (The dumped
    text holds no carriage return, the default extension no slash.) *)
Theorem json_roundtrip h cfg fuel name data bk e f t0 t1 default :
  isabs name = false →
  contains "." name = false →
  nonempty (final_component name) = true →
  contains "/" (fmt (default_ext cfg)) = false →
  DEFAULT_ENCODING cfg = Some e →
  nonempty e = true →
  contains "013" (json_dumps h data) = false →
  (∀ d, encode h e (json_dumps h data) = Ok d →
        decode h e d = Ok (json_dumps h data)) →
  json_loads h (json_dumps h data) = Ok data →
  write_json h cfg fuel name data true bk t0 = Some (Ok f, t1) →
  is_dir_node (get t1 (cwd h)) = true →
  read_json h cfg name default t1 = (Ok data, t1).
Proof.
  intros Hrel Hdot Hfin Hext Henc Hne Hcr Hcodec Hjson Hw Hcwd.
  unfold write_json in Hw.
  pose proof (read_back h cfg fuel name _ bk e f t0 t1
                Hrel Hdot Hfin Hext Henc Hne Hcr Hcodec Hw Hcwd) as Hr.
  unfold read_json, mbind, M_bind, bind, try. by rewrite Hr, Hjson.
Qed.

Lemma json_roundtrip_witness :
  let t1 := state_after
    (write_json demo_host demo_cfg 5 "flags/on" (JBool true) true true demo_fs)
    demo_fs in
  read_json demo_host demo_cfg "flags/on" (JNum 0) t1 = (Ok (JBool true), t1).
Proof.
  intros t1.
  refine (json_roundtrip demo_host demo_cfg 5 "flags/on" (JBool true) true
            "utf-8" "flags/on.txt" demo_fs t1 (JNum 0)
            _ _ _ _ _ _ _ _ _ _ _); try (by vm_compute).
  intros d [= <-]. by vm_compute.
Defined.

(** X18.  Writing a file that did not exist and deleting it under the
    name [write] returned leaves every path as it was before the write. *)
Theorem write_then_delete_undoes h cfg fuel name content rw bk enc t base ext q d :
  name_parts cfg name = Some (base, ext) →
  locate h (under_root cfg (base +:+ ext)) t = Ok q →
  look t q = Missing →
  is_dir_node (get t (cwd h)) = true →
  encode h (default (locale_encoding h) (py_or enc (default_encoding cfg)))
         content = Ok d →
  ∃ f t' t'',
    write h cfg fuel name (Some content) rw bk enc t = Some (Ok f, t') ∧
    delete h cfg f t' = (Ok (), t'') ∧
    ∀ p, look t'' p = look t p.
Proof.
  intros Hparts Hl Hmiss Hcwd He.
  assert (Hq : is_dir_node (get t q) = false) by (apply is_dir_false_look; congruence).
  assert (Hnf : is_file h (under_root cfg (base +:+ ext)) t = false).
  { unfold is_file, stat. rewrite Hl. unfold look in Hmiss.
    by destruct (get t q) as [[?|?]|]. }
  assert (Hq0 : q ≠ []).
  { intros ->. apply root_is_dir, is_dir_look in Hcwd. congruence. }
  assert (Hnew : look (put t q (File d)) q = Regular d).
  { destruct (locate_target h _ t q Hl Hcwd Hq) as (q0 & c & -> & Hd0).
    by apply look_put_file. }
  exists (base +:+ ext), (put t q (File d)), (del (put t q (File d)) q).
  split_and!.
  - unfold write. rewrite Hparts, Hnf. simpl.
    by rewrite (write_file_ok h cfg _ content _ t q d).
  - unfold delete, os_remove. rewrite (locate_put_file h _ t q q d) by done.
    unfold look in Hnew. by destruct (get (put t q (File d)) q) as [[?|?]|].
  - intros p. destruct (decide (p = q)) as [->|Hne].
    + rewrite Hmiss. by apply look_del_under.
    + rewrite (look_del_file _ q d) by done.
      apply look_put_frame; [done|apply file_is_leaf|done].
Qed.

Lemma write_then_delete_undoes_witness :
  ∃ f t' t'',
    write demo_host demo_cfg 0 "memo" (Some "hi") true true None demo_fs
      = Some (Ok f, t') ∧
    delete demo_host demo_cfg f t' = (Ok (), t'') ∧
    ∀ p, look t'' p = look demo_fs p.
Proof.
  apply (write_then_delete_undoes demo_host demo_cfg 0 "memo" "hi" true true
           None demo_fs "memo" ".txt" ["home"; "app"; "storage"; "memo.txt"]
           (bytes_of_str "hi"));
    by vm_compute.
Defined.

(** ** [write] makes the directories it needs *)

Section write_dirs.
Variable h : Host.
Variable cfg : Config.

Lemma prefix_not_longer (rel : cpath) c : ¬ (rel ++ [c]) `prefix_of` rel.
Proof.
  intros Hp. apply prefix_length in Hp. rewrite length_app in Hp.
  simpl in Hp. lia.
Qed.

(** Lines 121-123 when directories are missing: they are made, from the
    last directory [qd] that exists down to the parent of the file. *)
Lemma write_file_mkdirs f content enc t dparts rel c qd d :
  parts (joinpath (self_path cfg) (parse f)) = dparts ++ rel ++ [c] →
  locate h (mkOs (is_absolute (joinpath (self_path cfg) (parse f))) dparts) t
    = Ok qd →
  look t qd = Directory →
  Forall is_name (rel ++ [c]) →
  (∀ r d0, r `prefix_of` rel → look t (qd ++ r) ≠ Regular d0) →
  look t (qd ++ rel ++ [c]) = Missing →
  encode h (default (locale_encoding h) enc) content = Ok d →
  ∃ tj, grows qd rel t tj ∧
        (∀ r, r `prefix_of` rel → look tj (qd ++ r) = Directory) ∧
        look tj (qd ++ rel ++ [c]) = Missing ∧
        write_file h cfg f content enc t
          = (Ok f, put tj (qd ++ rel ++ [c]) (File d)).
Proof.
  set (P := joinpath (self_path cfg) (parse f)).
  intros HP Hw Hqd Hnames Hfiles Hmiss He.
  pose proof Hnames as [Hrel Hc]%Forall_app.
  unfold locate in Hw. cbn [anchored comps] in Hw.
  destruct (mkdir_under h (is_absolute P) dparts qd rel t Hw Hqd Hrel Hfiles)
    as (tj & Hmk & Hdirs & Hg).
  assert (Hwj : walk tj (if is_absolute P then [] else cwd h) dparts = Ok qd).
  { eapply walk_mono; [|exact Hw]. intros p Hp. apply is_dir_look.
    eapply grows_dirs; [exact Hg|]. by apply is_dir_look. }
  assert (Hlj : locate h (under_root cfg f) tj = Ok (qd ++ rel ++ [c])).
  { change (under_root cfg f) with (os_of_path P).
    unfold locate, os_of_path. cbn [anchored comps].
    rewrite HP, walk_app, Hwj. apply walk_names_ok; [done|]. by apply Hdirs. }
  assert (Hmj : look tj (qd ++ rel ++ [c]) = Missing).
  { destruct (Hg (qd ++ rel ++ [c])) as [->|(_ & _ & r & Hr & Heq)]; [done|].
    apply app_inv_head in Heq. subst r. by apply prefix_not_longer in Hr. }
  exists tj. split_and!; [done|done|done|].
  assert (Hmk' : mkdir_parents h (parent P) t = (Ok (), tj)).
  { unfold mkdir_parents, parent, is_absolute. cbn [root parts].
    rewrite HP, app_assoc, removelast_last. exact Hmk. }
  unfold write_file, mbind, M_bind, bind. fold P. rewrite Hmk'.
  rewrite (write_text_ok h _ content enc tj (qd ++ rel ++ [c]) d); [done|done| |done].
  apply is_dir_false_look. congruence.
Qed.
End write_dirs.

(** X19.  [write] under a name whose directories do not all exist makes
    the missing ones, then the file.  With [qd] the directory that the
    first components [dparts] of the target lead to, and [rel] the
    directory names below it, none of them in use by a regular file: every
    directory on the way exists afterwards, the file holds the encoded
    content, and whatever else changed is a path on the way that was
    missing before. *)
Theorem write_makes_directories h cfg fuel name content rw bk enc t
        base ext dparts rel c qd d :
  name_parts cfg name = Some (base, ext) →
  parts (joinpath (self_path cfg) (parse (base +:+ ext))) = dparts ++ rel ++ [c] →
  locate h (mkOs (is_absolute (joinpath (self_path cfg) (parse (base +:+ ext))))
                 dparts) t = Ok qd →
  look t qd = Directory →
  Forall is_name (rel ++ [c]) →
  (∀ r d0, r `prefix_of` rel → look t (qd ++ r) ≠ Regular d0) →
  look t (qd ++ rel ++ [c]) = Missing →
  encode h (default (locale_encoding h) (py_or enc (default_encoding cfg)))
         content = Ok d →
  ∃ t', write h cfg fuel name (Some content) rw bk enc t
          = Some (Ok (base +:+ ext), t') ∧
        (∀ r, r `prefix_of` rel → look t' (qd ++ r) = Directory) ∧
        look t' (qd ++ rel ++ [c]) = Regular d ∧
        (∀ p, look t' p = look t p ∨
              (look t p = Missing ∧ ∃ r, r `prefix_of` rel ++ [c] ∧ p = qd ++ r)).
Proof.
  intros Hparts HP Hw Hqd Hnames Hfiles Hmiss He.
  destruct (write_file_mkdirs h cfg _ content _ t dparts rel c qd d
              HP Hw Hqd Hnames Hfiles Hmiss He) as (tj & Hg & Hdirs & Hmj & Hwf).
  assert (Hnf : is_file h (under_root cfg (base +:+ ext)) t = false).
  { unfold is_file, stat, locate, under_root, os_of_path. cbn [anchored comps].
    unfold locate in Hw. cbn [anchored comps] in Hw.
    rewrite HP, walk_app, Hw.
    pose proof (walk_names t qd (rel ++ [c]) Hnames) as Hn.
    destruct (walk t qd (rel ++ [c])) as [q|e]; [|done].
    subst q. unfold look in Hmiss.
    by destruct (get t (qd ++ rel ++ [c])) as [[?|?]|]. }
  assert (Hjd : is_dir_node (get tj (qd ++ rel ++ [c])) = false)
    by (apply is_dir_false_look; congruence).
  exists (put tj (qd ++ rel ++ [c]) (File d)). split_and!.
  - unfold write. rewrite Hparts, Hnf. simpl. by rewrite Hwf.
  - intros r Hr. rewrite look_put_frame; [by apply Hdirs|done|apply file_is_leaf|].
    intros Heq. apply app_inv_head in Heq. subst r.
    by apply prefix_not_longer in Hr.
  - rewrite app_assoc. apply look_put_file. apply is_dir_look.
    rewrite <- (app_nil_r rel) at 1. rewrite app_nil_r. by apply Hdirs.
  - intros p. destruct (decide (p = qd ++ rel ++ [c])) as [->|Hne].
    + right. split; [done|]. by exists (rel ++ [c]).
    + rewrite look_put_frame; [|done|apply file_is_leaf|done].
      destruct (Hg p) as [->|(Hm & _ & r & Hr & ->)]; [by left|].
      right. split; [done|]. exists r. split; [|done].
      by apply prefix_app_r.
Qed.

Lemma write_makes_directories_witness :
  ∃ t', write demo_host demo_cfg 0 "drafts/2024/memo" (Some "hi") true true
          None demo_fs = Some (Ok ("drafts/2024/memo" +:+ ".txt"), t') ∧
        (∀ r, r `prefix_of` ["drafts"; "2024"] →
              look t' (["home"; "app"; "storage"] ++ r) = Directory) ∧
        look t' (["home"; "app"; "storage"] ++ ["drafts"; "2024"] ++ ["memo.txt"])
          = Regular (bytes_of_str "hi") ∧
        (∀ p, look t' p = look demo_fs p ∨
              (look demo_fs p = Missing ∧
               ∃ r, r `prefix_of` ["drafts"; "2024"] ++ ["memo.txt"] ∧
                    p = ["home"; "app"; "storage"] ++ r)).
Proof.
  apply (write_makes_directories demo_host demo_cfg 0 "drafts/2024/memo" "hi"
           true true None demo_fs "drafts/2024/memo" ".txt" ["storage"]);
    try (by vm_compute).
  - repeat constructor; by vm_compute.
  - intros [|x r] d0 [k Hk]; [by vm_compute|].
    simplify_eq/=. by vm_compute.
Defined.

(** ** Names with a dot, and a file copied onto itself *)

(** X20.  [read] of a relative name that holds a dot, anywhere, opens
    that very name under the root: cutting the name at its last dot and
    putting it together again changes nothing, and the default extension
    is not consulted. *)
Theorem read_dotted_name h cfg name enc t :
  isabs name = false →
  startswith "./" name = false →
  contains "." name = true →
  read_name h cfg name t = (Ok (to_str (self_path cfg) +:+ "/" +:+ name), t) ∧
  read h cfg name enc t =
    read_open h (to_str (self_path cfg) +:+ "/" +:+ name)
              (py_or enc (default_encoding cfg)) t.
Proof.
  intros Hrel Hds Hdot.
  assert (Hn : read_name h cfg name t
               = (Ok (to_str (self_path cfg) +:+ "/" +:+ name), t)).
  { unfold read_name. rewrite Hrel, Hds, Hdot. cbn [negb andb].
    unfold ret. by rewrite (split_last_dot name Hdot). }
  split; [done|].
  unfold read, mbind, M_bind, bind. by rewrite Hn.
Qed.

Lemma read_dotted_name_witness :
  read_name demo_host demo_cfg "v1.2/notes.tar.gz" demo_fs
    = (Ok (to_str (self_path demo_cfg) +:+ "/" +:+ "v1.2/notes.tar.gz"), demo_fs) ∧
  read demo_host demo_cfg "v1.2/notes.tar.gz" None demo_fs =
    read_open demo_host (to_str (self_path demo_cfg) +:+ "/" +:+ "v1.2/notes.tar.gz")
              (py_or None (default_encoding demo_cfg)) demo_fs.
Proof.
  apply (read_dotted_name demo_host demo_cfg "v1.2/notes.tar.gz" None demo_fs);
    by vm_compute.
Defined.

(** X21.  [copy] of a regular file to a destination that is that same
    file raises the same-file error of [shutil.copy2], an [OSError], and
    leaves the tree as it was. *)
Theorem copy_onto_itself h cfg src dest exceptions t qs d :
  locate h (os_of_path (rooted cfg src)) t = Ok qs →
  look t qs = Regular d →
  excluded h (default [] exceptions) (name_of (rooted cfg src)) = false →
  locate h (os_of_path (rooted cfg dest)) t = Ok qs →
  is_dir_node (get t (cwd h)) = true →
  copy h cfg src dest exceptions t = (Raise OSError, t).
Proof.
  intros Hs Hd Hx Hl Hcwd.
  assert (Hq : is_dir_node (get t qs) = false)
    by (apply is_dir_false_look; congruence).
  destruct (path_parent_located h _ t qs Hl Hcwd Hq) as (q0 & Hl0 & Hd0).
  unfold copy, mbind, M_bind, bind, ask. cbv zeta.
  assert (Hsd : is_dir h (os_of_path (rooted cfg src)) t = false).
  { unfold is_dir, stat. by rewrite Hs. }
  assert (Hsf : is_file h (os_of_path (rooted cfg src)) t = true).
  { by apply (is_file_ok h _ t qs d). }
  assert (Hdd : is_dir h (os_of_path (rooted cfg dest)) t = false).
  { unfold is_dir, stat. by rewrite Hl. }
  rewrite Hsd, Hsf, Hx. cbn [negb]. rewrite Hdd.
  rewrite (mkdir_parents_exists h _ t q0) by done.
  unfold copy2. rewrite !Hdd. unfold samefile. rewrite Hs, Hl.
  rewrite bool_decide_eq_true_2 by done.
  unfold look in Hd. destruct (get t qs) as [[?|?]|]; [|done|done].
  by rewrite bool_decide_eq_true_2.
Qed.

Lemma copy_onto_itself_witness :
  copy demo_host demo_cfg "site/index.html" "site/css/../index.html" None site_fs
    = (Raise OSError, site_fs).
Proof.
  apply (copy_onto_itself demo_host demo_cfg "site/index.html"
           "site/css/../index.html" None site_fs
           ["home"; "app"; "storage"; "site"; "index.html"]
           (bytes_of_str "<html>")); by vm_compute.
Defined.

(** ** C9: the path each operation addresses *)

Section name_resolution_facts.
Variable h : Host.
Variable cfg : Config.

Lemma abs_path_joinpath name :
  abs_path cfg name = joinpath (self_path cfg) (parse name).
Proof.
  unfold abs_path, joinpath. rewrite is_absolute_parse. by destruct (isabs name).
Qed.

Lemma rooted_abs_path name : rooted cfg name = abs_path cfg name.
Proof.
  unfold rooted, abs_path. rewrite is_absolute_parse. by destruct (isabs name).
Qed.

(** The name [write] returns is the name with its extension, or a
    numbered one. *)
Lemma write_name_form fuel name content rw bk enc t f t' :
  write h cfg fuel name (Some content) rw bk enc t = Some (Ok f, t') →
  ∃ base ext, name_parts cfg name = Some (base, ext) ∧
    (f = base +:+ ext ∨ ∃ k, 1 ≤ k ∧ f = numbered base ext k).
Proof.
  unfold write. destruct (name_parts cfg name) as [[base ext]|]; [|done].
  intros Hw. exists base, ext. split; [done|].
  destruct (is_file h _ t && _).
  - destruct (probe h cfg fuel base ext 1 t) as [f1|] eqn:Hp; [|done].
    apply probe_sound in Hp as (k & Hk & -> & _).
    destruct rw; simpl in Hw.
    + destruct bk.
      * unfold mbind, M_bind, bind in Hw.
        destruct (os_rename h _ _ t) as [[[]|e] tm]; [|done].
        injection Hw as Hw. apply write_file_inv in Hw as (-> & _). by left.
      * injection Hw as Hw. apply write_file_inv in Hw as (-> & _). by left.
    + injection Hw as Hw. apply write_file_inv in Hw as (-> & _).
      right. exists k. split; [lia|done].
  - injection Hw as Hw. apply write_file_inv in Hw as (-> & _). by left.
Qed.

Lemma read_via name enc t n :
  read_name h cfg name t = (Ok n, t) →
  read h cfg name enc t = read_open h n (py_or enc (default_encoding cfg)) t.
Proof. intros Hn. unfold read, mbind, M_bind, bind. by rewrite Hn. Qed.

(** [copy] of one file to a path that is not a directory. *)
Lemma copy_file_result src dest exceptions t qs qd d :
  locate h (os_of_path (rooted cfg src)) t = Ok qs →
  look t qs = Regular d →
  excluded h (default [] exceptions) (name_of (rooted cfg src)) = false →
  locate h (os_of_path (rooted cfg dest)) t = Ok qd →
  look t qd ≠ Directory →
  qd ≠ qs →
  is_dir_node (get t (cwd h)) = true →
  copy h cfg src dest exceptions t = (Ok (), put t qd (File d)).
Proof.
  intros Hs Hd Hx Hl Hnd Hne Hcwd.
  destruct (parent_located h _ t qd Hl Hcwd) as (q0 & Hl0 & Hd0).
  unfold copy, mbind, M_bind, bind, ask. cbv zeta.
  assert (Hsd : is_dir h (os_of_path (rooted cfg src)) t = false).
  { unfold is_dir, stat. rewrite Hs. apply is_dir_false_look. congruence. }
  assert (Hsf : is_file h (os_of_path (rooted cfg src)) t = true).
  { by apply (is_file_ok h _ t qs d). }
  assert (Hdd : is_dir h (os_of_path (rooted cfg dest)) t = false).
  { unfold is_dir, stat. rewrite Hl. by apply is_dir_false_look. }
  rewrite Hsd, Hsf, Hx. cbn [negb]. rewrite Hdd.
  rewrite (mkdir_parents_exists h _ t q0) by done.
  by apply (copy2_file h _ _ t qs qd d).
Qed.
End name_resolution_facts.

(** C9, as amended.  [abs_path] takes an absolute name as it is and joins
    a relative one to the root, and that is the path the other operations
    address: [exists] tests it, [delete] removes it, [write] puts the text
    at the path of the file name it returns (the name with its extension,
    or a numbered one), [clean] removes the directory it resolves to and
    touches nothing else, [copy] takes both its source and its destination
    so.  [read] opens an absolute name as it is; a relative name with a
    dot as [<root>/<name>]; a relative name without a dot as
    [<root>/<name>], with the default extension when something of that
    name exists, which for a name that does not end in a slash is the
    path [abs_path] gives; and a name that starts with ["./"] as given,
    which the system resolves against the working directory, not the
    root. *)
Theorem name_resolution h cfg name :
  (isabs name = true → abs_path cfg name = parse name) ∧
  (isabs name = false →
     abs_path cfg name =
       mkPath (root (self_path cfg)) (parts (self_path cfg) ++ parts (parse name))) ∧
  (∀ t, exists_ h cfg name t
        = (Ok (path_exists h (os_of_path (abs_path cfg name)) t), t)) ∧
  (∀ t, delete h cfg name t = os_remove h (os_of_path (abs_path cfg name)) t) ∧
  (∀ fuel content rw bk enc t f t',
     write h cfg fuel name (Some content) rw bk enc t = Some (Ok f, t') →
     is_dir_node (get t' (cwd h)) = true →
     (∃ base ext, name_parts cfg name = Some (base, ext) ∧
        (f = base +:+ ext ∨ ∃ k, 1 ≤ k ∧ f = numbered base ext k)) ∧
     ∃ q d, locate h (os_of_path (abs_path cfg f)) t' = Ok q ∧
            look t' q = Regular d ∧
            encode h (default (locale_encoding h)
                        (py_or enc (default_encoding cfg))) content = Ok d) ∧
  (∀ t t', Forall is_name (cwd h) →
     clean h cfg name t = (Ok (), t') →
     look t' (resolve (cwd h) (abs_path cfg name)) ≠ Directory ∧
     ∀ q, ¬ resolve (cwd h) (abs_path cfg name) `prefix_of` q →
          look t' q = look t q) ∧
  (∀ dest exceptions t,
     stat h (os_of_path (abs_path cfg name)) t = None →
     copy h cfg name dest exceptions t = (Ok (), t)) ∧
  (∀ src exceptions t qs qd d,
     locate h (os_of_path (abs_path cfg src)) t = Ok qs →
     look t qs = Regular d →
     excluded h (default [] exceptions) (name_of (abs_path cfg src)) = false →
     locate h (os_of_path (abs_path cfg name)) t = Ok qd →
     look t qd ≠ Directory →
     qd ≠ qs →
     is_dir_node (get t (cwd h)) = true →
     ∃ t', copy h cfg src name exceptions t = (Ok (), t') ∧
           look t' qd = Regular d) ∧
  (∀ enc t, isabs name = true →
     read h cfg name enc t
       = read_open h name (py_or enc (default_encoding cfg)) t) ∧
  (∀ enc t, isabs name = false → startswith "./" name = false →
     contains "." name = true →
     read h cfg name enc t
       = read_open h (to_str (self_path cfg) +:+ "/" +:+ name)
                   (py_or enc (default_encoding cfg)) t) ∧
  (∀ enc t, isabs name = false → startswith "./" name = false →
     contains "." name = false →
     read h cfg name enc t
       = read_open h
           (to_str (self_path cfg) +:+ "/" +:+ name +:+
            (if path_exists h
                  (os_of_path (abs_path cfg (name +:+ fmt (default_ext cfg)))) t
             then fmt (default_ext cfg) else ""))
           (py_or enc (default_encoding cfg)) t) ∧
  (∀ x t, isabs name = false → contains "." name = false →
     nonempty (final_component name) = true →
     contains "/" x = false →
     locate h (os_of_str (to_str (self_path cfg) +:+ "/" +:+ name +:+ x)) t
       = locate h (os_of_path (abs_path cfg (name +:+ x))) t) ∧
  (∀ enc t, startswith "./" name = true →
     read h cfg name enc t
       = read_open h name (py_or enc (default_encoding cfg)) t ∧
     locate h (os_of_str name) t = walk t (cwd h) (split_on "/" name)).
Proof.
  split_and!.
  - unfold abs_path. by intros ->.
  - unfold abs_path, joinpath. rewrite is_absolute_parse. by intros ->.
  - intros t. unfold exists_, ask. by rewrite under_root_abs_path.
  - intros t. unfold delete. by rewrite under_root_abs_path.
  - intros fuel content rw bk enc t f t' Hw Hcwd.
    split; [by eapply write_name_form|].
    destruct (write_any_result h cfg _ _ _ _ _ _ _ _ _ Hw) as (f' & tm & Hwf).
    apply write_file_post in Hwf as (-> & q & d & Hl & Hq & He); [|done].
    exists q, d. by rewrite <- under_root_abs_path.
  - intros t t' Hcwd Hc. rewrite abs_path_joinpath.
    unfold clean in Hc.
    set (r := resolve (cwd h) (self_path cfg)) in *.
    set (f := resolve (cwd h) (joinpath (self_path cfg) (parse name))) in *.
    assert (Hf : Forall is_name f) by by apply resolve_names.
    destruct (bool_decide (r `prefix_of` f ∧ r ≠ f)) eqn:Hb;
      simpl in Hc; [|by inversion Hc].
    apply bool_decide_eq_true in Hb. apply strictly_under_prefix in Hb.
    assert (Hf0 : f ≠ []).
    { destruct Hb as (k & Hk & ->). by destruct r, k. }
    unfold mbind, M_bind, bind, ask, path_exists, is_dir in Hc.
    rewrite stat_names in Hc by done. unfold look at 1.
    destruct (get t f) as [[d|es]|] eqn:Hg; simpl in Hc.
    + injection Hc as <-. by rewrite Hg.
    + unfold rmtree in Hc. rewrite (locate_names h t f (Dir es)) in Hc by done.
      rewrite Hg in Hc. injection Hc as <-. split.
      * fold (look (del t f) f). by rewrite look_del_under.
      * intros q Hq. by apply look_del_frame.
    + injection Hc as <-. by rewrite Hg.
  - intros dest exceptions t Hs. rewrite <- rooted_abs_path in Hs.
    unfold copy, mbind, M_bind, bind, ask, is_dir, is_file. cbv zeta.
    rewrite Hs. cbn [is_dir_node]. by rewrite Hs.
  - intros src exceptions t qs qd d Hs Hd Hx Hl Hnd Hne Hcwd.
    rewrite <- rooted_abs_path in Hs, Hx, Hl.
    exists (put t qd (File d)). split.
    + by apply (copy_file_result h cfg src name exceptions t qs qd d).
    + assert (Hq : is_dir_node (get t qd) = false) by by apply is_dir_false_look.
      destruct (locate_target h _ t qd Hl Hcwd Hq) as (q1 & c & -> & Hd1).
      by apply look_put_file.
  - intros enc t Habs. apply read_via. unfold read_name. by rewrite Habs.
  - intros enc t Habs Hdot Hc. apply read_via.
    unfold read_name. rewrite Habs, Hdot, Hc. cbn [negb andb].
    unfold ret. by rewrite (split_last_dot name Hc).
  - intros enc t Habs Hdot Hc. apply read_via.
    unfold read_name. rewrite Habs, Hdot, Hc. cbn [negb andb].
    unfold mbind, M_bind, bind, exists_, ask, ret.
    rewrite <- under_root_abs_path. by destruct (path_exists _ _ _).
  - intros x t Habs Hc Hfin Hx. rewrite <- under_root_abs_path.
    by apply locate_read_name.
  - intros enc t Hdot. split.
    + apply read_via. unfold read_name. by rewrite Hdot, andb_false_r.
    + unfold locate, os_of_str, isabs. simpl.
      destruct name as [|a name]; [done|]. simpl in *.
      destruct (decide ("."%char = a)) as [<-|]; [|done].
      by rewrite decide_False.
Qed.

Lemma name_resolution_witness :
  exists_ demo_host demo_cfg "note.txt" older_fs = (Ok true, older_fs) ∧
  (let t' := state_after
     (write demo_host demo_cfg 0 "memo" (Some "hi") true true None demo_fs)
     demo_fs in
   ∃ q d, locate demo_host (os_of_path (abs_path demo_cfg "memo.txt")) t' = Ok q ∧
          look t' q = Regular d ∧
          demo_encode "utf-8" "hi" = Ok d) ∧
  read demo_host demo_cfg "note" None older_fs
    = read_open demo_host "storage/note.txt" (Some "utf-8") older_fs ∧
  ∃ t', copy demo_host demo_cfg "site/index.html" "site/home.html" None site_fs
          = (Ok (), t') ∧
        look t' ["home"; "app"; "storage"; "site"; "home.html"]
          = Regular (bytes_of_str "<html>").
Proof.
  split_and!.
  - destruct (name_resolution demo_host demo_cfg "note.txt")
      as (_ & _ & Hex & _).
    by rewrite Hex.
  - intros t'.
    destruct (name_resolution demo_host demo_cfg "memo")
      as (_ & _ & _ & _ & Hw & _).
    destruct (Hw 0 "hi" true true None demo_fs "memo.txt" t') as [_ Hq];
      [by vm_compute|by vm_compute|exact Hq].
  - destruct (name_resolution demo_host demo_cfg "note")
      as (_ & _ & _ & _ & _ & _ & _ & _ & _ & _ & Hr & _).
    rewrite (Hr None older_fs) by by vm_compute. by vm_compute.
  - destruct (name_resolution demo_host demo_cfg "site/home.html")
      as (_ & _ & _ & _ & _ & _ & _ & Hc & _).
    apply (Hc "site/index.html" None site_fs
             ["home"; "app"; "storage"; "site"; "index.html"]);
      by vm_compute.
Defined.
